(** * BreastNet++ : a shallow embedding of the notebook's model and driver

    The notebook [BreastNetPP_GPU_Friendly.ipynb] defines an attention gate
    ([CBAM]), a classifier ([BreastNetPP]), the loops [train] and [evaluate],
    a resumable training driver and a final [test_model] report.

    Conventions of the embedding:
    - a Python float or a tensor element is a real number ([R]); rounding,
      overflow and NaN are outside the model, and an operation whose float
      result would be NaN has no value here;
    - a Python exception is the [Raise] side of [result];
    - a tensor carries its shape and an indexing function, the way PyTorch
      documents each operator: a shape rule and a formula per output element;
    - a binary label tensor (0.0 / 1.0) is a [bool]. *)

From Stdlib Require Import Reals Lra Lia ZArith List String DecimalString.
From Stdlib Require DecimalNat.
From stdpp Require Import gmap strings.

(** ** Python exceptions *)

Inductive PyError : Type :=
| ZeroDivisionError
| KeyError (key : string)
| FileNotFoundError (path : string)
| TypeError
| ValueError (why : string)
| RuntimeError (why : string).

Inductive result (A : Type) : Type :=
| Ok (a : A)
| Raise (e : PyError).
Arguments Ok {A} a.
Arguments Raise {A} e.

#[global] Instance result_ret : MRet result := fun A a => Ok a.
#[global] Instance result_bind : MBind result := fun A B f m =>
  match m with
  | Ok a => f a
  | Raise e => Raise e
  end.

(** Python's [a // b] on integers: floor division, which is [Z.div]. *)
Definition py_floordiv (a b : Z) : result Z :=
  if (b =? 0)%Z then Raise ZeroDivisionError else Ok (a / b)%Z.

(** ** The part of PyTorch the notebook uses *)

Module Torch.
Local Open Scope R_scope.

(** A rank-4 tensor, batch x channel x height x width. *)
Record Tensor : Type := mkTensor {
  dimB : nat;
  dimC : nat;
  dimH : nat;
  dimW : nat;
  at4 : nat -> nat -> nat -> nat -> R
}.

Definition shape (x : Tensor) : nat * nat * nat * nat :=
  (dimB x, dimC x, dimH x, dimW x).

(** A rank-2 tensor, batch x feature. *)
Record Tensor2 : Type := mkTensor2 {
  rows : nat;
  cols : nat;
  at2 : nat -> nat -> R
}.

Definition shape2 (x : Tensor2) : nat * nat := (rows x, cols x).

(** [rsum n f] is f 0 + ... + f (n-1). *)
Fixpoint rsum (n : nat) (f : nat -> R) : R :=
  match n with
  | O => 0
  | S k => rsum k f + f k
  end.

(** [rmax n f] is the maximum of f 0, ..., f n. *)
Fixpoint rmax (n : nat) (f : nat -> R) : R :=
  match n with
  | O => f O
  | S k => Rmax (rmax k f) (f (S k))
  end.

Definition sigmoid (v : R) : R := 1 / (1 + exp (- v)).
Definition relu (v : R) : R := Rmax 0 v.

Definition tmap (f : R -> R) (x : Tensor) : Tensor :=
  mkTensor (dimB x) (dimC x) (dimH x) (dimW x)
           (fun b c i j => f (at4 x b c i j)).

Definition tmap2 (f : R -> R) (x : Tensor2) : Tensor2 :=
  mkTensor2 (rows x) (cols x) (fun b k => f (at2 x b k)).

(** nn.ReLU() and nn.Sigmoid() work element by element. *)
Definition ReLU (x : Tensor) : result Tensor := Ok (tmap relu x).
Definition Sigmoid (x : Tensor) : result Tensor := Ok (tmap sigmoid x).
Definition ReLU2 (x : Tensor2) : result Tensor2 := Ok (tmap2 relu x).
Definition Sigmoid2 (x : Tensor2) : result Tensor2 := Ok (tmap2 sigmoid x).

(** nn.AdaptiveAvgPool2d(1): the mean of each channel plane, kept as a
    1 x 1 plane.  The mean of an empty plane is no real number. *)
Definition AdaptiveAvgPool2d_1 (x : Tensor) : result Tensor :=
  if (dimC x =? 0)%nat || (dimH x =? 0)%nat || (dimW x =? 0)%nat
  then Raise (RuntimeError "adaptive_avg_pool2d: empty non-batch dimension")
  else Ok (mkTensor (dimB x) (dimC x) 1 1
             (fun b c _ _ =>
                rsum (dimH x) (fun i => rsum (dimW x) (fun j => at4 x b c i j))
                / INR (dimH x * dimW x))).

(** nn.Conv2d(in, out, k, padding=p, bias=False), stride 1: the weight has
    shape out x in x k x k.  The forward pass refuses a weight without
    output channel or with an empty kernel, an input of another channel
    count, and a kernel larger than the padded input. *)
Record Conv2d : Type := mkConv2d {
  in_channels : nat;
  out_channels : nat;
  kernel_size : nat;
  padding : nat;
  weight : nat -> nat -> nat -> nat -> R
}.

(** The constructor allocates the weight; a negative size is refused. *)
Definition Conv2d_init (cin cout k p : Z)
    (w : nat -> nat -> nat -> nat -> R) : result Conv2d :=
  if (cin <? 0)%Z || (cout <? 0)%Z || (k <? 0)%Z || (p <? 0)%Z
  then Raise (RuntimeError "negative dimension")
  else Ok (mkConv2d (Z.to_nat cin) (Z.to_nat cout) (Z.to_nat k) (Z.to_nat p) w).

(** The input seen through [p] rows and columns of zero padding. *)
Definition padded (p : nat) (x : Tensor) (b c i j : nat) : R :=
  if (p <=? i)%nat && (i <? p + dimH x)%nat && (p <=? j)%nat && (j <? p + dimW x)%nat
  then at4 x b c (i - p) (j - p)
  else 0.

Definition Conv2d_forward (m : Conv2d) (x : Tensor) : result Tensor :=
  if (out_channels m =? 0)%nat || (kernel_size m =? 0)%nat
  then Raise (RuntimeError "conv2d: empty weight")
  else if negb (dimC x =? in_channels m)%nat
  then Raise (RuntimeError "conv2d: channel mismatch")
  else if (dimH x + 2 * padding m <? kernel_size m)%nat
          || (dimW x + 2 * padding m <? kernel_size m)%nat
  then Raise (RuntimeError "conv2d: kernel larger than padded input")
  else Ok (mkTensor (dimB x) (out_channels m)
             (dimH x + 2 * padding m + 1 - kernel_size m)
             (dimW x + 2 * padding m + 1 - kernel_size m)
             (fun b o i j =>
                rsum (in_channels m) (fun c =>
                rsum (kernel_size m) (fun u =>
                rsum (kernel_size m) (fun v =>
                  weight m o c u v * padded (padding m) x b c (i + u) (j + v)))))).

(** Broadcasting of one dimension: equal sizes, or one of them is 1. *)
Definition bcast_dim (a b : nat) : option nat :=
  if (a =? b)%nat then Some a
  else if (a =? 1)%nat then Some b
  else if (b =? 1)%nat then Some a
  else None.

(** The index read from a tensor whose dimension has size [d]. *)
Definition bcast_idx (d i : nat) : nat := if (d =? 1)%nat then O else i.

(** [x * y] on two rank-4 tensors. *)
Definition mul (x y : Tensor) : result Tensor :=
  match bcast_dim (dimB x) (dimB y), bcast_dim (dimC x) (dimC y),
        bcast_dim (dimH x) (dimH y), bcast_dim (dimW x) (dimW y) with
  | Some nb, Some nc, Some nh, Some nw =>
      Ok (mkTensor nb nc nh nw
            (fun b c i j =>
               at4 x (bcast_idx (dimB x) b) (bcast_idx (dimC x) c)
                     (bcast_idx (dimH x) i) (bcast_idx (dimW x) j)
               * at4 y (bcast_idx (dimB y) b) (bcast_idx (dimC y) c)
                       (bcast_idx (dimH y) i) (bcast_idx (dimW y) j)))
  | _, _, _, _ => Raise (RuntimeError "shapes do not broadcast")
  end.

(** torch.max(x, dim=1, keepdim=True), the values. *)
Definition max_dim1 (x : Tensor) : result Tensor :=
  if (dimC x =? 0)%nat
  then Raise (RuntimeError "max over an empty dimension")
  else Ok (mkTensor (dimB x) 1 (dimH x) (dimW x)
             (fun b _ i j => rmax (dimC x - 1) (fun c => at4 x b c i j))).

(** torch.mean(x, dim=1, keepdim=True). *)
Definition mean_dim1 (x : Tensor) : result Tensor :=
  if (dimC x =? 0)%nat
  then Raise (RuntimeError "mean over an empty dimension")
  else Ok (mkTensor (dimB x) 1 (dimH x) (dimW x)
             (fun b _ i j => rsum (dimC x) (fun c => at4 x b c i j) / INR (dimC x))).

(** torch.cat([x, y], dim=1). *)
Definition cat_dim1 (x y : Tensor) : result Tensor :=
  if (dimB x =? dimB y)%nat && (dimH x =? dimH y)%nat && (dimW x =? dimW y)%nat
  then Ok (mkTensor (dimB x) (dimC x + dimC y) (dimH x) (dimW x)
             (fun b c i j =>
                if (c <? dimC x)%nat then at4 x b c i j
                else at4 y b (c - dimC x) i j))
  else Raise (RuntimeError "cat: sizes differ outside dimension 1").

(** x.view(x.size(0), -1): rows are the batch entries, in C-H-W order.  With
    no element the size behind -1 cannot be inferred. *)
Definition view_flat (x : Tensor) : result Tensor2 :=
  if (dimB x =? 0)%nat
  then Raise (RuntimeError "view: cannot infer -1 for an empty tensor")
  else Ok (mkTensor2 (dimB x) (dimC x * dimH x * dimW x)
             (fun b k => at4 x b (k / (dimH x * dimW x))
                              ((k / dimW x) mod dimH x) (k mod dimW x))).

(** nn.Linear(in, out): y = x W^T + b. *)
Record Linear : Type := mkLinear {
  in_features : nat;
  out_features : nat;
  lweight : nat -> nat -> R;
  lbias : nat -> R
}.

Definition Linear_forward (m : Linear) (x : Tensor2) : result Tensor2 :=
  if (cols x =? in_features m)%nat
  then Ok (mkTensor2 (rows x) (out_features m)
             (fun b o => rsum (in_features m) (fun k => at2 x b k * lweight m o k)
                         + lbias m o))
  else Raise (RuntimeError "linear: feature mismatch").

(** nn.Dropout(p).  In training mode every element is dropped with
    probability p, and a kept element is scaled by 1 / (1 - p); [keep] is
    the outcome of the draws.  In evaluation mode it is the identity. *)
Record Dropout : Type := mkDropout { rate : R }.

Definition dropout_elem (p : R) (training keep : bool) (v : R) : R :=
  if training then (if keep then v / (1 - p) else 0) else v.

Definition Dropout_forward (m : Dropout) (training : bool)
    (keep : nat -> nat -> bool) (x : Tensor2) : result Tensor2 :=
  Ok (mkTensor2 (rows x) (cols x)
        (fun b k => dropout_elem (rate m) training (keep b k) (at2 x b k))).

End Torch.

(** ** The model: attention gate and classifier (notebook cell 2) *)

Module Model.
Import Torch.

(** [class CBAM(nn.Module)].  [channel_attention] is the Sequential of a
    global average pool, two 1 x 1 convolutions with a ReLU between them and
    a Sigmoid; [spatial_attention] is one convolution and a Sigmoid.  Only
    the convolutions hold state. *)
Record CBAM : Type := mkCBAM {
  ca_conv1 : Conv2d;
  ca_conv2 : Conv2d;
  sa_conv : Conv2d
}.

(** The values the three weights are initialised with. *)
Record CBAMWeights : Type := mkCBAMWeights {
  w_ca1 : nat -> nat -> nat -> nat -> R;
  w_ca2 : nat -> nat -> nat -> nat -> R;
  w_sa : nat -> nat -> nat -> nat -> R
}.

(** [CBAM.__init__(self, channels, reduction=16, kernel_size=7)]. *)
Definition CBAM_init (channels reduction kernel_size : Z) (w : CBAMWeights)
    : result CBAM :=
  mid ← py_floordiv channels reduction;
  c1 ← Conv2d_init channels mid 1 0 (w_ca1 w);
  c2 ← Conv2d_init mid channels 1 0 (w_ca2 w);
  pad ← py_floordiv kernel_size 2;
  cs ← Conv2d_init 2 1 kernel_size pad (w_sa w);
  mret (mkCBAM c1 c2 cs).

Definition channel_attention (m : CBAM) (x : Tensor) : result Tensor :=
  x ← AdaptiveAvgPool2d_1 x;
  x ← Conv2d_forward (ca_conv1 m) x;
  x ← ReLU x;
  x ← Conv2d_forward (ca_conv2 m) x;
  Sigmoid x.

Definition spatial_attention (m : CBAM) (x : Tensor) : result Tensor :=
  x ← Conv2d_forward (sa_conv m) x;
  Sigmoid x.

(** [CBAM.forward(self, x)], line by line. *)
Definition CBAM_forward (m : CBAM) (x : Tensor) : result Tensor :=
  ca ← channel_attention m x;
  x ← mul x ca;
  max_out ← max_dim1 x;
  mean_out ← mean_dim1 x;
  sa_input ← cat_dim1 max_out mean_out;
  sa ← spatial_attention m sa_input;
  x ← mul x sa;
  mret x.

(** [class BreastNetPP(nn.Module)].  The backbone is the pretrained
    EfficientNet-B0 of the efficientnet_pytorch package, an external
    function of the module's mode and of the image batch.  [training] is the
    mode that model.train() and model.eval() switch. *)
Record BreastNetPP : Type := mkBreastNetPP {
  backbone : bool -> Tensor -> result Tensor;
  cbam : CBAM;
  dropout1 : Dropout;
  fc1 : Linear;
  dropout2 : Dropout;
  fc2 : Linear;
  training : bool
}.

Record HeadWeights : Type := mkHeadWeights {
  w_fc1 : nat -> nat -> R;
  b_fc1 : nat -> R;
  w_fc2 : nat -> nat -> R;
  b_fc2 : nat -> R
}.

(** [BreastNetPP.__init__(self)]; a module starts in training mode. *)
Definition BreastNetPP_init (efficientnet : bool -> Tensor -> result Tensor)
    (wc : CBAMWeights) (wh : HeadWeights) : result BreastNetPP :=
  c ← CBAM_init 1280 16 7 wc;
  mret (mkBreastNetPP efficientnet c
          (mkDropout (5 / 10)%R)
          (mkLinear 1280 128 (w_fc1 wh) (b_fc1 wh))
          (mkDropout (3 / 10)%R)
          (mkLinear 128 1 (w_fc2 wh) (b_fc2 wh))
          true).

Definition set_mode (mode : bool) (net : BreastNetPP) : BreastNetPP :=
  mkBreastNetPP (backbone net) (cbam net) (dropout1 net) (fc1 net)
                (dropout2 net) (fc2 net) mode.

(** model.train() and model.eval(). *)
Definition model_train : BreastNetPP -> BreastNetPP := set_mode true.
Definition model_eval : BreastNetPP -> BreastNetPP := set_mode false.

(** The classification head: the lines of [BreastNetPP.forward] after the
    attention gate.  [keep1] and [keep2] are the draws of the two dropout
    stages. *)
Definition head (net : BreastNetPP) (keep1 keep2 : nat -> nat -> bool)
    (x : Tensor) : result Tensor2 :=
  x ← AdaptiveAvgPool2d_1 x;
  x ← view_flat x;
  x ← Dropout_forward (dropout1 net) (training net) keep1 x;
  x ← Linear_forward (fc1 net) x;
  x ← ReLU2 x;
  x ← Dropout_forward (dropout2 net) (training net) keep2 x;
  x ← Linear_forward (fc2 net) x;
  Sigmoid2 x.

(** [BreastNetPP.forward(self, x)]. *)
Definition BreastNetPP_forward (net : BreastNetPP)
    (keep1 keep2 : nat -> nat -> bool) (x : Tensor) : result Tensor2 :=
  x ← backbone net (training net) x;
  x ← CBAM_forward (cbam net) x;
  head net keep1 keep2 x.

End Model.

(** ** The metrics of scikit-learn that [test_model] calls *)

Module Sklearn.
Local Open Scope R_scope.

(** Entries of the binary confusion matrix, positive label 1. *)
Definition count_pairs (f : bool -> bool -> bool) (y_true y_pred : list bool) : nat :=
  length (List.filter (fun tp : bool * bool => f (fst tp) (snd tp)) (combine y_true y_pred)).

Definition true_pos := count_pairs (fun t p => t && p).
Definition false_pos := count_pairs (fun t p => negb t && p).
Definition false_neg := count_pairs (fun t p => t && negb p).

(** A ratio of counts; [zero_division] is the value reported when the
    denominator is zero. *)
Definition prf_divide (num den : nat) (zero_division : R) : R :=
  if (den =? 0)%nat then zero_division else INR num / INR den.

(** Every metric first checks that the two vectors have one length. *)
Definition check_consistent_length (y_true y_pred : list bool) : result unit :=
  if (length y_true =? length y_pred)%nat then Ok tt
  else Raise (ValueError "inconsistent numbers of samples").

Definition precision_score (y_true y_pred : list bool) (zero_division : R) : result R :=
  _ ← check_consistent_length y_true y_pred;
  mret (prf_divide (true_pos y_true y_pred)
          (true_pos y_true y_pred + false_pos y_true y_pred) zero_division).

Definition recall_score (y_true y_pred : list bool) (zero_division : R) : result R :=
  _ ← check_consistent_length y_true y_pred;
  mret (prf_divide (true_pos y_true y_pred)
          (true_pos y_true y_pred + false_neg y_true y_pred) zero_division).

Definition f1_score (y_true y_pred : list bool) (zero_division : R) : result R :=
  _ ← check_consistent_length y_true y_pred;
  mret (prf_divide (2 * true_pos y_true y_pred)
          (2 * true_pos y_true y_pred + false_pos y_true y_pred
           + false_neg y_true y_pred) zero_division).

(** The fraction of equal positions; of no position it is NaN ([None]). *)
Definition accuracy_score (y_true y_pred : list bool) : result (option R) :=
  _ ← check_consistent_length y_true y_pred;
  mret (if (length y_true =? 0)%nat then None
        else Some (INR (count_pairs Bool.eqb y_true y_pred) / INR (length y_true))).

End Sklearn.

(** ** Loops, checkpoints and the driver (notebook cells 7 to 12) *)

(** True division [a / n] of a float by an integer count. *)
Definition py_truediv (a : R) (n : nat) : result R :=
  if (n =? 0)%nat then Raise ZeroDivisionError else Ok (a / INR n)%R.

(** [(outputs > 0.5).float()] on one element. *)
Definition threshold (out : R) : bool :=
  if Rlt_dec (1 / 2) out then true else false.

(** [(preds == labels).sum().item()]. *)
Definition count_equal (preds labels : list bool) : nat :=
  length (List.filter (fun pl : bool * bool => Bool.eqb (fst pl) (snd pl)) (combine preds labels)).

Definition save_dir : string := "saved_models".

Definition str_of_nat (n : nat) : string := NilZero.string_of_uint (Nat.to_uint n).

(** f"{save_dir}/breastnetpp_epoch_{n}.pth" *)
Definition epoch_path (n : nat) : string :=
  save_dir +:+ "/breastnetpp_epoch_" +:+ str_of_nat n +:+ ".pth".

(** f"{save_dir}/breastnetpp_best_model.pth" *)
Definition best_path : string := save_dir +:+ "/breastnetpp_best_model.pth".

Definition num_epochs : nat := 10.

(** The lines the driver and [test_model] print. *)
Inductive Line : Type :=
| LineResumed (start_epoch : nat)
| LineFresh
| LineEpoch (n total : nat)
| LineEpochDone (n : nat) (train_loss val_loss val_acc : R)
| LineBest (n : nat) (val_acc : R)
| LineHeader
| LineAccuracy (acc : option R)
| LinePrecision (prec : R)
| LineRecall (rec : R)
| LineF1 (f1 : R).

Section Notebook.

(** An image, the parameters of the model ([model.state_dict()]) and the
    state of the optimizer ([optimizer.state_dict()]). *)
Context {Img ModelState OptimState : Type}.

(** A batch of the DataLoader: images with their labels. *)
Definition Batch : Type := list (Img * bool).

(** [model(imgs)] in evaluation mode, one probability per image. *)
Variable forward_eval : ModelState -> Img -> R.
(** [model(imgs)] in training mode, on the whole batch. *)
Variable forward_train : ModelState -> list Img -> list R.
(** [criterion(outputs, labels)] followed by [loss.item()]. *)
Variable criterion : list R -> list bool -> R.
(** [loss.backward(); optimizer.step()] after [optimizer.zero_grad()]. *)
Variable backward_step :
  ModelState -> OptimState -> list Img -> list bool -> ModelState * OptimState.

(** The dropout masks of a training pass and the order in which a shuffling
    loader yields its batches come from random state that no checkpoint
    stores.  [forward_train], [backward_step] and the loaders stand for the
    draws of the one run that is modelled; two runs, such as an
    uninterrupted one and a resumed one, are never assumed to share them. *)

(** The for loop of [train]. *)
Fixpoint train_loop (model : ModelState) (optimizer : OptimState)
    (loader : list Batch) (running_loss : R) : ModelState * OptimState * R :=
  match loader with
  | [] => (model, optimizer, running_loss)
  | batch :: rest =>
      let imgs := map fst batch in
      let labels := map snd batch in
      let outputs := forward_train model imgs in
      let loss := criterion outputs labels in
      let '(model', optimizer') := backward_step model optimizer imgs labels in
      train_loop model' optimizer' rest (running_loss + loss)%R
  end.

(** [train(model, loader, optimizer, criterion)]: the updated model and
    optimizer, and the returned mean loss. *)
Definition train (model : ModelState) (optimizer : OptimState)
    (loader : list Batch) : result (ModelState * OptimState * R) :=
  let '(model', optimizer', running_loss) := train_loop model optimizer loader 0%R in
  mean ← py_truediv running_loss (length loader);
  mret (model', optimizer', mean).

(** The for loop of [evaluate]. *)
Fixpoint evaluate_loop (model : ModelState) (loader : list Batch)
    (running_loss : R) (correct total : nat) : R * nat * nat :=
  match loader with
  | [] => (running_loss, correct, total)
  | batch :: rest =>
      let imgs := map fst batch in
      let labels := map snd batch in
      let outputs := map (forward_eval model) imgs in
      let loss := criterion outputs labels in
      let preds := map threshold outputs in
      evaluate_loop model rest (running_loss + loss)%R
        (correct + count_equal preds labels) (total + length labels)
  end.

(** [evaluate(model, loader, criterion)]: (mean loss, accuracy). *)
Definition evaluate (model : ModelState) (loader : list Batch) : result (R * R) :=
  let '(running_loss, correct, total) := evaluate_loop model loader 0%R 0 0 in
  accuracy ← py_truediv (INR correct) total;
  mean ← py_truediv running_loss (length loader);
  mret (mean, accuracy).

(** What torch.save pickles: the values of a checkpoint dictionary, and the
    two kinds of file the driver writes. *)
Inductive PyObj : Type :=
| PInt (n : nat)
| PFloat (r : R)
| PModel (m : ModelState)
| POptim (o : OptimState).

Inductive Saved : Type :=
| SavedDict (d : gmap string PyObj)
| SavedStateDict (m : ModelState).

(** The globals of the notebook that the driver reads and writes, the files
    under [save_dir] and the printed lines (latest first).  [best_val_acc]
    holds whatever the checkpoint had under 'val_accuracy' until the first
    comparison reads it as a number. *)
Record Globals : Type := mkGlobals {
  model : ModelState;
  optimizer : OptimState;
  start_epoch : nat;
  best_val_acc : PyObj;
  files : gmap string Saved;
  stdout : list Line
}.

(** torch.load(path) *)
Definition torch_load (fs : gmap string Saved) (path : string) : result Saved :=
  match fs !! path with
  | Some s => Ok s
  | None => Raise (FileNotFoundError path)
  end.

(** checkpoint[key]; the state dict of a model has no such key. *)
Definition getitem (s : Saved) (key : string) : result PyObj :=
  match s with
  | SavedDict d =>
      match d !! key with
      | Some v => Ok v
      | None => Raise (KeyError key)
      end
  | SavedStateDict _ => Raise (KeyError key)
  end.

(** checkpoint.get(key, default) *)
Definition dict_get (s : Saved) (key : string) (dflt : PyObj) : PyObj :=
  match s with
  | SavedDict d => default dflt (d !! key)
  | SavedStateDict _ => dflt
  end.

Definition as_model (v : PyObj) : result ModelState :=
  match v with PModel m => Ok m | _ => Raise TypeError end.
Definition as_optim (v : PyObj) : result OptimState :=
  match v with POptim o => Ok o | _ => Raise TypeError end.
Definition as_int (v : PyObj) : result nat :=
  match v with PInt n => Ok n | _ => Raise TypeError end.
Definition as_float (v : PyObj) : result R :=
  match v with PFloat r => Ok r | PInt n => Ok (INR n) | _ => Raise TypeError end.

(** The globals [train_loader], [val_loader] of cell 5. *)
Variable train_loader : list Batch.
Variable val_loader : list Batch.

(** [resume_checkpoint_path and os.path.exists(resume_checkpoint_path)]:
    None and the empty string are false. *)
Definition resume_requested (fs : gmap string Saved) (path : option string) : bool :=
  match path with
  | None => false
  | Some p => negb (String.eqb p "") && bool_decide (is_Some (fs !! p))
  end.

(** Cell 23513830 up to the training loop: [start_epoch = 0],
    [best_val_acc = 0.0], then the resume branch. *)
Definition resume (resume_checkpoint_path : option string) (g : Globals)
    : result Globals :=
  if resume_requested (files g) resume_checkpoint_path then
    checkpoint ← torch_load (files g) (default "" resume_checkpoint_path);
    m ← getitem checkpoint "model_state_dict" ≫= as_model;
    o ← getitem checkpoint "optimizer_state_dict" ≫= as_optim;
    e ← getitem checkpoint "epoch" ≫= as_int;
    let best := dict_get checkpoint "val_accuracy" (PFloat 0) in
    mret (mkGlobals m o e best (files g) (LineResumed e :: stdout g))
  else
    mret (mkGlobals (model g) (optimizer g) 0 (PFloat 0) (files g)
            (LineFresh :: stdout g)).

(** The checkpoint dictionary written at the end of an epoch. *)
Definition make_checkpoint (epoch : nat) (m : ModelState) (o : OptimState)
    (val_loss val_acc : R) : gmap string PyObj :=
  <["epoch" := PInt (epoch + 1)]>
  (<["model_state_dict" := PModel m]>
  (<["optimizer_state_dict" := POptim o]>
  (<["val_loss" := PFloat val_loss]>
  (<["val_accuracy" := PFloat val_acc]> ∅)))).

(** The body of [for epoch in range(start_epoch, num_epochs)]. *)
Definition epoch_body (epoch : nat) (g : Globals) : result Globals :=
  let out := LineEpoch (epoch + 1) num_epochs :: stdout g in
  '(m, o, train_loss) ← train (model g) (optimizer g) train_loader;
  '(val_loss, val_acc) ← evaluate m val_loader;
  let out := LineEpochDone (epoch + 1) train_loss val_loss val_acc :: out in
  let checkpoint := make_checkpoint epoch m o val_loss val_acc in
  let fs := <[epoch_path (epoch + 1) := SavedDict checkpoint]> (files g) in
  best ← as_float (best_val_acc g);
  if Rlt_dec best val_acc then
    mret (mkGlobals m o (start_epoch g) (PFloat val_acc)
            (<[best_path := SavedStateDict m]> fs)
            (LineBest (epoch + 1) val_acc :: out))
  else
    mret (mkGlobals m o (start_epoch g) (best_val_acc g) fs out).

(** range(a, b) *)
Definition range (a b : nat) : list nat := seq a (b - a).

Fixpoint run_epochs (epochs : list nat) (g : Globals) : result Globals :=
  match epochs with
  | [] => Ok g
  | epoch :: rest => g' ← epoch_body epoch g; run_epochs rest g'
  end.

(** The whole of cell 23513830. *)
Definition resume_and_train (resume_checkpoint_path : option string) (g : Globals)
    : result Globals :=
  g ← resume resume_checkpoint_path g;
  run_epochs (range (start_epoch g) num_epochs) g.

(** The prediction loop of [test_model]: all_preds and all_labels. *)
Fixpoint test_loop (m : ModelState) (loader : list Batch)
    (all_preds all_labels : list bool) : list bool * list bool :=
  match loader with
  | [] => (all_preds, all_labels)
  | batch :: rest =>
      let imgs := map fst batch in
      let labels := map snd batch in
      let outputs := map (forward_eval m) imgs in
      let preds := map threshold outputs in
      test_loop m rest (all_preds ++ preds) (all_labels ++ labels)
  end.

(** [test_model(model, test_loader, checkpoint_path)] up to the four lines
    of "Evaluation Results": the model it leaves loaded and the lines it
    prints, latest first.  The two tables printed after them are not
    modelled. *)
Definition test_model (fs : gmap string Saved) (test_loader : list Batch)
    (checkpoint_path : string) : result (ModelState * list Line) :=
  checkpoint ← torch_load fs checkpoint_path;
  m ← getitem checkpoint "model_state_dict" ≫= as_model;
  let '(y_pred, y_true) := test_loop m test_loader [] [] in
  acc ← Sklearn.accuracy_score y_true y_pred;
  prec ← Sklearn.precision_score y_true y_pred 0;
  rec ← Sklearn.recall_score y_true y_pred 0;
  f1 ← Sklearn.f1_score y_true y_pred 0;
  mret (m, [LineF1 f1; LineRecall rec; LinePrecision prec; LineAccuracy acc; LineHeader]).

End Notebook.

Arguments Batch Img : clear implicits.
Arguments PyObj ModelState OptimState : clear implicits.
Arguments Saved ModelState OptimState : clear implicits.
Arguments Globals ModelState OptimState : clear implicits.

(** ** Vocabulary of the specification

    The quantities the specification names, written after its words; the
    properties below compare them with what the code computes. *)

Module Spec.
Import Torch.
Local Open Scope R_scope.

(** Global average pool: the mean of channel [c] of sample [b]. *)
Definition global_avg (x : Tensor) (b c : nat) : R :=
  rsum (dimH x) (fun i => rsum (dimW x) (fun j => at4 x b c i j))
  / INR (dimH x * dimW x).

(** The bottleneck C -> mid -> C on the pooled vector, a ReLU between the
    two layers, then the sigmoid: the weight of channel [c] of sample [b]. *)
Definition channel_weight (w1 w2 : nat -> nat -> nat -> nat -> R) (mid : nat)
    (x : Tensor) (b c : nat) : R :=
  sigmoid (rsum mid (fun k =>
             w2 c k O O * relu (rsum (dimC x) (fun c' => w1 k c' O O * global_avg x b c')))).

(** Maximum and mean across the channels at one pixel. *)
Definition channel_max (x : Tensor) (b i j : nat) : R :=
  rmax (dimC x - 1) (fun c => at4 x b c i j).

Definition channel_mean (x : Tensor) (b i j : nat) : R :=
  rsum (dimC x) (fun c => at4 x b c i j) / INR (dimC x).

(** A plane of [h] rows and [w] columns behind [p] rows and columns of zeros. *)
Definition zero_pad (p h w : nat) (plane : nat -> nat -> R) (i j : nat) : R :=
  if (p <=? i)%nat && (i <? p + h)%nat && (p <=? j)%nat && (j <? p + w)%nat
  then plane (i - p)%nat (j - p)%nat
  else 0.

(** The k x k window of a plane at (i, j), weighted by [wt]. *)
Definition window_sum (k : nat) (wt : nat -> nat -> R) (plane : nat -> nat -> R)
    (i j : nat) : R :=
  rsum k (fun u => rsum k (fun v => wt u v * plane (i + u)%nat (j + v)%nat)).

(** One convolution of the 2-channel map (maximum, mean) to 1 channel, with
    kernel size [k] and padding [k / 2], then the sigmoid: the weight of
    pixel (i, j) of sample [b]. *)
Definition spatial_weight (ws : nat -> nat -> nat -> nat -> R) (k : nat)
    (x : Tensor) (b i j : nat) : R :=
  sigmoid (window_sum k (ws O O) (zero_pad (k / 2) (dimH x) (dimW x) (channel_max x b)) i j
           + window_sum k (ws O 1%nat) (zero_pad (k / 2) (dimH x) (dimW x) (channel_mean x b)) i j).

(** The classification head on sample [b]: global average pool, dropout at
    rate 0.5, dense layer to 128 features, ReLU, dropout at rate 0.3, dense
    layer to 1 feature, sigmoid.  [training] tells whether the dropout
    stages are active; [keep1] and [keep2] are their draws. *)
Definition head_hidden (wh : Model.HeadWeights) (training : bool)
    (keep1 : nat -> nat -> bool) (x : Tensor) (b k : nat) : R :=
  relu (rsum 1280 (fun c =>
          dropout_elem (5 / 10) training (keep1 b c) (global_avg x b c)
          * Model.w_fc1 wh k c)
        + Model.b_fc1 wh k).

Definition head_output (wh : Model.HeadWeights) (training : bool)
    (keep1 keep2 : nat -> nat -> bool) (x : Tensor) (b : nat) : R :=
  sigmoid (rsum 128 (fun k =>
             dropout_elem (3 / 10) training (keep2 b k) (head_hidden wh training keep1 x b k)
             * Model.w_fc2 wh O k)
           + Model.b_fc2 wh O).

(** The same head without any dropout. *)
Definition head_output_eval (wh : Model.HeadWeights) (x : Tensor) (b : nat) : R :=
  sigmoid (rsum 128 (fun k =>
             relu (rsum 1280 (fun c => global_avg x b c * Model.w_fc1 wh k c)
                   + Model.b_fc1 wh k)
             * Model.w_fc2 wh O k)
           + Model.b_fc2 wh O).

End Spec.

(** Vocabulary for the loops and the driver. *)

Section NotebookSpec.
Context {Img ModelState OptimState : Type}.
Variable forward_eval : ModelState -> Img -> R.
Variable criterion : list R -> list bool -> R.

(** The loss of one evaluation batch. *)
Definition batch_loss (model : ModelState) (batch : list (Img * bool)) : R :=
  criterion (map (forward_eval model) (map fst batch)) (map snd batch).

(** The sum of the batch losses. *)
Definition total_loss (model : ModelState) (loader : list (list (Img * bool))) : R :=
  fold_right (fun batch acc => (batch_loss model batch + acc)%R) 0%R loader.

(** A prediction is the probability thresholded at 0.5; it is correct when
    it equals the label. *)
Definition prediction (model : ModelState) (sample : Img * bool) : bool :=
  threshold (forward_eval model (fst sample)).

Definition is_correct (model : ModelState) (sample : Img * bool) : bool :=
  Bool.eqb (prediction model sample) (snd sample).

(** All samples of a loader, and the number of correct ones. *)
Definition samples (loader : list (list (Img * bool))) : list (Img * bool) :=
  concat loader.

Definition n_correct (model : ModelState) (loader : list (list (Img * bool))) : nat :=
  length (List.filter (is_correct model) (samples loader)).

(** The number under which the loop index [epoch] is printed and recorded. *)
Definition epoch_number (epoch : nat) : nat := epoch + 1.

(** The checkpoint a resume request designates: none without a path, with
    an empty path, or without a file at the path. *)
Definition requested_checkpoint (fs : gmap string (Saved ModelState OptimState))
    (path : option string) : option (Saved ModelState OptimState) :=
  match path with
  | None => None
  | Some p => if String.eqb p "" then None else fs !! p
  end.

(** The best validation accuracy seen so far: the largest of [seed] and of
    the validation accuracies on the printed end-of-epoch lines. *)
Fixpoint best_seen (seed : R) (out : list Line) : R :=
  match out with
  | [] => seed
  | LineEpochDone _ _ _ val_acc :: rest => Rmax (best_seen seed rest) val_acc
  | _ :: rest => best_seen seed rest
  end.

(** The lines printed since the resume branch last ran (the printed lines
    are latest first). *)
Fixpoint since_restart (out : list Line) : list Line :=
  match out with
  | [] => []
  | LineResumed _ :: _ => []
  | LineFresh :: _ => []
  | line :: rest => line :: since_restart rest
  end.

(** The state an epoch leaves behind, given what its three calls return. *)
Definition after_epoch (epoch : nat) (g : Globals ModelState OptimState)
    (m : ModelState) (o : OptimState) (train_loss val_loss val_acc best : R)
    : Globals ModelState OptimState :=
  let out := LineEpochDone (epoch + 1) train_loss val_loss val_acc
             :: LineEpoch (epoch + 1) num_epochs :: stdout g in
  let fs := <[epoch_path (epoch + 1) :=
                SavedDict (make_checkpoint epoch m o val_loss val_acc)]> (files g) in
  if Rlt_dec best val_acc then
    mkGlobals m o (start_epoch g) (PFloat val_acc)
              (<[best_path := SavedStateDict m]> fs)
              (LineBest (epoch + 1) val_acc :: out)
  else
    mkGlobals m o (start_epoch g) (best_val_acc g) fs out.

End NotebookSpec.

(** ** Sample gates and inputs *)

Module Sample.
Import Torch Model.

Definition ones : nat -> nat -> nat -> nat -> R := fun _ _ _ _ => 1%R.

Definition unit_weights : CBAMWeights := mkCBAMWeights ones ones ones.

(** A feature map of one sample, one channel and one pixel. *)
Definition pixel : Tensor := mkTensor 1 1 1 1 ones.

(** A feature map of one sample, two channels and 3 x 3 pixels. *)
Definition patch : Tensor := mkTensor 1 2 3 3 ones.

(** CBAM(2, reduction=1): what [CBAM_init 2 1 7 unit_weights] returns. *)
Definition gate : CBAM :=
  mkCBAM (mkConv2d 2 2 1 0 ones) (mkConv2d 2 2 1 0 ones) (mkConv2d 2 1 7 3 ones).

(** BreastNetPP() over a backbone that returns its input: what
    [BreastNetPP_init] returns for unit weights. *)
Definition identity_backbone (mode : bool) (x : Tensor) : result Tensor := Ok x.

Definition head_weights : HeadWeights :=
  mkHeadWeights (fun _ _ => 1%R) (fun _ => 0%R) (fun _ _ => 1%R) (fun _ => 0%R).

Definition net : BreastNetPP :=
  mkBreastNetPP identity_backbone
    (mkCBAM (mkConv2d 1280 80 1 0 ones) (mkConv2d 80 1280 1 0 ones)
            (mkConv2d 2 1 7 3 ones))
    (mkDropout (5 / 10)%R)
    (mkLinear 1280 128 (fun _ _ => 1%R) (fun _ => 0%R))
    (mkDropout (3 / 10)%R)
    (mkLinear 128 1 (fun _ _ => 1%R) (fun _ => 0%R))
    true.

(** Gated features of two samples, 1280 channels of one pixel. *)
Definition features : Tensor := mkTensor 2 1280 1 1 ones.

Definition keep_all (b k : nat) : bool := true.

(** A toy notebook: an image is the probability the model gives it, the
    loss is always 0, and a training step counts the updates. *)
Definition probability (m : nat) (img : R) : R := img.
Definition probabilities (m : nat) (imgs : list R) : list R := imgs.
Definition no_loss (outputs : list R) (labels : list bool) : R := 0%R.
Definition count_step (m o : nat) (imgs : list R) (labels : list bool) : nat * nat :=
  (S m, S o).

Definition train_batches : list (Batch R) := [[(1%R, true)]].
Definition val_batches : list (Batch R) := [[(1%R, true); (0%R, false)]].
Definition wrong_batches : list (Batch R) := [[(1%R, false); (0%R, true)]].
Definition negative_batches : list (Batch R) := [[(0%R, true); (0%R, false)]].

(** The checkpoint written at the end of the fourth epoch, alone under
    "saved_models/breastnetpp_epoch_4.pth". *)
Definition checkpoint4 : gmap string (PyObj nat nat) :=
  make_checkpoint 3 4 4 0%R (9 / 10)%R.

Definition disk4 : gmap string (Saved nat nat) :=
  <[epoch_path 4 := SavedDict checkpoint4]> ∅.

Definition fresh_globals : Globals nat nat :=
  mkGlobals 0 0 0 (PFloat 0%R) ∅ [].

Definition globals4 : Globals nat nat :=
  mkGlobals 0 0 0 (PFloat 0%R) disk4 [].

End Sample.

(** ** The dataset and the data loaders (notebook cells 3 and 5) *)

(** What [dataset[idx]] gives: a sample, or one of the two exceptions of
    [__getitem__] (an index out of range; cv2.error, raised by cvtColor on
    the None that imread returns for a file it cannot decode). *)
Inductive Fetched (A : Type) : Type :=
| Item (a : A)
| IndexError
| CvError (path : string).
Arguments Item {A} a.
Arguments IndexError {A}.
Arguments CvError {A} path.

(** [torch.tensor(label, dtype=torch.float32)] for a label 0 or 1. *)
Definition label_tensor (label : nat) : bool := (label =? 1)%nat.

Section Dataset.

(** A decoded image; the directories of the disk with the names they list;
    os.path.join, cv2.imread and cv2.cvtColor(_, COLOR_BGR2RGB). *)
Context {Image : Type}.
Variable os_path_join : string -> string -> string.
Variable imread : string -> option Image.
Variable cvtColor : Image -> Image.

Record CustomDataset : Type := mkCustomDataset {
  root_dir : string;
  transform : option (Image -> Image);
  classes : list string;
  image_paths : list string;
  labels : list nat
}.

(** The inner loop of [__init__]: [for img_name in os.listdir(cls_path)]. *)
Fixpoint scan_names (cls_path : string) (label : nat) (names : list string)
    (paths : list string) (labs : list nat) : list string * list nat :=
  match names with
  | [] => (paths, labs)
  | img_name :: rest =>
      scan_names cls_path label rest
                 (paths ++ [os_path_join cls_path img_name]) (labs ++ [label])
  end.

(** The outer loop: [for label, cls in enumerate(self.classes)]. *)
Fixpoint scan_classes (dirs : gmap string (list string)) (root : string)
    (cls_list : list string) (label : nat)
    (paths : list string) (labs : list nat) : result (list string * list nat) :=
  match cls_list with
  | [] => Ok (paths, labs)
  | cls :: rest =>
      let cls_path := os_path_join root cls in
      match dirs !! cls_path with
      | None => Raise (FileNotFoundError cls_path)
      | Some names =>
          let '(paths', labs') := scan_names cls_path label names paths labs in
          scan_classes dirs root rest (S label) paths' labs'
      end
  end.

(** [CustomDataset.__init__(self, root_dir, transform=None)]. *)
Definition CustomDataset_init (dirs : gmap string (list string)) (root : string)
    (tr : option (Image -> Image)) : result CustomDataset :=
  let cls_list := ["benign"; "malignant"]%string in
  '(paths, labs) ← scan_classes dirs root cls_list 0 [] [];
  mret (mkCustomDataset root tr cls_list paths labs).

(** [CustomDataset.__len__(self)]. *)
Definition CustomDataset_len (ds : CustomDataset) : nat := length (image_paths ds).

(** [CustomDataset.__getitem__(self, idx)] for an index [idx >= 0]. *)
Definition CustomDataset_getitem (ds : CustomDataset) (idx : nat)
    : Fetched (Image * bool) :=
  match image_paths ds !! idx with
  | None => IndexError
  | Some path =>
      match imread path with
      | None => CvError path
      | Some image =>
          let image := cvtColor image in
          match labels ds !! idx with
          | None => IndexError
          | Some label =>
              let image := match transform ds with
                           | Some tr => tr image
                           | None => image
                           end in
              Item (image, label_tensor label)
          end
      end
  end.

End Dataset.

Arguments CustomDataset Image : clear implicits.

(** The batch sampler behind [DataLoader(dataset, batch_size=n)]: samples are
    appended to the current batch, a full batch is yielded, and a last
    partial batch is yielded when it is not empty (drop_last is False). *)
Fixpoint batch_sampler {A : Type} (batch_size : nat) (batch : list A)
    (sampler : list A) : list (list A) :=
  match sampler with
  | [] => if (0 <? length batch)%nat then [batch] else []
  | idx :: rest =>
      let batch := batch ++ [idx] in
      if (length batch =? batch_size)%nat
      then batch :: batch_sampler batch_size [] rest
      else batch_sampler batch_size batch rest
  end.

(** [DataLoader(dataset, batch_size=n, shuffle=False)] over the samples of
    the dataset in [items]; with shuffle=True [items] is the non-empty
    dataset in the order drawn for the epoch.  A batch size of 0 is
    refused. *)
Definition DataLoader {A : Type} (items : list A) (batch_size : nat)
    : result (list (list A)) :=
  if (batch_size =? 0)%nat
  then Raise (ValueError "batch_size should be a positive integer value")
  else Ok (batch_sampler batch_size [] items).

(** ** The first training cell (notebook cell 8) *)

Section TrainingCell.
Context {Img ModelState OptimState : Type}.
Variable forward_eval : ModelState -> Img -> R.
Variable forward_train : ModelState -> list Img -> list R.
Variable criterion : list R -> list bool -> R.
Variable backward_step :
  ModelState -> OptimState -> list Img -> list bool -> ModelState * OptimState.
Variable train_loader : list (Batch Img).
Variable val_loader : list (Batch Img).

(** The body of [for epoch in range(num_epochs)] of cell 8, which saves the
    checkpoint of the epoch under [path_of (epoch + 1)] and nothing else. *)
Definition plain_epoch (path_of : nat -> string) (total : nat) (epoch : nat)
    (g : Globals ModelState OptimState) : result (Globals ModelState OptimState) :=
  let out := LineEpoch (epoch + 1) total :: stdout g in
  '(m, o, train_loss) ← train forward_train criterion backward_step
                               (model g) (optimizer g) train_loader;
  '(val_loss, val_acc) ← evaluate forward_eval criterion m val_loader;
  let out := LineEpochDone (epoch + 1) train_loss val_loss val_acc :: out in
  let checkpoint := make_checkpoint epoch m o val_loss val_acc in
  mret (mkGlobals m o (start_epoch g) (best_val_acc g)
          (<[path_of (epoch + 1) := SavedDict checkpoint]> (files g)) out).

Fixpoint run_plain (path_of : nat -> string) (total : nat) (epochs : list nat)
    (g : Globals ModelState OptimState) : result (Globals ModelState OptimState) :=
  match epochs with
  | [] => Ok g
  | epoch :: rest => g' ← plain_epoch path_of total epoch g; run_plain path_of total rest g'
  end.

(** The model and the optimizer after [n] passes of the loop of [train]
    over the training loader. *)
Definition trained (n : nat) (m : ModelState) (o : OptimState)
    : ModelState * OptimState :=
  Nat.iter n
    (fun mo =>
       let '(m', o', _) := train_loop forward_train criterion backward_step
                                      (fst mo) (snd mo) train_loader 0%R in
       (m', o'))
    (m, o).

(** Cell 8 of BreastNetPP_GPU_Friendly.ipynb: 10 epochs, checkpoints under
    f"{save_dir}/breastnetpp_epoch_{epoch+1}.pth". *)
Definition training_cell (g : Globals ModelState OptimState)
    : result (Globals ModelState OptimState) :=
  run_plain epoch_path 10 (range 0 10) g.

(** The same cell in the commented copy of the notebook: 5 epochs,
    checkpoints under f"{save_dir}/brestnetpp_epoch_{epoch+1}.pth". *)
Definition commented_epoch_path (n : nat) : string :=
  save_dir +:+ "/brestnetpp_epoch_" +:+ str_of_nat n +:+ ".pth".

Definition training_cell_commented (g : Globals ModelState OptimState)
    : result (Globals ModelState OptimState) :=
  run_plain commented_epoch_path 5 (range 0 5) g.

(** The path both notebooks pass to [test_model]. *)
Definition tested_path : string := "saved_models/breastnetpp_epoch_5.pth".

End TrainingCell.

(** ** Sample directories, disks and inputs for the further properties *)

Module SampleMore.
Import Torch Model.

(** os.path.join for two relative components. *)
Definition join (a b : string) : string := a +:+ "/" +:+ b.

(** A toy image file system: an image is the path it was read from, and
    one file cannot be decoded. *)
Definition decode (path : string) : option string :=
  if String.eqb path "data/malignant/c.png" then None else Some path.

Definition to_rgb (image : string) : string := image.

Definition folders : gmap string (list string) :=
  <["data/benign" := ["a.png"]]>
  (<["data/malignant" := ["b.png"; "c.png"]]> ∅).

(** The two validation samples of [Sample.val_batches], one per batch. *)
Definition single_batches : list (Batch R) := [[(1%R, true)]; [(0%R, false)]].

Definition val_items : list (R * bool) := [(1%R, true); (0%R, false)].

(** A disk with the checkpoint of the tenth epoch. *)
Definition checkpoint10 : gmap string (PyObj nat nat) :=
  make_checkpoint 9 7 7 0%R 1%R.

Definition disk10 : gmap string (Saved nat nat) :=
  <[epoch_path 10 := SavedDict checkpoint10]> ∅.

Definition globals10 : Globals nat nat :=
  mkGlobals 0 0 0 (PFloat 0%R) disk10 [].

End SampleMore.

(** ** An interrupted run whose validation accuracy goes up and down *)

Module Interrupted.

(** A toy notebook on images that are their own label: the model after one
    pass of training is right on every image, after two passes wrong on
    every image, and afterwards calls every image malignant. *)
Definition flaky (m : nat) (img : bool) : R :=
  match m with
  | 1 => if img then 1%R else 0%R
  | 2 => if img then 0%R else 1%R
  | _ => 1%R
  end.

Definition flaky_batch (m : nat) (imgs : list bool) : list R := map (flaky m) imgs.

Definition step (m o : nat) (imgs labels : list bool) : nat * nat := (S m, S o).

Definition train_images : list (Batch bool) := [[(true, true)]].
Definition val_images : list (Batch bool) := [[(true, true); (false, false)]].

End Interrupted.

(** * Properties *)

(** ** Sums, maxima and the two nonlinearities *)

Section TorchFacts.
Import Torch.
Local Open Scope R_scope.

Lemma sigmoid_range (v : R) : 0 < sigmoid v < 1.
Proof.
  unfold sigmoid. pose proof (exp_pos (- v)) as He. split.
  - apply Rdiv_lt_0_compat; lra.
  - unfold Rdiv. rewrite Rmult_1_l. rewrite <- Rinv_1 at 2.
    apply Rinv_lt_contravar; lra.
Qed.

Lemma sigmoid_unit (v : R) : 0 <= sigmoid v <= 1.
Proof. pose proof (sigmoid_range v). lra. Qed.

Lemma rsum_ext (n : nat) (f g : nat -> R) :
  (forall k, (k < n)%nat -> f k = g k) -> rsum n f = rsum n g.
Proof.
  induction n as [|n IH]; intros Hfg; simpl; [reflexivity|].
  rewrite IH by (intros k Hk; apply Hfg; lia).
  rewrite Hfg by lia. reflexivity.
Qed.

Lemma rsum_two (f : nat -> R) : rsum 2 f = f O + f 1%nat.
Proof. simpl. lra. Qed.

Lemma bcast_dim_same (a : nat) : bcast_dim a a = Some a.
Proof. unfold bcast_dim. rewrite Nat.eqb_refl. reflexivity. Qed.

Lemma bcast_dim_one_r (a : nat) : bcast_dim a 1 = Some a.
Proof.
  unfold bcast_dim. destruct (Nat.eqb_spec a 1) as [->|Hne]; [reflexivity|].
  reflexivity.
Qed.

Lemma bcast_idx_lt (d i : nat) : (i < d)%nat -> bcast_idx d i = i.
Proof.
  unfold bcast_idx. intros Hi. destruct (Nat.eqb_spec d 1); [lia | reflexivity].
Qed.

End TorchFacts.

(** ** Operators: when they succeed, and with which shape *)

Section OperatorFacts.
Import Torch.
Local Open Scope R_scope.

Lemma AdaptiveAvgPool2d_1_ok (x : Tensor) :
  (0 < dimC x)%nat -> (0 < dimH x)%nat -> (0 < dimW x)%nat ->
  AdaptiveAvgPool2d_1 x =
  Ok (mkTensor (dimB x) (dimC x) 1 1
        (fun b c _ _ =>
           rsum (dimH x) (fun i => rsum (dimW x) (fun j => at4 x b c i j))
           / INR (dimH x * dimW x))).
Proof.
  intros HC HH HW. unfold AdaptiveAvgPool2d_1.
  destruct (Nat.eqb_spec (dimC x) 0); [lia|].
  destruct (Nat.eqb_spec (dimH x) 0); [lia|].
  destruct (Nat.eqb_spec (dimW x) 0); [lia|].
  reflexivity.
Qed.

Lemma Conv2d_forward_ok (m : Conv2d) (x : Tensor) :
  (0 < out_channels m)%nat -> (0 < kernel_size m)%nat ->
  dimC x = in_channels m ->
  (kernel_size m <= dimH x + 2 * padding m)%nat ->
  (kernel_size m <= dimW x + 2 * padding m)%nat ->
  Conv2d_forward m x =
  Ok (mkTensor (dimB x) (out_channels m)
        (dimH x + 2 * padding m + 1 - kernel_size m)
        (dimW x + 2 * padding m + 1 - kernel_size m)
        (fun b o i j =>
           rsum (in_channels m) (fun c =>
           rsum (kernel_size m) (fun u =>
           rsum (kernel_size m) (fun v =>
             weight m o c u v * padded (padding m) x b c (i + u) (j + v)))))).
Proof.
  intros Ho Hk HC HH HW. unfold Conv2d_forward.
  destruct (Nat.eqb_spec (out_channels m) 0); [lia|].
  destruct (Nat.eqb_spec (kernel_size m) 0); [lia|].
  destruct (Nat.eqb_spec (dimC x) (in_channels m)); [|contradiction].
  destruct (Nat.ltb_spec (dimH x + 2 * padding m) (kernel_size m)); [lia|].
  destruct (Nat.ltb_spec (dimW x + 2 * padding m) (kernel_size m)); [lia|].
  reflexivity.
Qed.

Lemma mul_ok (x y : Tensor) (nb nc nh nw : nat) :
  bcast_dim (dimB x) (dimB y) = Some nb ->
  bcast_dim (dimC x) (dimC y) = Some nc ->
  bcast_dim (dimH x) (dimH y) = Some nh ->
  bcast_dim (dimW x) (dimW y) = Some nw ->
  mul x y =
  Ok (mkTensor nb nc nh nw
        (fun b c i j =>
           at4 x (bcast_idx (dimB x) b) (bcast_idx (dimC x) c)
                 (bcast_idx (dimH x) i) (bcast_idx (dimW x) j)
           * at4 y (bcast_idx (dimB y) b) (bcast_idx (dimC y) c)
                   (bcast_idx (dimH y) i) (bcast_idx (dimW y) j))).
Proof. intros Hb Hc Hh Hw. unfold mul. rewrite Hb, Hc, Hh, Hw. reflexivity. Qed.

Lemma max_dim1_ok (x : Tensor) :
  (0 < dimC x)%nat ->
  max_dim1 x =
  Ok (mkTensor (dimB x) 1 (dimH x) (dimW x)
        (fun b _ i j => rmax (dimC x - 1) (fun c => at4 x b c i j))).
Proof.
  intros HC. unfold max_dim1. destruct (Nat.eqb_spec (dimC x) 0); [lia | reflexivity].
Qed.

Lemma mean_dim1_ok (x : Tensor) :
  (0 < dimC x)%nat ->
  mean_dim1 x =
  Ok (mkTensor (dimB x) 1 (dimH x) (dimW x)
        (fun b _ i j => rsum (dimC x) (fun c => at4 x b c i j) / INR (dimC x))).
Proof.
  intros HC. unfold mean_dim1. destruct (Nat.eqb_spec (dimC x) 0); [lia | reflexivity].
Qed.

Lemma cat_dim1_ok (x y : Tensor) :
  dimB x = dimB y -> dimH x = dimH y -> dimW x = dimW y ->
  cat_dim1 x y =
  Ok (mkTensor (dimB x) (dimC x + dimC y) (dimH x) (dimW x)
        (fun b c i j =>
           if (c <? dimC x)%nat then at4 x b c i j else at4 y b (c - dimC x) i j)).
Proof.
  intros Hb Hh Hw. unfold cat_dim1. rewrite Hb, Hh, Hw, !Nat.eqb_refl. reflexivity.
Qed.

End OperatorFacts.

(** ** The attention gate *)

Section GateFacts.
Import Torch Model.
Local Open Scope R_scope.

(** What a successful construction has built. *)
Lemma CBAM_init_inv (channels reduction kernel_size : Z) (w : CBAMWeights) (m : CBAM) :
  CBAM_init channels reduction kernel_size w = Ok m ->
  reduction <> 0%Z /\ (0 <= channels)%Z /\ (0 <= channels / reduction)%Z
  /\ (0 <= kernel_size)%Z
  /\ m = mkCBAM
           (mkConv2d (Z.to_nat channels) (Z.to_nat (channels / reduction)) 1 0 (w_ca1 w))
           (mkConv2d (Z.to_nat (channels / reduction)) (Z.to_nat channels) 1 0 (w_ca2 w))
           (mkConv2d 2 1 (Z.to_nat kernel_size) (Z.to_nat (kernel_size / 2)) (w_sa w)).
Proof.
  unfold CBAM_init, py_floordiv, Conv2d_init.
  destruct (Z.eqb_spec reduction 0) as [|Hr]; [discriminate|]. cbn.
  destruct (Z.ltb_spec channels 0) as [|Hc]; [discriminate|].
  destruct (Z.ltb_spec (channels / reduction) 0) as [|Hm]; [discriminate|]. cbn.
  destruct (Z.ltb_spec kernel_size 0) as [|Hk]; [discriminate|].
  destruct (Z.ltb_spec (kernel_size / 2) 0) as [|Hp]; [discriminate|]. cbn.
  intros [= <-]. repeat split; assumption.
Qed.

Lemma CBAM_init_ok (channels reduction kernel_size : Z) (w : CBAMWeights) :
  reduction <> 0%Z -> (0 <= channels)%Z -> (0 <= channels / reduction)%Z ->
  (0 <= kernel_size)%Z ->
  CBAM_init channels reduction kernel_size w =
  Ok (mkCBAM
        (mkConv2d (Z.to_nat channels) (Z.to_nat (channels / reduction)) 1 0 (w_ca1 w))
        (mkConv2d (Z.to_nat (channels / reduction)) (Z.to_nat channels) 1 0 (w_ca2 w))
        (mkConv2d 2 1 (Z.to_nat kernel_size) (Z.to_nat (kernel_size / 2)) (w_sa w))).
Proof.
  intros Hr Hc Hm Hk. unfold CBAM_init, py_floordiv, Conv2d_init.
  destruct (Z.eqb_spec reduction 0) as [|_]; [contradiction|]. cbn.
  destruct (Z.ltb_spec channels 0) as [|_]; [lia|].
  destruct (Z.ltb_spec (channels / reduction) 0) as [|_]; [lia|]. cbn.
  destruct (Z.ltb_spec kernel_size 0) as [|_]; [lia|].
  destruct (Z.ltb_spec (kernel_size / 2) 0) as [Hp|_].
  - exfalso. pose proof (Z.div_pos kernel_size 2). lia.
  - reflexivity.
Qed.

(** The gate that [CBAM_init] builds for sizes already known to be valid. *)
Lemma channel_attention_run (C mid k p : nat) (w : CBAMWeights) (x : Tensor) :
  let m := mkCBAM (mkConv2d C mid 1 0 (w_ca1 w)) (mkConv2d mid C 1 0 (w_ca2 w))
                  (mkConv2d 2 1 k p (w_sa w)) in
  dimC x = C -> (0 < C)%nat -> (0 < mid)%nat -> (0 < dimH x)%nat -> (0 < dimW x)%nat ->
  exists f,
    channel_attention m x = Ok (mkTensor (dimB x) C 1 1 f)
    /\ (forall b c, f b c O O = Spec.channel_weight (w_ca1 w) (w_ca2 w) mid x b c)
    /\ (forall b c i j, 0 <= f b c i j <= 1).
Proof.
  intros m HC HCpos Hmid HH HW. subst m. unfold channel_attention.
  rewrite AdaptiveAvgPool2d_1_ok by lia. cbn.
  rewrite Conv2d_forward_ok by (cbn; lia). cbn.
  rewrite Conv2d_forward_ok by (cbn; lia). cbn.
  eexists. split; [rewrite HC; reflexivity|]. split.
  - intros b c. cbn. unfold Spec.channel_weight, Spec.global_avg. f_equal.
    apply rsum_ext. intros k' _. rewrite !Rplus_0_l. do 2 f_equal.
    rewrite HC. apply rsum_ext. intros c' _. rewrite !Rplus_0_l. reflexivity.
  - intros b c i j. apply sigmoid_unit.
Qed.

Lemma mul_channel_run (x ca : Tensor) :
  shape ca = (dimB x, dimC x, 1%nat, 1%nat) ->
  exists x1,
    mul x ca = Ok x1 /\ shape x1 = shape x
    /\ (forall b c i j,
          (b < dimB x)%nat -> (c < dimC x)%nat -> (i < dimH x)%nat -> (j < dimW x)%nat ->
          at4 x1 b c i j = at4 x b c i j * at4 ca b c O O).
Proof.
  unfold shape. intros [= Hb Hc Hh Hw].
  eexists. split; [|split].
  - apply mul_ok; rewrite ?Hb, ?Hc, ?Hh, ?Hw;
      first [apply bcast_dim_same | apply bcast_dim_one_r].
  - reflexivity.
  - intros b c i j Hbl Hcl Hil Hjl. cbn.
    rewrite Hb, Hc, Hh, Hw, !bcast_idx_lt by assumption. reflexivity.
Qed.

Lemma mul_spatial_run (x1 sa : Tensor) :
  shape sa = (dimB x1, 1%nat, dimH x1, dimW x1) ->
  exists y,
    mul x1 sa = Ok y /\ shape y = shape x1
    /\ (forall b c i j,
          (b < dimB x1)%nat -> (c < dimC x1)%nat -> (i < dimH x1)%nat -> (j < dimW x1)%nat ->
          at4 y b c i j = at4 x1 b c i j * at4 sa b O i j).
Proof.
  unfold shape. intros [= Hb Hc Hh Hw].
  eexists. split; [|split].
  - apply mul_ok; rewrite ?Hb, ?Hc, ?Hh, ?Hw;
      first [apply bcast_dim_same | apply bcast_dim_one_r].
  - reflexivity.
  - intros b c i j Hbl Hcl Hil Hjl. cbn.
    rewrite Hb, Hc, Hh, Hw, !bcast_idx_lt by assumption. reflexivity.
Qed.

(** The 2-channel map and the mask computed from a channel-gated map [x1],
    for an odd kernel size 2 p + 1. *)
Lemma spatial_attention_run (C mid p : nat) (w : CBAMWeights) (x1 : Tensor) :
  let k := (2 * p + 1)%nat in
  let m := mkCBAM (mkConv2d C mid 1 0 (w_ca1 w)) (mkConv2d mid C 1 0 (w_ca2 w))
                  (mkConv2d 2 1 k (k / 2) (w_sa w)) in
  (0 < dimC x1)%nat -> (0 < dimH x1)%nat -> (0 < dimW x1)%nat ->
  exists max_out mean_out sa_input sa,
    max_dim1 x1 = Ok max_out /\ mean_dim1 x1 = Ok mean_out
    /\ cat_dim1 max_out mean_out = Ok sa_input
    /\ shape sa_input = (dimB x1, 2%nat, dimH x1, dimW x1)
    /\ spatial_attention m sa_input = Ok sa
    /\ shape sa = (dimB x1, 1%nat, dimH x1, dimW x1)
    /\ (forall b i j, at4 sa b O i j = Spec.spatial_weight (w_sa w) k x1 b i j)
    /\ (forall b c i j, 0 <= at4 sa b c i j <= 1).
Proof.
  intros k m HC HH HW.
  assert (Hp : (k / 2 = p)%nat).
  { subst k. rewrite Nat.add_comm, Nat.mul_comm, Nat.div_add by lia. reflexivity. }
  assert (Hk : k = (2 * p + 1)%nat) by reflexivity. clearbody k.
  do 4 eexists.
  split; [apply max_dim1_ok; exact HC|].
  split; [apply mean_dim1_ok; exact HC|].
  split; [apply cat_dim1_ok; reflexivity|].
  split; [reflexivity|].
  subst m. unfold spatial_attention. cbn [sa_conv]. rewrite Hp.
  rewrite Conv2d_forward_ok
    by (cbn [out_channels kernel_size in_channels padding dimC dimH dimW]; lia).
  cbn [mbind result_bind Sigmoid].
  split; [reflexivity|].
  split.
  - unfold shape. cbn [tmap dimB dimC dimH dimW out_channels kernel_size padding].
    repeat f_equal; lia.
  - split.
    + intros b i j. cbn [tmap at4 in_channels kernel_size padding weight].
      unfold Spec.spatial_weight. rewrite Hp. f_equal. rewrite rsum_two.
      unfold Spec.window_sum.
      apply (f_equal2 Rplus);
        (apply rsum_ext; intros u _; apply rsum_ext; intros v _;
         apply (f_equal2 Rmult); [reflexivity|];
         unfold padded, Spec.zero_pad, Spec.channel_max, Spec.channel_mean;
         cbn; reflexivity).
    + intros b c i j. apply sigmoid_unit.
Qed.

(** One run of [CBAM.forward] with all its intermediate tensors, for a gate
    of valid sizes and an odd kernel size 2 p + 1. *)
Lemma CBAM_forward_run (C mid p : nat) (w : CBAMWeights) (x : Tensor) :
  let k := (2 * p + 1)%nat in
  let m := mkCBAM (mkConv2d C mid 1 0 (w_ca1 w)) (mkConv2d mid C 1 0 (w_ca2 w))
                  (mkConv2d 2 1 k (k / 2) (w_sa w)) in
  dimC x = C -> (0 < C)%nat -> (0 < mid)%nat -> (0 < dimH x)%nat -> (0 < dimW x)%nat ->
  exists ca x1 max_out mean_out sa_input sa y,
    (channel_attention m x = Ok ca
     /\ shape ca = (dimB x, dimC x, 1%nat, 1%nat)
     /\ (forall b c, at4 ca b c O O = Spec.channel_weight (w_ca1 w) (w_ca2 w) mid x b c)
     /\ (forall b c i j, 0 <= at4 ca b c i j <= 1))
    /\ (mul x ca = Ok x1
        /\ shape x1 = shape x
        /\ (forall b c i j,
              (b < dimB x)%nat -> (c < dimC x)%nat -> (i < dimH x)%nat -> (j < dimW x)%nat ->
              at4 x1 b c i j = at4 x b c i j * at4 ca b c O O))
    /\ (max_dim1 x1 = Ok max_out /\ mean_dim1 x1 = Ok mean_out
        /\ cat_dim1 max_out mean_out = Ok sa_input
        /\ shape sa_input = (dimB x, 2%nat, dimH x, dimW x))
    /\ (spatial_attention m sa_input = Ok sa
        /\ shape sa = (dimB x, 1%nat, dimH x, dimW x)
        /\ (forall b i j, at4 sa b O i j = Spec.spatial_weight (w_sa w) k x1 b i j)
        /\ (forall b c i j, 0 <= at4 sa b c i j <= 1))
    /\ (mul x1 sa = Ok y
        /\ shape y = shape x
        /\ (forall b c i j,
              (b < dimB x)%nat -> (c < dimC x)%nat -> (i < dimH x)%nat -> (j < dimW x)%nat ->
              at4 y b c i j = at4 x1 b c i j * at4 sa b O i j))
    /\ CBAM_forward m x = Ok y.
Proof.
  intros k m HC HCpos Hmid HH HW.
  destruct (channel_attention_run C mid k (k / 2) w x HC HCpos Hmid HH HW)
    as (f & Hca & Hf & Hrange).
  fold m in Hca. set (ca := mkTensor (dimB x) C 1 1 f) in *.
  assert (Hsca : shape ca = (dimB x, dimC x, 1%nat, 1%nat))
    by (unfold shape; cbn; rewrite HC; reflexivity).
  destruct (mul_channel_run x ca Hsca) as (x1 & Hx1 & Hsx1 & Hvx1).
  assert (Hd : dimB x1 = dimB x /\ dimC x1 = dimC x /\ dimH x1 = dimH x /\ dimW x1 = dimW x).
  { unfold shape in Hsx1. injection Hsx1 as -> -> -> ->. repeat split. }
  destruct Hd as (HdB & HdC & HdH & HdW).
  destruct (spatial_attention_run C mid p w x1)
    as (max_out & mean_out & sa_input & sa & Hmax & Hmean & Hcat & Hscat & Hsa & Hssa & Hvsa & Hrsa);
    [lia | lia | lia |].
  fold k in Hsa, Hvsa. fold m in Hsa.
  destruct (mul_spatial_run x1 sa Hssa) as (y & Hy & Hsy & Hvy).
  exists ca, x1, max_out, mean_out, sa_input, sa, y.
  repeat match goal with |- _ /\ _ => split end; try assumption.
  - rewrite Hscat, HdB, HdH, HdW. reflexivity.
  - rewrite Hssa, HdB, HdH, HdW. reflexivity.
  - rewrite Hsy. exact Hsx1.
  - intros b c i j Hb Hc Hi Hj. apply Hvy; lia.
  - unfold CBAM_forward. rewrite Hca. cbn [mbind result_bind].
    rewrite Hx1. cbn [mbind result_bind].
    rewrite Hmax. cbn [mbind result_bind].
    rewrite Hmean. cbn [mbind result_bind].
    rewrite Hcat. cbn [mbind result_bind].
    rewrite Hsa. cbn [mbind result_bind].
    rewrite Hy. reflexivity.
Qed.

(** The same run for the gate that [CBAM_init] returns, when the kernel
    size is odd. *)
Lemma CBAM_init_run (channels reduction kernel_size : Z) (w : CBAMWeights)
    (m : CBAM) (x : Tensor) :
  CBAM_init channels reduction kernel_size w = Ok m ->
  (0 < channels / reduction)%Z ->
  (kernel_size mod 2 = 1)%Z ->
  dimC x = Z.to_nat channels -> (0 < dimH x)%nat -> (0 < dimW x)%nat ->
  exists ca x1 max_out mean_out sa_input sa y,
    (channel_attention m x = Ok ca
     /\ shape ca = (dimB x, dimC x, 1%nat, 1%nat)
     /\ (forall b c, at4 ca b c O O =
                     Spec.channel_weight (w_ca1 w) (w_ca2 w)
                       (Z.to_nat (channels / reduction)) x b c)
     /\ (forall b c i j, 0 <= at4 ca b c i j <= 1))
    /\ (mul x ca = Ok x1
        /\ shape x1 = shape x
        /\ (forall b c i j,
              (b < dimB x)%nat -> (c < dimC x)%nat -> (i < dimH x)%nat -> (j < dimW x)%nat ->
              at4 x1 b c i j = at4 x b c i j * at4 ca b c O O))
    /\ (max_dim1 x1 = Ok max_out /\ mean_dim1 x1 = Ok mean_out
        /\ cat_dim1 max_out mean_out = Ok sa_input
        /\ shape sa_input = (dimB x, 2%nat, dimH x, dimW x))
    /\ (spatial_attention m sa_input = Ok sa
        /\ shape sa = (dimB x, 1%nat, dimH x, dimW x)
        /\ (forall b i j, at4 sa b O i j =
                          Spec.spatial_weight (w_sa w) (Z.to_nat kernel_size) x1 b i j)
        /\ (forall b c i j, 0 <= at4 sa b c i j <= 1))
    /\ (mul x1 sa = Ok y
        /\ shape y = shape x
        /\ (forall b c i j,
              (b < dimB x)%nat -> (c < dimC x)%nat -> (i < dimH x)%nat -> (j < dimW x)%nat ->
              at4 y b c i j = at4 x1 b c i j * at4 sa b O i j))
    /\ CBAM_forward m x = Ok y.
Proof.
  intros Hinit Hmid Hodd HC HH HW.
  destruct (CBAM_init_inv _ _ _ _ _ Hinit) as (Hr & Hc & _ & Hk & ->).
  assert (Hcpos : (0 < channels)%Z).
  { destruct (Z.eq_dec channels 0%Z) as [->|]; [|lia].
    rewrite Z.div_0_l in Hmid by assumption. lia. }
  pose proof (Z.div_mod kernel_size 2 ltac:(lia)) as Hdm.
  set (p := Z.to_nat (kernel_size / 2)).
  assert (Hkn : (2 * p + 1)%nat = Z.to_nat kernel_size) by (subst p; lia).
  assert (Hpn : ((2 * p + 1) / 2)%nat = p).
  { rewrite Nat.add_comm, Nat.mul_comm, Nat.div_add by lia. reflexivity. }
  pose proof (CBAM_forward_run (Z.to_nat channels)
                (Z.to_nat (channels / reduction)) p w x) as Hrun.
  cbv zeta in Hrun. rewrite Hpn, Hkn in Hrun.
  apply Hrun; [assumption | lia | lia | assumption | assumption].
Qed.

End GateFacts.

(** ** Claims about the attention gate *)

Section GateClaims.
Import Torch Model.
Local Open Scope R_scope.

(** C1.  Channel attention: for a gate built for [channels] channels with a
    bottleneck of floor(channels / reduction) >= 1 channels and any feature
    map with that many channels and non-empty planes, the stage computes one
    weight per sample and channel (shape B x C x 1 x 1); the weight is the
    sigmoid of the bottleneck C -> C/r -> C, with a ReLU between the two
    layers, applied to the global average of the map; every weight lies in
    [0, 1]; and the stage's output [x * ca] has the shape of the map and is
    the map multiplied, channel by channel, by these weights. *)
Theorem channel_attention_weights (channels reduction kernel_size : Z)
    (w : CBAMWeights) (m : CBAM) (x : Tensor) :
  CBAM_init channels reduction kernel_size w = Ok m ->
  (0 < channels / reduction)%Z ->
  dimC x = Z.to_nat channels -> (0 < dimH x)%nat -> (0 < dimW x)%nat ->
  exists ca x1,
    channel_attention m x = Ok ca
    /\ shape ca = (dimB x, dimC x, 1%nat, 1%nat)
    /\ (forall b c, at4 ca b c O O =
                    Spec.channel_weight (w_ca1 w) (w_ca2 w)
                      (Z.to_nat (channels / reduction)) x b c)
    /\ (forall b c i j, 0 <= at4 ca b c i j <= 1)
    /\ mul x ca = Ok x1
    /\ shape x1 = shape x
    /\ (forall b c i j,
          (b < dimB x)%nat -> (c < dimC x)%nat -> (i < dimH x)%nat -> (j < dimW x)%nat ->
          at4 x1 b c i j = at4 x b c i j * at4 ca b c O O).
Proof.
  intros Hinit Hmid HC HH HW.
  destruct (CBAM_init_inv _ _ _ _ _ Hinit) as (Hr & Hc & _ & Hk & ->).
  assert (Hcpos : (0 < channels)%Z).
  { destruct (Z.eq_dec channels 0%Z) as [->|]; [|lia].
    rewrite Z.div_0_l in Hmid by assumption. lia. }
  destruct (channel_attention_run (Z.to_nat channels) (Z.to_nat (channels / reduction))
              (Z.to_nat kernel_size) (Z.to_nat (kernel_size / 2)) w x)
    as (f & Hca & Hf & Hrange); [assumption | lia | lia | assumption | assumption |].
  cbv zeta in Hca.
  set (ca := mkTensor (dimB x) (Z.to_nat channels) 1 1 f) in *.
  assert (Hsca : shape ca = (dimB x, dimC x, 1%nat, 1%nat))
    by (unfold shape; cbn; rewrite HC; reflexivity).
  destruct (mul_channel_run x ca Hsca) as (x1 & Hx1 & Hsx1 & Hvx1).
  exists ca, x1. repeat split; try assumption; apply Hrange.
Qed.

Lemma channel_attention_weights_witness :
  exists ca x1,
    channel_attention Sample.gate Sample.patch = Ok ca
    /\ shape ca = (1, 2, 1, 1)%nat
    /\ mul Sample.patch ca = Ok x1
    /\ shape x1 = (1, 2, 3, 3)%nat.
Proof.
  destruct (channel_attention_weights 2 1 7 Sample.unit_weights Sample.gate Sample.patch)
    as (ca & x1 & H1 & H2 & _ & _ & H3 & H4 & _).
  - reflexivity.
  - reflexivity.
  - reflexivity.
  - cbn. lia.
  - cbn. lia.
  - exists ca, x1. repeat split; assumption.
Defined.

(** C2.  Spatial attention, for a gate built with kernel size 7: the stage
    reads the channel-gated map [x1 = x * ca]; it takes the maximum and the
    mean across channels at every pixel, concatenates them into a 2-channel
    map, applies one 7 x 7 convolution to 1 channel and a sigmoid; the mask
    has exactly one weight per sample and pixel (shape B x 1 x H x W), every
    weight lies in [0, 1]; and the gate returns [x1] multiplied, pixel by
    pixel, by this mask. *)
Theorem spatial_attention_mask (channels reduction : Z)
    (w : CBAMWeights) (m : CBAM) (x : Tensor) :
  CBAM_init channels reduction 7 w = Ok m ->
  (0 < channels / reduction)%Z ->
  dimC x = Z.to_nat channels -> (0 < dimH x)%nat -> (0 < dimW x)%nat ->
  exists ca x1 max_out mean_out sa_input sa y,
    (channel_attention m x = Ok ca /\ mul x ca = Ok x1)
    /\ (max_dim1 x1 = Ok max_out /\ mean_dim1 x1 = Ok mean_out
        /\ (forall b i j, at4 max_out b O i j = Spec.channel_max x1 b i j)
        /\ (forall b i j, at4 mean_out b O i j = Spec.channel_mean x1 b i j)
        /\ cat_dim1 max_out mean_out = Ok sa_input
        /\ shape sa_input = (dimB x, 2%nat, dimH x, dimW x))
    /\ (kernel_size (sa_conv m) = 7%nat /\ out_channels (sa_conv m) = 1%nat
        /\ spatial_attention m sa_input = Ok sa
        /\ shape sa = (dimB x, 1%nat, dimH x, dimW x)
        /\ (forall b i j, at4 sa b O i j = Spec.spatial_weight (w_sa w) 7 x1 b i j)
        /\ (forall b c i j, 0 <= at4 sa b c i j <= 1))
    /\ (CBAM_forward m x = Ok y
        /\ shape y = shape x1
        /\ (forall b c i j,
              (b < dimB x)%nat -> (c < dimC x)%nat -> (i < dimH x)%nat -> (j < dimW x)%nat ->
              at4 y b c i j = at4 x1 b c i j * at4 sa b O i j)).
Proof.
  intros Hinit Hmid HC HH HW.
  destruct (CBAM_init_run channels reduction 7 w m x Hinit Hmid eq_refl HC HH HW)
    as (ca & x1 & max_out & mean_out & sa_input & sa & y
        & (Hca & _) & (Hx1 & Hsx1 & _) & (Hmax & Hmean & Hcat & Hscat)
        & (Hsa & Hssa & Hvsa & Hrsa) & (Hy & Hsy & Hvy) & Hfwd).
  destruct (CBAM_init_inv _ _ _ _ _ Hinit) as (Hr & Hc & _ & _ & Hm).
  assert (HC1 : (0 < dimC x1)%nat).
  { unfold shape in Hsx1. injection Hsx1 as _ -> _ _.
    destruct (Z.eq_dec channels 0%Z) as [->|]; [|lia].
    rewrite Z.div_0_l in Hmid by assumption. lia. }
  exists ca, x1, max_out, mean_out, sa_input, sa, y.
  repeat match goal with |- _ /\ _ => split end; try assumption.
  - intros b i j. rewrite max_dim1_ok in Hmax by assumption.
    injection Hmax as <-. reflexivity.
  - intros b i j. rewrite mean_dim1_ok in Hmean by assumption.
    injection Hmean as <-. reflexivity.
  - subst m. reflexivity.
  - subst m. reflexivity.
  - rewrite Hsy, Hsx1. reflexivity.
Qed.

Lemma spatial_attention_mask_witness :
  exists x1 sa y,
    shape sa = (1, 1, 3, 3)%nat
    /\ CBAM_forward Sample.gate Sample.patch = Ok y
    /\ shape y = shape x1.
Proof.
  destruct (spatial_attention_mask 2 1 Sample.unit_weights Sample.gate Sample.patch)
    as (ca & x1 & max_out & mean_out & sa_input & sa & y
        & _ & _ & (_ & _ & _ & Hssa & _) & (Hfwd & Hsy & _)).
  - reflexivity.
  - reflexivity.
  - reflexivity.
  - cbn. lia.
  - cbn. lia.
  - exists x1, sa, y. repeat split; assumption.
Defined.

(** C3, as stated, fails for a gate with an even kernel size: CBAM(1,
    reduction=1, kernel_size=2) pads by 1, so its mask for a 1 x 1 map is
    2 x 2, and the last multiplication broadcasts the map to 2 x 2. *)
Lemma even_kernel_changes_shape :
  exists m y,
    CBAM_init 1 1 2 Sample.unit_weights = Ok m
    /\ CBAM_forward m Sample.pixel = Ok y
    /\ shape Sample.pixel = (1, 1, 1, 1)%nat
    /\ shape y = (1, 1, 2, 2)%nat
    /\ shape y <> shape Sample.pixel.
Proof.
  set (m := mkCBAM (mkConv2d 1 1 1 0 Sample.ones) (mkConv2d 1 1 1 0 Sample.ones)
                   (mkConv2d 2 1 2 1 Sample.ones)).
  destruct (channel_attention_run 1 1 2 1 Sample.unit_weights Sample.pixel)
    as (f & Hca & _); [reflexivity | lia | lia | cbn; lia | cbn; lia |].
  change (channel_attention m Sample.pixel = Ok (mkTensor 1 1 1 1 f)) in Hca.
  destruct (mul_channel_run Sample.pixel (mkTensor 1 1 1 1 f) eq_refl)
    as (x1 & Hx1 & Hsx1 & _).
  unfold shape in Hsx1. cbn in Hsx1. injection Hsx1 as HB HC HH HW.
  assert (Hfwd : exists sa,
            shape sa = (1, 1, 2, 2)%nat
            /\ CBAM_forward m Sample.pixel = (y ← mul x1 sa; mret y)).
  { unfold CBAM_forward. rewrite Hca. cbn [mbind result_bind Sample.pixel].
    rewrite Hx1. cbn [mbind result_bind].
    rewrite max_dim1_ok, mean_dim1_ok by lia. cbn [mbind result_bind].
    rewrite cat_dim1_ok by reflexivity. cbn [mbind result_bind].
    unfold spatial_attention.
    rewrite Conv2d_forward_ok
      by (cbn [m sa_conv out_channels kernel_size in_channels padding dimC dimH dimW]; lia).
    cbn [mbind result_bind Sigmoid].
    eexists. split; [|reflexivity].
    unfold shape.
    cbn [tmap m sa_conv out_channels kernel_size padding dimB dimC dimH dimW].
    rewrite HB, HH, HW. reflexivity. }
  destruct Hfwd as (sa & Hssa & Hfwd).
  unfold shape in Hssa. injection Hssa as HsB HsC HsH HsW.
  exists m. eexists.
  split; [reflexivity|].
  split.
  - rewrite Hfwd. erewrite mul_ok; [reflexivity | | | |];
      rewrite ?HB, ?HC, ?HH, ?HW, ?HsB, ?HsC, ?HsH, ?HsW; reflexivity.
  - repeat split; discriminate.
Qed.

(** C3, amended.  For a gate built with an odd kernel size (7 in the
    reference configuration) and a bottleneck of at least one channel, and
    for every feature map of shape B x C x H x W, C the gate's channel count
    and H, W >= 1, [CBAM.forward] returns a feature map of the same shape. *)
Theorem CBAM_forward_preserves_shape (channels reduction kernel_size : Z)
    (w : CBAMWeights) (m : CBAM) (x : Tensor) :
  CBAM_init channels reduction kernel_size w = Ok m ->
  (0 < channels / reduction)%Z ->
  (kernel_size mod 2 = 1)%Z ->
  dimC x = Z.to_nat channels -> (0 < dimH x)%nat -> (0 < dimW x)%nat ->
  exists y, CBAM_forward m x = Ok y /\ shape y = shape x.
Proof.
  intros Hinit Hmid Hodd HC HH HW.
  destruct (CBAM_init_run channels reduction kernel_size w m x Hinit Hmid Hodd HC HH HW)
    as (ca & x1 & max_out & mean_out & sa_input & sa & y
        & _ & _ & _ & _ & (_ & Hsy & _) & Hfwd).
  exists y. split; assumption.
Qed.

Lemma CBAM_forward_preserves_shape_witness :
  exists y, CBAM_forward Sample.gate Sample.patch = Ok y /\ shape y = (1, 2, 3, 3)%nat.
Proof.
  destruct (CBAM_forward_preserves_shape 2 1 7 Sample.unit_weights Sample.gate Sample.patch)
    as (y & Hfwd & Hsy).
  - reflexivity.
  - reflexivity.
  - reflexivity.
  - reflexivity.
  - cbn. lia.
  - cbn. lia.
  - exists y. split; assumption.
Defined.

(** C4, as stated, fails: 3 does not divide 1280, and CBAM(1280,
    reduction=3) is constructed, with a bottleneck of 426 channels. *)
Lemma indivisible_reduction_constructs :
  (1280 mod 3 <> 0)%Z
  /\ exists m,
       CBAM_init 1280 3 7 Sample.unit_weights = Ok m
       /\ out_channels (ca_conv1 m) = 426%nat
       /\ in_channels (ca_conv2 m) = 426%nat.
Proof.
  split; [discriminate|].
  eexists. split; [reflexivity|]. split; reflexivity.
Qed.

(** C4, amended.  For every channel count C and reduction ratio r with
    1 <= r <= C that does not evenly divide C, and every kernel size >= 1,
    constructing the gate succeeds: the bottleneck has floor(C / r) >= 1
    channels, C -> floor(C / r) -> C, and r * floor(C / r) < C.  Divisibility
    is not checked. *)
Theorem CBAM_init_floor_bottleneck (channels reduction kernel_size : Z)
    (w : CBAMWeights) :
  (1 <= reduction <= channels)%Z ->
  (channels mod reduction <> 0)%Z ->
  (1 <= kernel_size)%Z ->
  exists m,
    CBAM_init channels reduction kernel_size w = Ok m
    /\ in_channels (ca_conv1 m) = Z.to_nat channels
    /\ out_channels (ca_conv1 m) = Z.to_nat (channels / reduction)
    /\ in_channels (ca_conv2 m) = Z.to_nat (channels / reduction)
    /\ out_channels (ca_conv2 m) = Z.to_nat channels
    /\ (1 <= channels / reduction)%Z
    /\ (reduction * (channels / reduction) < channels)%Z.
Proof.
  intros Hr Hnd Hk.
  assert (Hmid : (1 <= channels / reduction)%Z).
  { apply Z.div_le_lower_bound; lia. }
  eexists. split.
  - apply CBAM_init_ok; lia.
  - cbn. repeat split; try reflexivity; try assumption.
    pose proof (Z.div_mod channels reduction ltac:(lia)).
    pose proof (Z.mod_pos_bound channels reduction ltac:(lia)). lia.
Qed.

Lemma CBAM_init_floor_bottleneck_witness :
  exists m,
    CBAM_init 1280 3 7 Sample.unit_weights = Ok m
    /\ out_channels (ca_conv1 m) = 426%nat.
Proof.
  destruct (CBAM_init_floor_bottleneck 1280 3 7 Sample.unit_weights)
    as (m & Hm & _ & Ho & _).
  - lia.
  - discriminate.
  - lia.
  - exists m. split; [exact Hm | exact Ho].
Defined.

End GateClaims.

(** ** Claims about the classification head *)

Section HeadClaims.
Import Torch Model.
Local Open Scope R_scope.

Lemma view_flat_ok (x : Tensor) :
  (0 < dimB x)%nat ->
  view_flat x =
  Ok (mkTensor2 (dimB x) (dimC x * dimH x * dimW x)
        (fun b k => at4 x b (k / (dimH x * dimW x))
                         ((k / dimW x) mod dimH x) (k mod dimW x))).
Proof.
  intros HB. unfold view_flat. destruct (Nat.eqb_spec (dimB x) 0); [lia | reflexivity].
Qed.

Lemma Linear_forward_ok (m : Linear) (x : Tensor2) :
  cols x = in_features m ->
  Linear_forward m x =
  Ok (mkTensor2 (rows x) (out_features m)
        (fun b o => rsum (in_features m) (fun k => at2 x b k * lweight m o k)
                    + lbias m o)).
Proof.
  intros Hc. unfold Linear_forward. rewrite Hc, Nat.eqb_refl. reflexivity.
Qed.

Lemma BreastNetPP_init_inv (eff : bool -> Tensor -> result Tensor)
    (wc : CBAMWeights) (wh : HeadWeights) (net : BreastNetPP) :
  BreastNetPP_init eff wc wh = Ok net ->
  exists c,
    CBAM_init 1280 16 7 wc = Ok c
    /\ net = mkBreastNetPP eff c (mkDropout (5 / 10))
               (mkLinear 1280 128 (w_fc1 wh) (b_fc1 wh))
               (mkDropout (3 / 10))
               (mkLinear 128 1 (w_fc2 wh) (b_fc2 wh)) true.
Proof.
  unfold BreastNetPP_init. destruct (CBAM_init 1280 16 7 wc) as [c|e]; cbn.
  - intros [= <-]. exists c. split; reflexivity.
  - discriminate.
Qed.

(** C8.  The classification head of a constructed network, in either mode,
    on a gated feature map with 1280 channels (B, H, W >= 1): it returns one
    value per sample (shape B x 1), equal to the sigmoid of the second dense
    layer (128 -> 1) applied to the ReLU of the first dense layer
    (1280 -> 128) applied to the global average pool, with dropout at rate
    0.5 before the first layer and at rate 0.3 before the second one; in
    evaluation mode both dropout stages are the identity; and every output
    lies in [0, 1]. *)
Theorem head_probability (eff : bool -> Tensor -> result Tensor)
    (wc : CBAMWeights) (wh : HeadWeights) (net0 : BreastNetPP) (mode : bool)
    (keep1 keep2 : nat -> nat -> bool) (x : Tensor) :
  BreastNetPP_init eff wc wh = Ok net0 ->
  dimC x = 1280%nat -> (0 < dimB x)%nat -> (0 < dimH x)%nat -> (0 < dimW x)%nat ->
  exists y,
    head (set_mode mode net0) keep1 keep2 x = Ok y
    /\ shape2 y = (dimB x, 1%nat)
    /\ (forall b, at2 y b O = Spec.head_output wh mode keep1 keep2 x b)
    /\ (mode = false -> forall b, at2 y b O = Spec.head_output_eval wh x b)
    /\ (forall b k, 0 <= at2 y b k <= 1).
Proof.
  intros Hinit HC HB HH HW.
  destruct (BreastNetPP_init_inv _ _ _ _ Hinit) as (c & _ & ->).
  unfold head, set_mode, Dropout_forward, ReLU2, Sigmoid2.
  cbn [dropout1 dropout2 fc1 fc2 training backbone cbam].
  rewrite AdaptiveAvgPool2d_1_ok by lia. cbn [mbind result_bind].
  rewrite view_flat_ok by (cbn [dimB]; lia). cbn [mbind result_bind].
  rewrite Linear_forward_ok by (cbn [cols in_features dimC dimH dimW]; lia).
  cbn [mbind result_bind].
  rewrite Linear_forward_ok by reflexivity.
  cbn [mbind result_bind].
  eexists. split; [reflexivity|]. split; [reflexivity|].
  match goal with |- ?A /\ _ => assert (Hout : A) end.
  { intros b. cbn [tmap2 at2 rows cols rate in_features out_features lweight lbias
                   dimB dimC dimH dimW at4].
    unfold Spec.head_output, Spec.head_hidden, Spec.global_avg.
    apply f_equal. apply (f_equal2 Rplus); [|reflexivity].
    apply rsum_ext. intros k _. apply (f_equal2 Rmult); [|reflexivity].
    do 2 apply f_equal. apply (f_equal2 Rplus); [|reflexivity].
    apply rsum_ext. intros c' _. apply (f_equal2 Rmult); [|reflexivity].
    apply f_equal. apply (f_equal2 Rdiv); [|reflexivity].
    apply rsum_ext. intros i _. apply rsum_ext. intros j _.
    change (1 * 1)%nat with 1%nat. rewrite Nat.div_1_r. reflexivity. }
  split; [exact Hout|]. split.
  - intros -> b. rewrite Hout. reflexivity.
  - intros b k. apply sigmoid_unit.
Qed.

End HeadClaims.

(** ** Claims about the training and evaluation loops *)

Section LoopClaims.
Context {Img ModelState OptimState : Type}.
Variable forward_eval : ModelState -> Img -> R.
Variable forward_train : ModelState -> list Img -> list R.
Variable criterion : list R -> list bool -> R.
Variable backward_step :
  ModelState -> OptimState -> list Img -> list bool -> ModelState * OptimState.

Local Open Scope R_scope.

Lemma count_equal_batch (model : ModelState) (batch : list (Img * bool)) :
  count_equal (map threshold (map (forward_eval model) (map fst batch))) (map snd batch)
  = length (List.filter (is_correct forward_eval model) batch).
Proof.
  unfold count_equal.
  induction batch as [|[img label] batch IH]; [reflexivity|].
  cbn [map combine List.filter fst snd].
  change (is_correct forward_eval model (img, label))
    with (Bool.eqb (threshold (forward_eval model img)) label).
  destruct (Bool.eqb (threshold (forward_eval model img)) label); cbn [length];
    rewrite IH; reflexivity.
Qed.

(** The loop adds, to its three accumulators, the batch losses, the correct
    predictions and the samples. *)
Lemma evaluate_loop_spec (model : ModelState) (loader : list (list (Img * bool)))
    (running_loss : R) (correct total : nat) :
  evaluate_loop forward_eval criterion model loader running_loss correct total
  = (running_loss + total_loss forward_eval criterion model loader,
     (correct + n_correct forward_eval model loader)%nat,
     (total + length (samples loader))%nat).
Proof.
  revert running_loss correct total.
  induction loader as [|batch rest IH]; intros running_loss correct total.
  - cbn. rewrite Rplus_0_r, !Nat.add_0_r. reflexivity.
  - cbn [evaluate_loop]. rewrite IH, count_equal_batch.
    change (total_loss forward_eval criterion model (batch :: rest))
      with (batch_loss forward_eval criterion model batch
            + total_loss forward_eval criterion model rest).
    unfold n_correct, samples, batch_loss. cbn [concat].
    rewrite List.filter_app, !length_app, length_map.
    f_equal; [f_equal|]; [lra | lia | lia].
Qed.

Lemma samples_nonempty (loader : list (list (Img * bool))) :
  loader <> [] -> Forall (fun batch => batch <> []) loader ->
  (0 < length (samples loader))%nat.
Proof.
  intros Hne Hall. destruct loader as [|batch rest]; [contradiction|].
  inversion Hall as [|? ? Hb _]; subst.
  destruct batch as [|s batch]; [contradiction|].
  unfold samples. cbn. lia.
Qed.

Lemma filter_all {A : Type} (f : A -> bool) (l : list A) :
  Forall (fun a => f a = true) l -> List.filter f l = l.
Proof.
  induction 1 as [|a l Ha _ IH]; [reflexivity|].
  cbn. rewrite Ha, IH. reflexivity.
Qed.

Lemma filter_none {A : Type} (f : A -> bool) (l : list A) :
  Forall (fun a => f a = false) l -> List.filter f l = [].
Proof.
  induction 1 as [|a l Ha _ IH]; [reflexivity|].
  cbn. rewrite Ha, IH. reflexivity.
Qed.

Lemma evaluate_value (model : ModelState) (loader : list (list (Img * bool))) :
  (0 < length (samples loader))%nat ->
  evaluate forward_eval criterion model loader
  = Ok (total_loss forward_eval criterion model loader / INR (length loader),
        INR (n_correct forward_eval model loader) / INR (length (samples loader))).
Proof.
  intros Hpos. unfold evaluate. rewrite evaluate_loop_spec.
  rewrite Rplus_0_l, !Nat.add_0_l. unfold py_truediv.
  destruct (Nat.eqb_spec (length (samples loader)) 0) as [|_]; [lia|].
  cbn [mbind result_bind]. unfold Batch.
  destruct (Nat.eqb_spec (length loader) 0) as [Hz|_]; [|reflexivity].
  apply length_zero_iff_nil in Hz. subst loader. cbn in Hpos. lia.
Qed.

Lemma train_returns (model : ModelState) (optimizer : OptimState)
    (loader : list (list (Img * bool))) :
  loader <> [] ->
  exists m o loss,
    train forward_train criterion backward_step model optimizer loader = Ok (m, o, loss).
Proof.
  intros Hne. unfold train.
  destruct (train_loop forward_train criterion backward_step model optimizer loader 0)
    as [[m o] running_loss].
  unfold py_truediv. destruct loader as [|batch rest]; [contradiction|].
  cbn. eexists _, _, _. reflexivity.
Qed.

(** C7.  For every non-empty sequence of non-empty batches, [evaluate]
    returns the pair (mean loss, accuracy): the sum of the batch losses
    divided by the number of batches, and the number of samples whose
    probability thresholded at 0.5 equals the label divided by the number of
    samples.  If every thresholded prediction equals its label the accuracy
    is exactly 1; if every one is the inverse of its label it is exactly 0. *)
Theorem evaluate_mean_loss_and_accuracy (model : ModelState)
    (loader : list (list (Img * bool))) :
  loader <> [] -> Forall (fun batch => batch <> []) loader ->
  let mean_loss := total_loss forward_eval criterion model loader / INR (length loader) in
  evaluate forward_eval criterion model loader
  = Ok (mean_loss,
        INR (n_correct forward_eval model loader) / INR (length (samples loader)))
  /\ (Forall (fun s => prediction forward_eval model s = snd s) (samples loader) ->
      evaluate forward_eval criterion model loader = Ok (mean_loss, 1))
  /\ (Forall (fun s => prediction forward_eval model s = negb (snd s)) (samples loader) ->
      evaluate forward_eval criterion model loader = Ok (mean_loss, 0)).
Proof.
  intros Hne Hall mean_loss.
  pose proof (samples_nonempty loader Hne Hall) as Hpos.
  rewrite (evaluate_value model loader Hpos). fold mean_loss.
  split; [reflexivity|]. split.
  - intros Hok. do 2 f_equal. unfold n_correct.
    rewrite filter_all.
    + apply Rdiv_diag. apply not_0_INR. lia.
    + eapply List.Forall_impl; [|exact Hok]. intros s Hs. unfold is_correct.
      cbn beta in Hs. rewrite Hs. apply Bool.eqb_reflx.
  - intros Hinv. do 2 f_equal. unfold n_correct.
    rewrite filter_none.
    + cbn [length INR]. unfold Rdiv. apply Rmult_0_l.
    + eapply List.Forall_impl; [|exact Hinv]. intros s Hs. unfold is_correct.
      cbn beta in Hs. rewrite Hs. destruct (snd s); reflexivity.
Qed.

(** C10.  With an empty data loader both loops end in a division by zero:
    [train] divides the running loss by the number of batches, [evaluate]
    divides the correct count by the number of samples, and neither returns
    a value.  [train] returns exactly for a non-empty loader, [evaluate]
    exactly for a loader with at least one sample. *)
Theorem loops_need_data (model : ModelState) (optimizer : OptimState) :
  train forward_train criterion backward_step model optimizer []
  = Raise ZeroDivisionError
  /\ evaluate forward_eval criterion model [] = Raise ZeroDivisionError
  /\ (forall loader,
        (exists r, train forward_train criterion backward_step model optimizer loader = Ok r)
        <-> loader <> [])
  /\ (forall loader,
        (exists r, evaluate forward_eval criterion model loader = Ok r)
        <-> samples loader <> []).
Proof.
  split; [reflexivity|]. split; [reflexivity|]. split.
  - intros loader. unfold train.
    destruct (train_loop forward_train criterion backward_step model optimizer loader 0)
      as [[m o] running_loss].
    unfold py_truediv. destruct loader as [|batch rest]; cbn.
    + split; [intros [r Hr]; discriminate | intros H; contradiction].
    + split; [intros _; discriminate | intros _; eexists; reflexivity].
  - intros loader. destruct (samples loader) as [|s l] eqn:Hs.
    + split; [|intros H; contradiction]. intros [r Hr]. exfalso.
      unfold evaluate in Hr. rewrite evaluate_loop_spec, Hs in Hr.
      cbn in Hr. discriminate.
    + split; [intros _; discriminate|]. intros _. eexists.
      apply evaluate_value. rewrite Hs. cbn. lia.
Qed.

End LoopClaims.

(** ** Claims about checkpoints, resuming and the best snapshot *)

Section DriverClaims.
Context {Img ModelState OptimState : Type}.
Variable forward_eval : ModelState -> Img -> R.
Variable forward_train : ModelState -> list Img -> list R.
Variable criterion : list R -> list bool -> R.
Variable backward_step :
  ModelState -> OptimState -> list Img -> list bool -> ModelState * OptimState.
Variable train_loader : list (Batch Img).
Variable val_loader : list (Batch Img).

Lemma epoch_path_not_best (n : nat) : epoch_path n <> best_path.
Proof. unfold epoch_path, best_path, save_dir. cbn. discriminate. Qed.

Lemma resume_requested_checkpoint (fs : gmap string (Saved ModelState OptimState))
    (path : option string) :
  resume_requested fs path = true <-> is_Some (requested_checkpoint fs path).
Proof.
  unfold resume_requested, requested_checkpoint.
  destruct path as [p|]; [|split; [discriminate | intros [? ?]; discriminate]].
  destruct (String.eqb p "") eqn:Hp; cbn.
  - split; [discriminate | intros [? ?]; discriminate].
  - rewrite bool_decide_eq_true. reflexivity.
Qed.

Lemma range_cons (a b : nat) : a < b -> range a b = a :: range (a + 1) b.
Proof.
  intros Hab. unfold range. replace (b - a) with (S (b - (a + 1))) by lia.
  cbn. rewrite Nat.add_1_r. reflexivity.
Qed.

Lemma epoch_numbers (e : nat) :
  map epoch_number (range e num_epochs) = seq (e + 1) (num_epochs - e).
Proof.
  unfold range. generalize (num_epochs - e) as n. intros n. revert e.
  induction n as [|n IH]; intros e; [reflexivity|].
  cbn [seq map]. unfold epoch_number at 1. f_equal.
  rewrite (IH (S e)). reflexivity.
Qed.

Lemma epoch_body_inv (epoch : nat) (g g' : Globals ModelState OptimState) :
  epoch_body forward_eval forward_train criterion backward_step
             train_loader val_loader epoch g = Ok g' ->
  exists m o train_loss val_loss val_acc best,
    train forward_train criterion backward_step (model g) (optimizer g) train_loader
    = Ok (m, o, train_loss)
    /\ evaluate forward_eval criterion m val_loader = Ok (val_loss, val_acc)
    /\ as_float (best_val_acc g) = Ok best
    /\ g' = after_epoch epoch g m o train_loss val_loss val_acc best.
Proof.
  unfold epoch_body, after_epoch.
  destruct (train _ _ _ _ _ _) as [[[m o] train_loss]|] eqn:Ht; [|discriminate].
  cbn [mbind result_bind].
  destruct (evaluate _ _ m _) as [[val_loss val_acc]|] eqn:He; [|discriminate].
  cbn [mbind result_bind].
  destruct (as_float (best_val_acc g)) as [best|] eqn:Hb; [|discriminate].
  cbn [mbind result_bind].
  intros H. exists m, o, train_loss, val_loss, val_acc, best.
  split; [reflexivity|]. split; [exact He|]. split; [reflexivity|].
  destruct (Rlt_dec best val_acc); injection H as <-; reflexivity.
Qed.

Lemma epoch_body_run (epoch : nat) (g : Globals ModelState OptimState)
    (m : ModelState) (o : OptimState) (train_loss val_loss val_acc best : R) :
  train forward_train criterion backward_step (model g) (optimizer g) train_loader
  = Ok (m, o, train_loss) ->
  evaluate forward_eval criterion m val_loader = Ok (val_loss, val_acc) ->
  as_float (best_val_acc g) = Ok best ->
  epoch_body forward_eval forward_train criterion backward_step
             train_loader val_loader epoch g
  = Ok (after_epoch epoch g m o train_loss val_loss val_acc best).
Proof.
  intros Ht He Hb. unfold epoch_body, after_epoch. rewrite Ht. cbn [mbind result_bind].
  rewrite He. cbn [mbind result_bind]. rewrite Hb. cbn [mbind result_bind].
  destruct (Rlt_dec best val_acc); reflexivity.
Qed.

(** Every epoch is announced and recorded under its number. *)
Lemma epoch_body_records (epoch : nat) (g g' : Globals ModelState OptimState) :
  epoch_body forward_eval forward_train criterion backward_step
             train_loader val_loader epoch g = Ok g' ->
  In (LineEpoch (epoch_number epoch) num_epochs) (stdout g')
  /\ exists d,
       files g' !! epoch_path (epoch_number epoch) = Some (SavedDict d)
       /\ d !! "epoch" = Some (PInt (epoch_number epoch)).
Proof.
  intros H. destruct (epoch_body_inv _ _ _ H)
    as (m & o & train_loss & val_loss & val_acc & best & _ & _ & _ & ->).
  unfold after_epoch, epoch_number.
  destruct (Rlt_dec best val_acc); cbn [stdout files]; split.
  - right. right. left. reflexivity.
  - eexists. split.
    + rewrite lookup_insert_ne by (intros E; symmetry in E; revert E; apply epoch_path_not_best).
      apply lookup_insert_eq.
    + unfold make_checkpoint. apply lookup_insert_eq.
  - right. left. reflexivity.
  - eexists. split; [apply lookup_insert_eq|].
    unfold make_checkpoint. apply lookup_insert_eq.
Qed.

(** C5.  The resume logic.  Without a checkpoint at the resume path (no
    path, an empty path or no file there) training starts fresh: the model
    and the optimizer are left as they are, [start_epoch] is 0, a line says
    so and nothing is raised.  With a checkpoint, its model parameters and
    optimizer state are loaded, [start_epoch] is the recorded epoch e, and
    the epochs that follow are numbered e + 1, e + 2, ..., [num_epochs];
    when e < [num_epochs] the first of them runs at once.  Every epoch is
    announced and recorded under its number, so that the epoch after a
    checkpoint recorded at epoch 4 is epoch 5. *)
Theorem resume_starts_after_checkpoint (path : option string)
    (g : Globals ModelState OptimState) :
  (requested_checkpoint (files g) path = None ->
   resume path g
   = Ok (mkGlobals (model g) (optimizer g) 0 (PFloat 0) (files g) (LineFresh :: stdout g)))
  /\ (forall d m o e,
        requested_checkpoint (files g) path = Some (SavedDict d) ->
        d !! "model_state_dict" = Some (PModel m) ->
        d !! "optimizer_state_dict" = Some (POptim o) ->
        d !! "epoch" = Some (PInt e) ->
        let g' := mkGlobals m o e (default (PFloat 0) (d !! "val_accuracy")) (files g)
                            (LineResumed e :: stdout g) in
        resume path g = Ok g'
        /\ map epoch_number (range (start_epoch g') num_epochs)
           = seq (e + 1) (num_epochs - e)
        /\ (e < num_epochs ->
            resume_and_train forward_eval forward_train criterion backward_step
                             train_loader val_loader path g
            = (g1 ← epoch_body forward_eval forward_train criterion backward_step
                               train_loader val_loader e g';
               run_epochs forward_eval forward_train criterion backward_step
                          train_loader val_loader (range (e + 1) num_epochs) g1)))
  /\ (forall epoch g1 g2,
        epoch_body forward_eval forward_train criterion backward_step
                   train_loader val_loader epoch g1 = Ok g2 ->
        In (LineEpoch (epoch_number epoch) num_epochs) (stdout g2)
        /\ exists d,
             files g2 !! epoch_path (epoch_number epoch) = Some (SavedDict d)
             /\ d !! "epoch" = Some (PInt (epoch_number epoch))).
Proof.
  split; [|split].
  - intros Hnone. unfold resume.
    destruct (resume_requested (files g) path) eqn:Hreq; [|reflexivity].
    apply resume_requested_checkpoint in Hreq. rewrite Hnone in Hreq.
    destruct Hreq as [? ?]. discriminate.
  - intros d m o e Hck Hm Ho He g'.
    assert (Hres : resume path g = Ok g').
    { unfold resume.
      assert (Hreq : resume_requested (files g) path = true).
      { apply resume_requested_checkpoint. rewrite Hck. eexists. reflexivity. }
      rewrite Hreq. unfold requested_checkpoint in Hck.
      destruct path as [p|]; [|discriminate].
      destruct (String.eqb p ""); [discriminate|].
      change (default "" (Some p)) with p. unfold torch_load. rewrite Hck. cbn [mbind result_bind getitem].
      rewrite Hm, Ho, He. reflexivity. }
    split; [exact Hres|]. split; [apply epoch_numbers|].
    intros Hlt. unfold resume_and_train. rewrite Hres. cbn [mbind result_bind].
    subst g'. cbn [start_epoch]. rewrite range_cons by assumption. reflexivity.
  - intros epoch g1 g2. apply epoch_body_records.
Qed.

Lemma after_epoch_better (epoch : nat) (g : Globals ModelState OptimState)
    (m : ModelState) (o : OptimState) (train_loss val_loss val_acc best : R) :
  (best < val_acc)%R ->
  after_epoch epoch g m o train_loss val_loss val_acc best
  = mkGlobals m o (start_epoch g) (PFloat val_acc)
      (<[best_path := SavedStateDict m]>
         (<[epoch_path (epoch + 1) :=
              SavedDict (make_checkpoint epoch m o val_loss val_acc)]> (files g)))
      (LineBest (epoch + 1) val_acc
       :: LineEpochDone (epoch + 1) train_loss val_loss val_acc
       :: LineEpoch (epoch + 1) num_epochs :: stdout g).
Proof.
  intros Hlt. unfold after_epoch.
  destruct (Rlt_dec best val_acc); [reflexivity | contradiction].
Qed.

Lemma after_epoch_not_better (epoch : nat) (g : Globals ModelState OptimState)
    (m : ModelState) (o : OptimState) (train_loss val_loss val_acc best : R) :
  ~ (best < val_acc)%R ->
  after_epoch epoch g m o train_loss val_loss val_acc best
  = mkGlobals m o (start_epoch g) (best_val_acc g)
      (<[epoch_path (epoch + 1) :=
           SavedDict (make_checkpoint epoch m o val_loss val_acc)]> (files g))
      (LineEpochDone (epoch + 1) train_loss val_loss val_acc
       :: LineEpoch (epoch + 1) num_epochs :: stdout g).
Proof.
  intros Hge. unfold after_epoch.
  destruct (Rlt_dec best val_acc); [contradiction | reflexivity].
Qed.

(** An epoch keeps [best_val_acc] equal to the largest of the seed and of
    the accuracies printed since the resume branch ran. *)
Lemma session_best_after_epoch (seed : R) (epoch : nat)
    (g : Globals ModelState OptimState) (m : ModelState) (o : OptimState)
    (train_loss val_loss val_acc : R) :
  as_float (best_val_acc g) = Ok (best_seen seed (since_restart (stdout g))) ->
  let g' := after_epoch epoch g m o train_loss val_loss val_acc
                        (best_seen seed (since_restart (stdout g))) in
  as_float (best_val_acc g') = Ok (best_seen seed (since_restart (stdout g'))).
Proof.
  intros Hinv. cbn zeta.
  destruct (Rlt_dec (best_seen seed (since_restart (stdout g))) val_acc) as [Hlt|Hge].
  - rewrite after_epoch_better by exact Hlt.
    cbn [best_val_acc stdout since_restart best_seen as_float].
    rewrite Rmax_right by lra. reflexivity.
  - rewrite after_epoch_not_better by exact Hge.
    cbn [best_val_acc stdout since_restart best_seen].
    rewrite Rmax_left by lra. exact Hinv.
Qed.

(** [resume] starts a session: nothing is printed yet since it ran, and it
    seeds the best accuracy with 0.0 on a fresh start and with what the
    checkpoint has under 'val_accuracy' (0.0 without the key) otherwise. *)
Lemma resume_session (path : option string) (g g0 : Globals ModelState OptimState) :
  resume path g = Ok g0 ->
  since_restart (stdout g0) = []
  /\ (requested_checkpoint (files g) path = None -> best_val_acc g0 = PFloat 0)
  /\ (forall ck, requested_checkpoint (files g) path = Some ck ->
        best_val_acc g0 = dict_get ck "val_accuracy" (PFloat 0)).
Proof.
  intros Hres. unfold resume in Hres.
  destruct (resume_requested (files g) path) eqn:Hreq.
  - destruct path as [p|]; [|discriminate].
    cbn [resume_requested] in Hreq.
    destruct (String.eqb p "") eqn:Hp; [discriminate|].
    change (default "" (Some p)) with p in Hres. unfold torch_load in Hres.
    destruct (files g !! p) as [ck|] eqn:Hf; [|discriminate].
    cbn [mbind result_bind] in Hres.
    destruct (getitem ck "model_state_dict" ≫= as_model) as [m|]; [|discriminate].
    cbn [mbind result_bind] in Hres.
    destruct (getitem ck "optimizer_state_dict" ≫= as_optim) as [o|]; [|discriminate].
    cbn [mbind result_bind] in Hres.
    destruct (getitem ck "epoch" ≫= as_int) as [e|]; [|discriminate].
    cbn [mbind result_bind] in Hres. injection Hres as <-.
    cbn [stdout since_restart best_val_acc requested_checkpoint].
    rewrite Hp, Hf. split; [reflexivity|]. split; [discriminate|].
    intros ck' [= <-]. reflexivity.
  - injection Hres as <-. cbn [stdout since_restart best_val_acc].
    split; [reflexivity|]. split; [reflexivity|].
    intros ck Hck.
    assert (Htrue : resume_requested (files g) path = true)
      by (apply resume_requested_checkpoint; rewrite Hck; eexists; reflexivity).
    rewrite Hreq in Htrue. discriminate.
Qed.

(** The epochs of a session keep [best_val_acc] equal to the best accuracy
    of the session. *)
Lemma run_epochs_session_best (seed : R) (epochs : list nat)
    (g g' : Globals ModelState OptimState) :
  as_float (best_val_acc g) = Ok (best_seen seed (since_restart (stdout g))) ->
  run_epochs forward_eval forward_train criterion backward_step
             train_loader val_loader epochs g = Ok g' ->
  as_float (best_val_acc g') = Ok (best_seen seed (since_restart (stdout g'))).
Proof.
  revert g. induction epochs as [|epoch rest IH]; intros g Hinv Hrun.
  - injection Hrun as <-. exact Hinv.
  - cbn [run_epochs] in Hrun.
    destruct (epoch_body _ _ _ _ _ _ epoch g) as [g1|] eqn:Hbody; [|discriminate].
    cbn [mbind result_bind] in Hrun. apply (IH g1); [|exact Hrun].
    destruct (epoch_body_inv _ _ _ Hbody)
      as (m & o & train_loss & val_loss & val_acc & best & _ & _ & Hb & ->).
    rewrite Hinv in Hb. injection Hb as <-.
    apply session_best_after_epoch. exact Hinv.
Qed.

(** C6, amended.  Every epoch of the resumable cell, in a session started
    by the resume branch and after any number of its epochs, for loaders on
    which [train] and [evaluate] return.  The resume branch seeds
    [best_val_acc] with 0.0 on a fresh start and with the validation
    accuracy recorded in the checkpoint it resumes from (0.0 without the
    key); from then on [best_val_acc] is the largest of this seed and of
    the validation accuracies of the epochs run since the resume branch
    ran, and accuracies seen before it ran do not count.  The epoch
    returns; the file of the best model is written in this epoch if and
    only if the epoch's validation accuracy is strictly above this value,
    and otherwise it is what it was; what is written is the state dict of
    the model alone, an object without any key such as 'epoch' or
    'optimizer_state_dict'. *)
Theorem best_snapshot_iff (path : option string)
    (g g0 g1 : Globals ModelState OptimState) (epochs : list nat) (epoch : nat)
    (seed : R) :
  train_loader <> [] ->
  samples val_loader <> [] ->
  resume path g = Ok g0 ->
  as_float (best_val_acc g0) = Ok seed ->
  run_epochs forward_eval forward_train criterion backward_step
             train_loader val_loader epochs g0 = Ok g1 ->
  (requested_checkpoint (files g) path = None -> best_val_acc g0 = PFloat 0)
  /\ (forall ck, requested_checkpoint (files g) path = Some ck ->
        best_val_acc g0 = dict_get ck "val_accuracy" (PFloat 0))
  /\ as_float (best_val_acc g1) = Ok (best_seen seed (since_restart (stdout g1)))
  /\ exists m o train_loss val_loss val_acc g',
       train forward_train criterion backward_step (model g1) (optimizer g1) train_loader
       = Ok (m, o, train_loss)
       /\ evaluate forward_eval criterion m val_loader = Ok (val_loss, val_acc)
       /\ epoch_body forward_eval forward_train criterion backward_step
                     train_loader val_loader epoch g1 = Ok g'
       /\ model g' = m
       /\ as_float (best_val_acc g')
          = Ok (best_seen seed (since_restart (stdout g')))
       /\ ((best_seen seed (since_restart (stdout g1)) < val_acc)%R ->
           files g' !! best_path = Some (SavedStateDict m)
           /\ best_val_acc g' = PFloat val_acc)
       /\ (~ (best_seen seed (since_restart (stdout g1)) < val_acc)%R ->
           files g' !! best_path = files g1 !! best_path
           /\ best_val_acc g' = best_val_acc g1)
       /\ (forall key, getitem (SavedStateDict (OptimState := OptimState) m) key
                       = Raise (KeyError key)).
Proof.
  intros Htrain Hval Hres Hseed Hrun.
  destruct (resume_session path g g0 Hres) as (Hnil & Hfresh & Hck).
  split; [exact Hfresh|]. split; [exact Hck|].
  assert (Hinv0 : as_float (best_val_acc g0)
                  = Ok (best_seen seed (since_restart (stdout g0))))
    by (rewrite Hnil; exact Hseed).
  pose proof (run_epochs_session_best seed epochs g0 g1 Hinv0 Hrun) as Hinv.
  split; [exact Hinv|].
  destruct (train_returns forward_train criterion backward_step
              (model g1) (optimizer g1) train_loader Htrain)
    as (m & o & train_loss & Ht).
  assert (Hpos : 0 < length (samples val_loader)).
  { destruct (samples val_loader); [contradiction | cbn; lia]. }
  pose proof (evaluate_value forward_eval criterion m val_loader Hpos) as He.
  pose proof (epoch_body_run epoch g1 m o train_loss _ _
                (best_seen seed (since_restart (stdout g1))) Ht He Hinv) as Hbody.
  eexists m, o, train_loss, _, _, _.
  split; [exact Ht|]. split; [exact He|]. split; [exact Hbody|].
  split; [unfold after_epoch; destruct (Rlt_dec _ _); reflexivity|].
  split; [apply session_best_after_epoch; exact Hinv|].
  split; [|split].
  - intros Hlt. rewrite after_epoch_better by exact Hlt.
    cbn [files best_val_acc]. split; [apply lookup_insert_eq | reflexivity].
  - intros Hge. rewrite after_epoch_not_better by exact Hge.
    cbn [files best_val_acc]. split; [|reflexivity].
    apply lookup_insert_ne. apply epoch_path_not_best.
  - intros key. reflexivity.
Qed.

End DriverClaims.

(** ** Claims about the final test metrics *)

Section MetricClaims.
Context {Img ModelState OptimState : Type}.
Variable forward_eval : ModelState -> Img -> R.

Import Sklearn.

Lemma count_pairs_no_positive (f : bool -> bool -> bool) (y_true y_pred : list bool) :
  (forall t, f t false = false) ->
  Forall (fun p => p = false) y_pred ->
  count_pairs f y_true y_pred = 0.
Proof.
  intros Hf Hall. unfold count_pairs. revert y_true.
  induction Hall as [|p y_pred Hp _ IH]; intros [|t y_true]; try reflexivity.
  cbn [combine List.filter fst snd]. rewrite Hp, Hf. apply IH.
Qed.

Lemma prf_divide_zero (den : nat) : prf_divide 0 den 0 = 0%R.
Proof.
  unfold prf_divide. destruct (den =? 0); [reflexivity|].
  cbn [INR]. unfold Rdiv. apply Rmult_0_l.
Qed.

Lemma test_loop_spec (m : ModelState) (loader : list (Batch Img))
    (all_preds all_labels : list bool) :
  test_loop forward_eval m loader all_preds all_labels
  = (all_preds ++ map (prediction forward_eval m) (samples loader),
     all_labels ++ map snd (samples loader)).
Proof.
  revert all_preds all_labels.
  induction loader as [|batch rest IH]; intros all_preds all_labels.
  - cbn. rewrite !app_nil_r. reflexivity.
  - cbn [test_loop]. rewrite IH. unfold samples. cbn [concat].
    rewrite !map_app, !app_assoc, !map_map. reflexivity.
Qed.

(** C9.  Zero predicted positives.  For every pair of a label vector and a
    prediction vector of one length in which nothing is predicted positive,
    the precision, recall and F1 computations of [test_model] (called with
    zero_division=0) each return 0 and raise nothing; and on a test loader
    without predicted positive, [test_model] loads the checkpoint and prints
    0 for precision, recall and F1. *)
Theorem zero_predicted_positives_report_zero :
  (forall y_true y_pred : list bool,
     length y_true = length y_pred ->
     Forall (fun p => p = false) y_pred ->
     precision_score y_true y_pred 0 = Ok 0%R
     /\ recall_score y_true y_pred 0 = Ok 0%R
     /\ f1_score y_true y_pred 0 = Ok 0%R)
  /\ (forall (fs : gmap string (Saved ModelState OptimState))
             (test_loader : list (Batch Img)) (checkpoint_path : string)
             (d : gmap string (PyObj ModelState OptimState)) (m : ModelState),
        fs !! checkpoint_path = Some (SavedDict d) ->
        d !! "model_state_dict" = Some (PModel m) ->
        Forall (fun s => prediction forward_eval m s = false) (samples test_loader) ->
        exists acc,
          test_model forward_eval fs test_loader checkpoint_path
          = Ok (m, [LineF1 0; LineRecall 0; LinePrecision 0; LineAccuracy acc; LineHeader])).
Proof.
  assert (Hmetrics : forall y_true y_pred : list bool,
     length y_true = length y_pred ->
     Forall (fun p => p = false) y_pred ->
     precision_score y_true y_pred 0 = Ok 0%R
     /\ recall_score y_true y_pred 0 = Ok 0%R
     /\ f1_score y_true y_pred 0 = Ok 0%R).
  { intros y_true y_pred Hlen Hneg.
    unfold precision_score, recall_score, f1_score, check_consistent_length.
    rewrite Hlen, Nat.eqb_refl. cbn [mbind result_bind mret result_ret].
    unfold true_pos, false_pos.
    rewrite !(count_pairs_no_positive _ y_true y_pred) by
      (try exact Hneg; intros t; destruct t; reflexivity).
    rewrite !prf_divide_zero. repeat split. }
  split; [exact Hmetrics|].
  intros fs test_loader checkpoint_path d m Hfile Hm Hneg.
  unfold test_model, torch_load. rewrite Hfile. cbn [mbind result_bind getitem].
  rewrite Hm. cbn [mbind result_bind as_model]. rewrite test_loop_spec. cbn [app].
  set (y_pred := map (prediction forward_eval m) (samples test_loader)).
  set (y_true := map snd (samples test_loader)).
  assert (Hlen : length y_true = length y_pred)
    by (subst y_true y_pred; rewrite !length_map; reflexivity).
  assert (Hall : Forall (fun p => p = false) y_pred).
  { subst y_pred. apply Forall_map. exact Hneg. }
  destruct (Hmetrics y_true y_pred Hlen Hall) as (Hp & Hr & Hf).
  rewrite Hp, Hr, Hf. unfold accuracy_score, check_consistent_length.
  rewrite Hlen, Nat.eqb_refl. cbn [mbind result_bind mret result_ret].
  eexists. reflexivity.
Qed.

End MetricClaims.

(** ** The claims on the sample notebook *)

Section SampleRuns.
Import Torch Model.

Lemma threshold_one : threshold 1 = true.
Proof. unfold threshold. destruct (Rlt_dec (1 / 2) 1); [reflexivity | lra]. Defined.

Lemma threshold_zero : threshold 0 = false.
Proof. unfold threshold. destruct (Rlt_dec (1 / 2) 0); [lra | reflexivity]. Defined.

Lemma head_probability_witness :
  exists y,
    head (set_mode false Sample.net) Sample.keep_all Sample.keep_all Sample.features = Ok y
    /\ shape2 y = (2, 1)
    /\ (forall b k, (0 <= at2 y b k <= 1)%R).
Proof.
  destruct (head_probability Sample.identity_backbone Sample.unit_weights
              Sample.head_weights Sample.net false Sample.keep_all Sample.keep_all
              Sample.features)
    as (y & Hy & Hs & _ & _ & Hr).
  - reflexivity.
  - reflexivity.
  - cbn. lia.
  - cbn. lia.
  - cbn. lia.
  - exists y. repeat split; try assumption; apply Hr.
Defined.

Lemma evaluate_mean_loss_and_accuracy_witness :
  (exists mean_loss,
     evaluate Sample.probability Sample.no_loss 0 Sample.val_batches = Ok (mean_loss, 1%R))
  /\ (exists mean_loss,
        evaluate Sample.probability Sample.no_loss 0 Sample.wrong_batches
        = Ok (mean_loss, 0%R)).
Proof.
  split.
  - destruct (evaluate_mean_loss_and_accuracy Sample.probability Sample.no_loss 0
                Sample.val_batches) as (_ & Hall & _).
    + discriminate.
    + repeat constructor; discriminate.
    + eexists. apply Hall. unfold samples, Sample.val_batches. cbn [concat app].
      repeat constructor; unfold prediction, Sample.probability; cbn [fst snd].
      * apply threshold_one.
      * apply threshold_zero.
  - destruct (evaluate_mean_loss_and_accuracy Sample.probability Sample.no_loss 0
                Sample.wrong_batches) as (_ & _ & Hnone).
    + discriminate.
    + repeat constructor; discriminate.
    + eexists. apply Hnone. unfold samples, Sample.wrong_batches. cbn [concat app].
      repeat constructor; unfold prediction, Sample.probability; cbn [fst snd negb].
      * apply threshold_one.
      * apply threshold_zero.
Defined.

Lemma checkpoint4_requested :
  requested_checkpoint (files Sample.globals4) (Some (epoch_path 4))
  = Some (SavedDict Sample.checkpoint4).
Proof.
  unfold requested_checkpoint, Sample.globals4, Sample.disk4. cbn [files].
  replace (String.eqb (epoch_path 4) "") with false by reflexivity.
  apply lookup_insert_eq.
Defined.

Lemma resume_starts_after_checkpoint_witness :
  resume (Some (epoch_path 4)) Sample.globals4
  = Ok (mkGlobals 4 4 4 (PFloat (9 / 10)) Sample.disk4 [LineResumed 4])
  /\ map epoch_number (range 4 num_epochs) = [5; 6; 7; 8; 9; 10]
  /\ resume None Sample.globals4
     = Ok (mkGlobals 0 0 0 (PFloat 0) Sample.disk4 [LineFresh]).
Proof.
  destruct (resume_starts_after_checkpoint Sample.probability Sample.probabilities
              Sample.no_loss Sample.count_step Sample.train_batches Sample.val_batches
              (Some (epoch_path 4)) Sample.globals4) as (_ & Hload & _).
  destruct (Hload Sample.checkpoint4 4 4 4) as (Hres & Hnum & _).
  - exact checkpoint4_requested.
  - unfold Sample.checkpoint4, make_checkpoint.
    rewrite lookup_insert_ne by discriminate. apply lookup_insert_eq.
  - unfold Sample.checkpoint4, make_checkpoint.
    rewrite !lookup_insert_ne by discriminate. apply lookup_insert_eq.
  - unfold Sample.checkpoint4, make_checkpoint. apply lookup_insert_eq.
  - split; [|split].
    + rewrite Hres. reflexivity.
    + exact Hnum.
    + destruct (resume_starts_after_checkpoint Sample.probability Sample.probabilities
                  Sample.no_loss Sample.count_step Sample.train_batches
                  Sample.val_batches None Sample.globals4) as (Hfresh & _).
      apply Hfresh. reflexivity.
Defined.

Lemma best_snapshot_iff_witness :
  exists g',
    epoch_body Sample.probability Sample.probabilities Sample.no_loss Sample.count_step
               Sample.train_batches Sample.val_batches 0
               (mkGlobals 0 0 0 (PFloat 0) ∅ [LineFresh]) = Ok g'
    /\ model g' = 1
    /\ as_float (best_val_acc g') = Ok (best_seen 0 (since_restart (stdout g'))).
Proof.
  destruct (best_snapshot_iff Sample.probability Sample.probabilities Sample.no_loss
              Sample.count_step Sample.train_batches Sample.val_batches
              None Sample.fresh_globals
              (mkGlobals 0 0 0 (PFloat 0) ∅ [LineFresh])
              (mkGlobals 0 0 0 (PFloat 0) ∅ [LineFresh]) [] 0 0%R)
    as (_ & _ & _ & m & o & train_loss & val_loss & val_acc & g'
        & Ht & _ & Hbody & Hm & Hbest & _).
  - discriminate.
  - discriminate.
  - reflexivity.
  - reflexivity.
  - reflexivity.
  - exists g'. split; [exact Hbody|]. split; [|exact Hbest].
    rewrite Hm. unfold train in Ht. cbn in Ht. injection Ht as <- _ _. reflexivity.
Defined.

Lemma zero_predicted_positives_report_zero_witness :
  exists acc,
    test_model Sample.probability Sample.disk4 Sample.negative_batches (epoch_path 4)
    = Ok (4, [LineF1 0; LineRecall 0; LinePrecision 0; LineAccuracy acc; LineHeader]).
Proof.
  destruct (@zero_predicted_positives_report_zero R nat nat Sample.probability)
    as (_ & Hrun).
  apply (Hrun Sample.disk4 Sample.negative_batches (epoch_path 4) Sample.checkpoint4 4).
  - unfold Sample.disk4. apply lookup_insert_eq.
  - unfold Sample.checkpoint4, make_checkpoint.
    rewrite lookup_insert_ne by discriminate. apply lookup_insert_eq.
  - unfold samples, Sample.negative_batches. cbn [concat app].
    repeat constructor; unfold prediction, Sample.probability; cbn [fst];
      apply threshold_zero.
Defined.

End SampleRuns.

(** * Further properties of the code *)

(** ** The attention gate: scaling, and the inputs it refuses *)

Section GateMore.
Import Torch Model.
Local Open Scope R_scope.

Lemma CBAM_forward_mismatch_run (C mid k p : nat) (w : CBAMWeights) (x : Tensor) :
  let m := mkCBAM (mkConv2d C mid 1 0 (w_ca1 w)) (mkConv2d mid C 1 0 (w_ca2 w))
                  (mkConv2d 2 1 k p (w_sa w)) in
  (0 < mid)%nat -> dimC x <> C ->
  (0 < dimC x)%nat -> (0 < dimH x)%nat -> (0 < dimW x)%nat ->
  CBAM_forward m x = Raise (RuntimeError "conv2d: channel mismatch").
Proof.
  intros m Hmid Hne HC HH HW. subst m. unfold CBAM_forward, channel_attention.
  rewrite AdaptiveAvgPool2d_1_ok by lia. cbn [mbind result_bind ca_conv1].
  unfold Conv2d_forward. cbn [out_channels kernel_size in_channels dimC].
  destruct (Nat.eqb_spec mid 0); [lia|].
  destruct (Nat.eqb_spec (dimC x) C); [contradiction|]. reflexivity.
Qed.

Lemma CBAM_forward_empty_bottleneck_run (C k p : nat) (w : CBAMWeights) (x : Tensor) :
  let m := mkCBAM (mkConv2d C 0 1 0 (w_ca1 w)) (mkConv2d 0 C 1 0 (w_ca2 w))
                  (mkConv2d 2 1 k p (w_sa w)) in
  (0 < dimC x)%nat -> (0 < dimH x)%nat -> (0 < dimW x)%nat ->
  CBAM_forward m x = Raise (RuntimeError "conv2d: empty weight").
Proof.
  intros m HC HH HW. subst m. unfold CBAM_forward, channel_attention.
  rewrite AdaptiveAvgPool2d_1_ok by lia. reflexivity.
Qed.

(** X1.  For a gate with an odd kernel size and a bottleneck of at least one
    channel, on a map with the gate's channel count and non-empty planes,
    [CBAM.forward] multiplies every element by a factor between 0 and 1, both
    included (a channel weight times a pixel weight): a zero stays zero, no
    sign is flipped, and no element grows in magnitude. *)
Theorem CBAM_forward_scales_down (channels reduction kernel_size : Z)
    (w : CBAMWeights) (m : CBAM) (x : Tensor) :
  CBAM_init channels reduction kernel_size w = Ok m ->
  (0 < channels / reduction)%Z ->
  (kernel_size mod 2 = 1)%Z ->
  dimC x = Z.to_nat channels -> (0 < dimH x)%nat -> (0 < dimW x)%nat ->
  exists y,
    CBAM_forward m x = Ok y
    /\ forall b c i j,
         (b < dimB x)%nat -> (c < dimC x)%nat -> (i < dimH x)%nat -> (j < dimW x)%nat ->
         exists factor,
           0 <= factor <= 1
           /\ at4 y b c i j = at4 x b c i j * factor
           /\ 0 <= at4 x b c i j * at4 y b c i j
           /\ Rabs (at4 y b c i j) <= Rabs (at4 x b c i j).
Proof.
  intros Hinit Hmid Hodd HC HH HW.
  destruct (CBAM_init_run channels reduction kernel_size w m x Hinit Hmid Hodd HC HH HW)
    as (ca & x1 & max_out & mean_out & sa_input & sa & y
        & (_ & _ & Hvca & _) & (_ & _ & Hvx1) & _ & (_ & _ & Hvsa & _)
        & (_ & _ & Hvy) & Hfwd).
  exists y. split; [exact Hfwd|].
  intros b c i j Hb Hc Hi Hj.
  exists (at4 ca b c O O * at4 sa b O i j).
  pose proof (sigmoid_unit
    (rsum (Z.to_nat (channels / reduction)) (fun k =>
       w_ca2 w c k O O
       * relu (rsum (dimC x) (fun c' => w_ca1 w k c' O O * Spec.global_avg x b c')))))
    as Hca.
  fold (Spec.channel_weight (w_ca1 w) (w_ca2 w) (Z.to_nat (channels / reduction)) x b c)
    in Hca.
  rewrite <- Hvca in Hca.
  assert (Hsa : 0 <= at4 sa b O i j <= 1).
  { rewrite Hvsa. unfold Spec.spatial_weight. apply sigmoid_unit. }
  assert (Hfac : 0 <= at4 ca b c O O * at4 sa b O i j <= 1) by nra.
  split; [exact Hfac|].
  assert (Hy : at4 y b c i j = at4 x b c i j * (at4 ca b c O O * at4 sa b O i j)).
  { rewrite Hvy, Hvx1 by assumption. ring. }
  split; [exact Hy|]. split.
  - rewrite Hy. pose proof (Rle_0_sqr (at4 x b c i j)) as Hsq. unfold Rsqr in Hsq.
    nra.
  - rewrite Hy, Rabs_mult.
    rewrite (Rabs_right (at4 ca b c O O * at4 sa b O i j)) by lra.
    pose proof (Rabs_pos (at4 x b c i j)). nra.
Qed.

(** X2.  A gate built for [channels] channels refuses a map with another
    (positive) number of channels: the first convolution of the channel
    attention raises, and nothing is returned. *)
Theorem CBAM_forward_channel_mismatch (channels reduction kernel_size : Z)
    (w : CBAMWeights) (m : CBAM) (x : Tensor) :
  CBAM_init channels reduction kernel_size w = Ok m ->
  (0 < channels / reduction)%Z ->
  dimC x <> Z.to_nat channels ->
  (0 < dimC x)%nat -> (0 < dimH x)%nat -> (0 < dimW x)%nat ->
  CBAM_forward m x = Raise (RuntimeError "conv2d: channel mismatch").
Proof.
  intros Hinit Hmid Hne HC HH HW.
  destruct (CBAM_init_inv _ _ _ _ _ Hinit) as (_ & _ & _ & _ & ->).
  apply CBAM_forward_mismatch_run; try assumption. lia.
Qed.

(** X3.  Which arguments the constructor accepts: [CBAM(channels, reduction,
    kernel_size)] is built exactly when reduction is not 0 and channels,
    channels // reduction and kernel_size are not negative; a reduction of 0
    raises ZeroDivisionError whatever the other arguments. *)
Theorem CBAM_init_accepts (channels reduction kernel_size : Z) (w : CBAMWeights) :
  ((exists m, CBAM_init channels reduction kernel_size w = Ok m)
   <-> (reduction <> 0 /\ 0 <= channels /\ 0 <= channels / reduction
        /\ 0 <= kernel_size)%Z)
  /\ CBAM_init channels 0 kernel_size w = Raise ZeroDivisionError.
Proof.
  split; [|reflexivity]. split.
  - intros [m Hm]. destruct (CBAM_init_inv _ _ _ _ _ Hm) as (H1 & H2 & H3 & H4 & _).
    repeat split; assumption.
  - intros (H1 & H2 & H3 & H4). eexists. apply CBAM_init_ok; assumption.
Qed.

(** X4.  A reduction ratio above the channel count is accepted by the
    constructor, with a bottleneck of 0 channels, and refused by the first
    forward pass: the convolution into the bottleneck has an empty weight. *)
Theorem CBAM_oversized_reduction (channels reduction kernel_size : Z)
    (w : CBAMWeights) (x : Tensor) :
  (1 <= channels < reduction)%Z -> (0 <= kernel_size)%Z ->
  dimC x = Z.to_nat channels -> (0 < dimH x)%nat -> (0 < dimW x)%nat ->
  exists m,
    CBAM_init channels reduction kernel_size w = Ok m
    /\ out_channels (ca_conv1 m) = 0%nat
    /\ CBAM_forward m x = Raise (RuntimeError "conv2d: empty weight").
Proof.
  intros Hr Hk HC HH HW.
  assert (Hmid : (channels / reduction = 0)%Z) by (apply Z.div_small; lia).
  eexists. split; [apply CBAM_init_ok; lia|].
  rewrite Hmid. split; [reflexivity|].
  apply CBAM_forward_empty_bottleneck_run; lia.
Qed.

End GateMore.

(** ** The whole classifier *)

Section NetMore.
Import Torch Model.
Local Open Scope R_scope.

(** The head of any network whose layer sizes fit the map. *)
Lemma head_run (net : BreastNetPP) (keep1 keep2 : nat -> nat -> bool) (x : Tensor) :
  in_features (fc1 net) = dimC x ->
  in_features (fc2 net) = out_features (fc1 net) ->
  (0 < dimB x)%nat -> (0 < dimC x)%nat -> (0 < dimH x)%nat -> (0 < dimW x)%nat ->
  exists y,
    head net keep1 keep2 x = Ok y
    /\ shape2 y = (dimB x, out_features (fc2 net))
    /\ (forall b k, 0 <= at2 y b k <= 1).
Proof.
  intros H1 H2 HB HC HH HW.
  unfold head, Dropout_forward, ReLU2, Sigmoid2.
  rewrite AdaptiveAvgPool2d_1_ok by lia. cbn [mbind result_bind].
  rewrite view_flat_ok by (cbn [dimB]; lia). cbn [mbind result_bind].
  rewrite Linear_forward_ok by (cbn [cols dimC dimH dimW]; lia).
  cbn [mbind result_bind].
  rewrite Linear_forward_ok by (cbn [cols tmap2]; symmetry; exact H2).
  cbn [mbind result_bind].
  eexists. split; [reflexivity|]. split; [reflexivity|].
  intros b k. apply sigmoid_unit.
Qed.

(** X5.  End to end: when the backbone returns a map of 1280 channels with at
    least one sample and non-empty planes, [BreastNetPP.forward] of the
    constructed network, in either mode and for any dropout draws, returns
    one value per sample (shape B x 1), and every value lies in [0, 1]. *)
Theorem BreastNetPP_forward_probabilities (eff : bool -> Tensor -> result Tensor)
    (wc : CBAMWeights) (wh : HeadWeights) (net0 : BreastNetPP) (mode : bool)
    (keep1 keep2 : nat -> nat -> bool) (x features : Tensor) :
  BreastNetPP_init eff wc wh = Ok net0 ->
  eff mode x = Ok features ->
  dimC features = 1280%nat -> (0 < dimB features)%nat ->
  (0 < dimH features)%nat -> (0 < dimW features)%nat ->
  exists y,
    BreastNetPP_forward (set_mode mode net0) keep1 keep2 x = Ok y
    /\ shape2 y = (dimB features, 1%nat)
    /\ (forall b k, 0 <= at2 y b k <= 1).
Proof.
  intros Hinit Heff HC HB HH HW.
  destruct (BreastNetPP_init_inv _ _ _ _ Hinit) as (c & Hc & ->).
  destruct (CBAM_init_run 1280 16 7 wc c features Hc eq_refl eq_refl HC HH HW)
    as (ca & x1 & max_out & mean_out & sa_input & sa & gated
        & _ & _ & _ & _ & (_ & Hs & _) & Hfwd).
  unfold shape in Hs. injection Hs as HgB HgC HgH HgW.
  destruct (head_run
              (set_mode mode
                 (mkBreastNetPP eff c (mkDropout (5 / 10))
                    (mkLinear 1280 128 (w_fc1 wh) (b_fc1 wh)) (mkDropout (3 / 10))
                    (mkLinear 128 1 (w_fc2 wh) (b_fc2 wh)) true))
              keep1 keep2 gated) as (y & Hy & Hsy & Hr).
  - cbn [set_mode fc1 in_features]. lia.
  - reflexivity.
  - lia.
  - lia.
  - lia.
  - lia.
  - exists y. split; [|split; [|exact Hr]].
    + unfold BreastNetPP_forward. cbn [set_mode backbone training cbam].
      rewrite Heff. cbn [mbind result_bind]. rewrite Hfwd. cbn [mbind result_bind].
      exact Hy.
    + rewrite Hsy, HgB. reflexivity.
Qed.

(** X6.  When the backbone returns a map whose channel count is positive but
    not 1280, [BreastNetPP.forward] raises at the attention gate; and an
    exception of the backbone is the exception of the forward pass. *)
Theorem BreastNetPP_forward_wrong_backbone (eff : bool -> Tensor -> result Tensor)
    (wc : CBAMWeights) (wh : HeadWeights) (net0 : BreastNetPP) (mode : bool)
    (keep1 keep2 : nat -> nat -> bool) (x : Tensor) :
  BreastNetPP_init eff wc wh = Ok net0 ->
  (forall features,
     eff mode x = Ok features ->
     dimC features <> 1280%nat -> (0 < dimC features)%nat ->
     (0 < dimH features)%nat -> (0 < dimW features)%nat ->
     BreastNetPP_forward (set_mode mode net0) keep1 keep2 x
     = Raise (RuntimeError "conv2d: channel mismatch"))
  /\ (forall e,
        eff mode x = Raise e ->
        BreastNetPP_forward (set_mode mode net0) keep1 keep2 x = Raise e).
Proof.
  intros Hinit.
  destruct (BreastNetPP_init_inv _ _ _ _ Hinit) as (c & Hc & ->).
  destruct (CBAM_init_inv _ _ _ _ _ Hc) as (_ & _ & _ & _ & ->).
  split.
  - intros features Heff Hne HC HH HW.
    unfold BreastNetPP_forward. cbn [set_mode backbone training cbam].
    rewrite Heff. cbn [mbind result_bind].
    rewrite CBAM_forward_mismatch_run; [reflexivity | | | | |]; try assumption.
    change (Z.to_nat (1280 / 16)) with 80%nat. lia.
  - intros e Heff. unfold BreastNetPP_forward. cbn [set_mode backbone training].
    rewrite Heff. reflexivity.
Qed.

End NetMore.

(** ** Batches and the evaluation loop *)

Section LoaderMore.
Context {A : Type}.

(** What the sampler yields from a current batch still below the size. *)
Lemma batch_sampler_spec (n : nat) (sampler batch : list A) :
  length batch < n ->
  concat (batch_sampler n batch sampler) = batch ++ sampler
  /\ Forall (fun b => 0 < length b <= n) (batch_sampler n batch sampler)
  /\ length (batch_sampler n batch sampler)
     = (length batch + length sampler + n - 1) / n.
Proof.
  revert batch. induction sampler as [|idx rest IH]; intros batch Hlt.
  - cbn [batch_sampler]. destruct (Nat.ltb_spec 0 (length batch)) as [Hpos|Hz].
    + cbn. rewrite !app_nil_r. split; [reflexivity|]. split.
      * constructor; [lia | constructor].
      * rewrite Nat.add_0_r. symmetry.
        replace (length batch + n - 1) with (length batch - 1 + 1 * n) by lia.
        rewrite Nat.div_add by lia. rewrite Nat.div_small by lia. reflexivity.
    + cbn. assert (Hb : batch = []) by (destruct batch; [reflexivity | cbn in Hz; lia]).
      subst batch. split; [reflexivity|]. split; [constructor|].
      symmetry. apply Nat.div_small. cbn [length]. lia.
  - cbn [batch_sampler]. rewrite length_app. cbn [length].
    destruct (Nat.eqb_spec (length batch + 1) n) as [Hfull|Hmore].
    + destruct (IH [] ltac:(cbn; lia)) as (Hc & Hf & Hl).
      cbn [concat]. rewrite Hc. split; [rewrite <- app_assoc; reflexivity|]. split.
      * constructor; [rewrite length_app; cbn; lia | exact Hf].
      * cbn [length]. rewrite Hl. cbn [length]. symmetry.
        replace (length batch + S (length rest) + n - 1)
          with (0 + length rest + n - 1 + 1 * n) by lia.
        rewrite Nat.div_add by lia. lia.
    + destruct (IH (batch ++ [idx]) ltac:(rewrite length_app; cbn; lia))
        as (Hc & Hf & Hl).
      rewrite Hc, Hl, length_app. cbn [length].
      split; [rewrite <- app_assoc; reflexivity|]. split; [exact Hf|].
      f_equal. lia.
Qed.

(** X7.  [DataLoader(dataset, batch_size=n)] with n >= 1 cuts the samples
    into batches that, put end to end, are the samples in their order; no
    batch is empty and none holds more than n samples; there are
    ceil(len / n) batches, none for an empty dataset.  n = 0 is refused. *)
Theorem DataLoader_batches (items : list A) (n : nat) :
  (0 < n ->
   exists batches,
     DataLoader items n = Ok batches
     /\ concat batches = items
     /\ Forall (fun b => 0 < length b <= n) batches
     /\ length batches = (length items + n - 1) / n
     /\ (items = [] <-> batches = []))
  /\ (exists why, DataLoader items 0 = Raise (ValueError why)).
Proof.
  split; [|eexists; reflexivity].
  intros Hn. unfold DataLoader.
  destruct (Nat.eqb_spec n 0); [lia|].
  destruct (batch_sampler_spec n items [] ltac:(cbn; lia)) as (Hc & Hf & Hl).
  eexists. split; [reflexivity|]. split; [exact Hc|]. split; [exact Hf|].
  split; [exact Hl|]. split.
  - intros ->. reflexivity.
  - intros Hb. rewrite Hb in Hc. cbn in Hc. congruence.
Qed.

End LoaderMore.

Section EvaluateMore.
Context {Img ModelState : Type}.
Variable forward_eval : ModelState -> Img -> R.
Variable criterion : list R -> list bool -> R.
Local Open Scope R_scope.

Lemma evaluate_returns_samples (model : ModelState) (loader : list (list (Img * bool)))
    (r : R * R) :
  evaluate forward_eval criterion model loader = Ok r ->
  (0 < length (samples loader))%nat.
Proof.
  intros Hr. destruct (samples loader) as [|s l] eqn:Hs; [|cbn; lia].
  exfalso. unfold evaluate in Hr. rewrite evaluate_loop_spec, Hs in Hr.
  cbn in Hr. discriminate.
Qed.

Lemma filter_length_le {B : Type} (f : B -> bool) (l : list B) :
  (length (List.filter f l) <= length l)%nat.
Proof.
  induction l as [|a l IH]; [reflexivity|]. cbn. destruct (f a); cbn; lia.
Qed.

(** X8.  [evaluate] returns exactly when the loader holds at least one
    sample, and the accuracy it returns lies in [0, 1]. *)
Theorem evaluate_accuracy_range (model : ModelState)
    (loader : list (list (Img * bool))) :
  ((exists loss accuracy,
      evaluate forward_eval criterion model loader = Ok (loss, accuracy))
   <-> samples loader <> [])
  /\ (forall loss accuracy,
        evaluate forward_eval criterion model loader = Ok (loss, accuracy) ->
        0 <= accuracy <= 1).
Proof.
  split.
  - split.
    + intros (loss & accuracy & Hr) Hnil.
      pose proof (evaluate_returns_samples _ _ _ Hr) as Hpos.
      rewrite Hnil in Hpos. cbn in Hpos. lia.
    + intros Hne. eexists _, _. apply evaluate_value.
      destruct (samples loader); [contradiction | cbn; lia].
  - intros loss accuracy Hr.
    pose proof (evaluate_returns_samples _ _ _ Hr) as Hpos.
    rewrite (evaluate_value forward_eval criterion model loader Hpos) in Hr.
    injection Hr as _ <-.
    assert (Hle : (n_correct forward_eval model loader <= length (samples loader))%nat)
      by apply filter_length_le.
    assert (Htot : 0 < INR (length (samples loader))) by (apply lt_0_INR; exact Hpos).
    pose proof (pos_INR (n_correct forward_eval model loader)) as Hc.
    apply le_INR in Hle.
    split.
    + apply Rmult_le_pos; [exact Hc|]. left. apply Rinv_0_lt_compat. exact Htot.
    + apply (Rmult_le_reg_r (INR (length (samples loader)))); [exact Htot|].
      unfold Rdiv. rewrite Rmult_assoc, Rinv_l by lra. lra.
Qed.

(** X9.  The accuracy does not depend on how the samples are cut into
    batches: two loaders holding the same samples in the same order, at
    least one, both make [evaluate] return, with one accuracy. *)
Theorem evaluate_accuracy_any_batching (model : ModelState)
    (loader1 loader2 : list (list (Img * bool))) :
  samples loader1 = samples loader2 ->
  samples loader1 <> [] ->
  exists loss1 loss2 accuracy,
    evaluate forward_eval criterion model loader1 = Ok (loss1, accuracy)
    /\ evaluate forward_eval criterion model loader2 = Ok (loss2, accuracy).
Proof.
  intros Hsame Hne.
  assert (Hpos : (0 < length (samples loader1))%nat)
    by (destruct (samples loader1); [contradiction | cbn; lia]).
  assert (Hpos2 : (0 < length (samples loader2))%nat) by (rewrite <- Hsame; exact Hpos).
  eexists _, _, _. split.
  - apply evaluate_value. exact Hpos.
  - rewrite (evaluate_value forward_eval criterion model loader2 Hpos2).
    unfold n_correct. rewrite Hsame. reflexivity.
Qed.

(** X10.  [evaluate] over [DataLoader(dataset, batch_size=n)], n >= 1: on a
    dataset with at least one sample it returns, and the accuracy is the
    number of correct samples of the dataset divided by its size, whatever
    n; on an empty dataset the loader has no batch and [evaluate] raises
    ZeroDivisionError. *)
Theorem evaluate_over_DataLoader (model : ModelState) (items : list (Img * bool))
    (n : nat) :
  (0 < n)%nat ->
  exists batches,
    DataLoader items n = Ok batches
    /\ (items <> [] ->
        exists loss,
          evaluate forward_eval criterion model batches
          = Ok (loss, INR (length (List.filter (is_correct forward_eval model) items))
                      / INR (length items)))
    /\ (items = [] ->
        evaluate forward_eval criterion model batches = Raise ZeroDivisionError).
Proof.
  intros Hn. unfold DataLoader. destruct (Nat.eqb_spec n 0); [lia|].
  destruct (batch_sampler_spec n items [] ltac:(cbn; lia)) as (Hc & _ & _).
  cbn [app] in Hc. eexists. split; [reflexivity|]. split.
  - intros Hne.
    assert (Hpos : (0 < length (samples (batch_sampler n [] items)))%nat).
    { unfold samples. rewrite Hc. destruct items; [contradiction | cbn; lia]. }
    eexists. rewrite (evaluate_value forward_eval criterion model _ Hpos).
    unfold n_correct, samples. rewrite Hc. reflexivity.
  - intros ->. reflexivity.
Qed.

End EvaluateMore.

(** ** The dataset *)

Section DatasetMore.
Context {Image : Type}.
Variable os_path_join : string -> string -> string.
Variable imread : string -> option Image.
Variable cvtColor : Image -> Image.

Lemma scan_names_spec (cls_path : string) (label : nat) (names paths : list string)
    (labs : list nat) :
  scan_names os_path_join cls_path label names paths labs
  = (paths ++ map (os_path_join cls_path) names, labs ++ repeat label (length names)).
Proof.
  revert paths labs. induction names as [|name rest IH]; intros paths labs.
  - cbn. rewrite !app_nil_r. reflexivity.
  - cbn [scan_names]. rewrite IH. cbn [map length repeat].
    rewrite <- !app_assoc. reflexivity.
Qed.

Lemma lookup_repeat {B : Type} (x : B) (n i : nat) :
  i < n -> repeat x n !! i = Some x.
Proof.
  revert i. induction n as [|n IH]; intros i Hi; [lia|].
  destruct i as [|i]; [reflexivity|]. cbn. apply IH. lia.
Qed.

(** The dataset that [__init__] builds from the two class directories. *)
Lemma CustomDataset_init_run (dirs : gmap string (list string)) (root : string)
    (tr : option (Image -> Image)) (benign malignant : list string) :
  dirs !! os_path_join root "benign" = Some benign ->
  dirs !! os_path_join root "malignant" = Some malignant ->
  CustomDataset_init os_path_join dirs root tr
  = Ok (mkCustomDataset root tr ["benign"; "malignant"]%string
          (map (os_path_join (os_path_join root "benign")) benign
           ++ map (os_path_join (os_path_join root "malignant")) malignant)
          (repeat 0 (length benign) ++ repeat 1 (length malignant))).
Proof.
  intros Hb Hm. unfold CustomDataset_init. cbn [scan_classes].
  rewrite Hb, scan_names_spec, Hm, scan_names_spec. reflexivity.
Qed.

(** X11.  [CustomDataset(root)] lists the files of root/benign, then those of
    root/malignant, each in the order of os.listdir, and nothing else; it
    holds one label per path, 0 for every benign file and 1 for every
    malignant one, and its length is the number of files of the two
    directories. *)
Theorem CustomDataset_init_layout (dirs : gmap string (list string)) (root : string)
    (tr : option (Image -> Image)) (benign malignant : list string) :
  dirs !! os_path_join root "benign" = Some benign ->
  dirs !! os_path_join root "malignant" = Some malignant ->
  exists ds,
    CustomDataset_init os_path_join dirs root tr = Ok ds
    /\ image_paths ds
       = map (os_path_join (os_path_join root "benign")) benign
         ++ map (os_path_join (os_path_join root "malignant")) malignant
    /\ labels ds = repeat 0 (length benign) ++ repeat 1 (length malignant)
    /\ length (labels ds) = length (image_paths ds)
    /\ CustomDataset_len ds = length benign + length malignant
    /\ Forall (fun label => label = 0 \/ label = 1) (labels ds).
Proof.
  intros Hb Hm. eexists. split; [apply CustomDataset_init_run; eassumption|].
  cbn [image_paths labels]. unfold CustomDataset_len. cbn [image_paths].
  rewrite !length_app, !repeat_length, !length_map.
  repeat split.
  apply Forall_app. split.
  - apply Forall_forall. intros l Hl. left.
    apply list_elem_of_In in Hl. apply repeat_spec in Hl. exact Hl.
  - apply Forall_forall. intros l Hl. right.
    apply list_elem_of_In in Hl. apply repeat_spec in Hl. exact Hl.
Qed.

(** X12.  A missing class directory makes the constructor raise
    FileNotFoundError for that directory: root/benign is looked up first,
    and root/malignant only when root/benign exists. *)
Theorem CustomDataset_init_missing_directory (dirs : gmap string (list string))
    (root : string) (tr : option (Image -> Image)) :
  (dirs !! os_path_join root "benign" = None ->
   CustomDataset_init os_path_join dirs root tr
   = Raise (FileNotFoundError (os_path_join root "benign")))
  /\ (forall benign,
        dirs !! os_path_join root "benign" = Some benign ->
        dirs !! os_path_join root "malignant" = None ->
        CustomDataset_init os_path_join dirs root tr
        = Raise (FileNotFoundError (os_path_join root "malignant"))).
Proof.
  split.
  - intros Hb. unfold CustomDataset_init. cbn [scan_classes]. rewrite Hb. reflexivity.
  - intros benign Hb Hm. unfold CustomDataset_init. cbn [scan_classes].
    rewrite Hb, scan_names_spec, Hm. reflexivity.
Qed.

(** X13.  [dataset[idx]] on the dataset built from the two directories: an
    index at or beyond the length raises IndexError; below it, a file that
    imread cannot decode raises cv2.error; otherwise the sample is the
    colour-converted and transformed image with the label of the directory
    of the file: benign (0.0) for the first len(benign) indices, malignant
    (1.0) for the others. *)
Theorem CustomDataset_getitem_label (dirs : gmap string (list string)) (root : string)
    (tr : option (Image -> Image)) (benign malignant : list string) :
  dirs !! os_path_join root "benign" = Some benign ->
  dirs !! os_path_join root "malignant" = Some malignant ->
  exists ds,
    CustomDataset_init os_path_join dirs root tr = Ok ds
    /\ (forall idx,
          CustomDataset_len ds <= idx ->
          CustomDataset_getitem imread cvtColor ds idx = IndexError)
    /\ (forall idx,
          idx < CustomDataset_len ds ->
          exists path,
            image_paths ds !! idx = Some path
            /\ (imread path = None ->
                CustomDataset_getitem imread cvtColor ds idx = CvError path)
            /\ (forall image,
                  imread path = Some image ->
                  CustomDataset_getitem imread cvtColor ds idx
                  = Item (match tr with
                          | Some f => f (cvtColor image)
                          | None => cvtColor image
                          end,
                          negb (idx <? length benign)))).
Proof.
  intros Hb Hm. eexists. split; [apply CustomDataset_init_run; eassumption|].
  unfold CustomDataset_len, CustomDataset_getitem. cbn [image_paths labels transform].
  set (paths := map (os_path_join (os_path_join root "benign")) benign
                ++ map (os_path_join (os_path_join root "malignant")) malignant).
  assert (Hlen : length paths = length benign + length malignant)
    by (subst paths; rewrite length_app, !length_map; reflexivity).
  split.
  - intros idx Hidx. rewrite (lookup_ge_None_2 paths idx) by lia. reflexivity.
  - intros idx Hidx.
    destruct (lookup_lt_is_Some_2 paths idx Hidx) as [path Hpath].
    exists path. split; [exact Hpath|]. rewrite Hpath. split.
    + intros ->. reflexivity.
    + intros image ->.
      destruct (Nat.ltb_spec idx (length benign)) as [Hlt|Hge].
      * rewrite lookup_app_l by (rewrite repeat_length; exact Hlt).
        rewrite lookup_repeat by exact Hlt. reflexivity.
      * rewrite lookup_app_r by (rewrite repeat_length; exact Hge).
        rewrite repeat_length.
        rewrite lookup_repeat by lia. reflexivity.
Qed.

End DatasetMore.

(** ** Checkpoint files *)

Section PathFacts.

Lemma string_length_app (s t : string) :
  String.length (s +:+ t) = String.length s + String.length t.
Proof. induction s as [|a s IH]; simpl; [reflexivity | rewrite IH; reflexivity]. Qed.

Lemma string_app_inj_r (s1 s2 t : string) : s1 +:+ t = s2 +:+ t -> s1 = s2.
Proof.
  revert s2. induction s1 as [|a s1 IH]; intros [|b s2] H.
  - reflexivity.
  - exfalso. apply (f_equal String.length) in H.
    rewrite !string_length_app in H. simpl in H. lia.
  - exfalso. apply (f_equal String.length) in H.
    rewrite !string_length_app in H. simpl in H. lia.
  - simpl in H. injection H as -> H. f_equal. apply IH. exact H.
Qed.

Lemma little_succ_nonnil (d : Decimal.uint) : Decimal.Little.succ d <> Decimal.Nil.
Proof. destruct d; discriminate. Qed.

Lemma to_little_uint_nonnil (n : nat) (acc : Decimal.uint) :
  acc <> Decimal.Nil -> Nat.to_little_uint n acc <> Decimal.Nil.
Proof.
  revert acc. induction n as [|n IH]; intros acc Hacc; [exact Hacc|].
  cbn. apply IH. apply little_succ_nonnil.
Qed.

Lemma revapp_nonnil (d d' : Decimal.uint) :
  d' <> Decimal.Nil -> Decimal.revapp d d' <> Decimal.Nil.
Proof.
  revert d'. induction d; intros d' Hd'; cbn; try exact Hd'; apply IHd; discriminate.
Qed.

Lemma to_uint_nonnil (n : nat) : Nat.to_uint n <> Decimal.Nil.
Proof.
  unfold Nat.to_uint, Decimal.rev.
  pose proof (to_little_uint_nonnil n Decimal.zero ltac:(discriminate)) as Hn.
  destruct (Nat.to_little_uint n Decimal.zero); [contradiction| ..];
    cbn; apply revapp_nonnil; discriminate.
Qed.

Lemma str_of_nat_inj (n n' : nat) : str_of_nat n = str_of_nat n' -> n = n'.
Proof.
  unfold str_of_nat. intros H. apply DecimalNat.Unsigned.to_uint_inj.
  pose proof (NilZero.usu _ (to_uint_nonnil n)) as Hn.
  pose proof (NilZero.usu _ (to_uint_nonnil n')) as Hn'.
  rewrite H in Hn. rewrite Hn in Hn'. injection Hn' as ->. reflexivity.
Qed.

Lemma epoch_path_inj (n n' : nat) : epoch_path n = epoch_path n' -> n = n'.
Proof.
  unfold epoch_path. intros H.
  apply (inj (String.app save_dir)) in H.
  apply (inj (String.app "/breastnetpp_epoch_")) in H.
  apply string_app_inj_r in H. apply str_of_nat_inj. exact H.
Qed.

Lemma commented_epoch_path_inj (n n' : nat) :
  commented_epoch_path n = commented_epoch_path n' -> n = n'.
Proof.
  unfold commented_epoch_path. intros H.
  apply (inj (String.app save_dir)) in H.
  apply (inj (String.app "/brestnetpp_epoch_")) in H.
  apply string_app_inj_r in H. apply str_of_nat_inj. exact H.
Qed.

Lemma commented_epoch_path_not_tested (n : nat) : commented_epoch_path n <> tested_path.
Proof. unfold commented_epoch_path, tested_path, save_dir. cbn. discriminate. Qed.

Lemma epoch_path_nonempty (n : nat) : String.eqb (epoch_path n) "" = false.
Proof. reflexivity. Qed.

(** X14.  Checkpoint paths: two different epochs are never saved under one
    path, no epoch is saved under the path of the best model, and the path
    given to [test_model] is the path of epoch 5 of the notebook, while the
    commented copy of the notebook saves no epoch under it. *)
Theorem checkpoint_paths_distinct :
  (forall n n', epoch_path n = epoch_path n' -> n = n')
  /\ (forall n, epoch_path n <> best_path)
  /\ tested_path = epoch_path 5
  /\ (forall n, commented_epoch_path n <> tested_path).
Proof.
  split; [exact epoch_path_inj|]. split; [exact epoch_path_not_best|].
  split; [reflexivity | exact commented_epoch_path_not_tested].
Qed.

End PathFacts.

(** ** Training cells, saved files and [test_model] *)

Section DriverMore.
Context {Img ModelState OptimState : Type}.
Variable forward_eval : ModelState -> Img -> R.
Variable forward_train : ModelState -> list Img -> list R.
Variable criterion : list R -> list bool -> R.
Variable backward_step :
  ModelState -> OptimState -> list Img -> list bool -> ModelState * OptimState.
Variable train_loader : list (Batch Img).
Variable val_loader : list (Batch Img).

Lemma plain_epoch_inv (path_of : nat -> string) (total epoch : nat)
    (g g' : Globals ModelState OptimState) :
  plain_epoch forward_eval forward_train criterion backward_step
              train_loader val_loader path_of total epoch g = Ok g' ->
  exists m o train_loss val_loss val_acc,
    g' = mkGlobals m o (start_epoch g) (best_val_acc g)
           (<[path_of (epoch + 1) :=
                SavedDict (make_checkpoint epoch m o val_loss val_acc)]> (files g))
           (LineEpochDone (epoch + 1) train_loss val_loss val_acc
            :: LineEpoch (epoch + 1) total :: stdout g).
Proof.
  unfold plain_epoch.
  destruct (train _ _ _ _ _ _) as [[[m o] train_loss]|]; [|discriminate].
  cbn [mbind result_bind].
  destruct (evaluate _ _ m _) as [[val_loss val_acc]|]; [|discriminate].
  cbn [mbind result_bind]. intros [= <-].
  exists m, o, train_loss, val_loss, val_acc. reflexivity.
Qed.

Lemma plain_epoch_returns (path_of : nat -> string) (total epoch : nat)
    (g : Globals ModelState OptimState) :
  train_loader <> [] -> samples val_loader <> [] ->
  exists g',
    plain_epoch forward_eval forward_train criterion backward_step
                train_loader val_loader path_of total epoch g = Ok g'.
Proof.
  intros Ht Hv. unfold plain_epoch.
  destruct (train_returns forward_train criterion backward_step
              (model g) (optimizer g) train_loader Ht) as (m & o & train_loss & ->).
  cbn [mbind result_bind].
  assert (Hpos : 0 < length (samples val_loader)).
  { destruct (samples val_loader); [contradiction | cbn; lia]. }
  rewrite (evaluate_value forward_eval criterion m val_loader Hpos).
  cbn [mbind result_bind]. eexists. reflexivity.
Qed.

Lemma run_plain_returns (path_of : nat -> string) (total : nat) (epochs : list nat)
    (g : Globals ModelState OptimState) :
  train_loader <> [] -> samples val_loader <> [] ->
  exists g',
    run_plain forward_eval forward_train criterion backward_step
              train_loader val_loader path_of total epochs g = Ok g'.
Proof.
  intros Ht Hv. revert g. induction epochs as [|epoch rest IH]; intros g.
  - eexists. reflexivity.
  - cbn [run_plain].
    destruct (plain_epoch_returns path_of total epoch g Ht Hv) as (g1 & ->).
    cbn [mbind result_bind]. apply IH.
Qed.

(** The files after the epochs a, a + 1, ..., a + len - 1 of a plain cell. *)
Lemma run_plain_files (path_of : nat -> string) (total len a : nat)
    (g g' : Globals ModelState OptimState) :
  (forall n n', path_of n = path_of n' -> n = n') ->
  run_plain forward_eval forward_train criterion backward_step
            train_loader val_loader path_of total (seq a len) g = Ok g' ->
  (forall n, a < n <= a + len ->
     exists m o val_loss val_acc,
       files g' !! path_of n
       = Some (SavedDict (make_checkpoint (n - 1) m o val_loss val_acc)))
  /\ (forall p, (forall n, a < n <= a + len -> p <> path_of n) ->
        files g' !! p = files g !! p).
Proof.
  intros Hinj. revert a g. induction len as [|len IH]; intros a g Hrun.
  - injection Hrun as <-. split; [intros n Hn; lia | reflexivity].
  - cbn [seq run_plain] in Hrun.
    destruct (plain_epoch _ _ _ _ _ _ path_of total a g) as [g1|] eqn:Hep;
      [|discriminate].
    cbn [mbind result_bind] in Hrun.
    destruct (IH (S a) g1 Hrun) as (Hnew & Hold).
    destruct (plain_epoch_inv _ _ _ _ _ Hep)
      as (m & o & train_loss & val_loss & val_acc & Hg1).
    split.
    + intros n Hn. destruct (Nat.eq_dec n (a + 1)) as [->|Hne].
      * rewrite Hold.
        -- rewrite Hg1. cbn [files]. rewrite lookup_insert_eq.
           replace (a + 1 - 1) with a by lia. eexists _, _, _, _. reflexivity.
        -- intros n' Hn' Heq. apply Hinj in Heq. lia.
      * apply Hnew. lia.
    + intros p Hp. rewrite Hold by (intros n Hn; apply Hp; lia).
      rewrite Hg1. cbn [files]. apply lookup_insert_ne.
      intros Heq. apply (Hp (a + 1)); [lia | symmetry; exact Heq].
Qed.

(** What [test_model] prints once the checkpoint is loaded. *)
Lemma test_model_run (fs : gmap string (Saved ModelState OptimState))
    (test_loader : list (Batch Img)) (checkpoint_path : string)
    (d : gmap string (PyObj ModelState OptimState)) (m : ModelState) :
  fs !! checkpoint_path = Some (SavedDict d) ->
  d !! "model_state_dict" = Some (PModel m) ->
  let y_pred := map (prediction forward_eval m) (samples test_loader) in
  let y_true := map snd (samples test_loader) in
  test_model forward_eval fs test_loader checkpoint_path
  = Ok (m, [LineF1 (Sklearn.prf_divide (2 * Sklearn.true_pos y_true y_pred)
                      (2 * Sklearn.true_pos y_true y_pred
                       + Sklearn.false_pos y_true y_pred
                       + Sklearn.false_neg y_true y_pred) 0);
            LineRecall (Sklearn.prf_divide (Sklearn.true_pos y_true y_pred)
                          (Sklearn.true_pos y_true y_pred
                           + Sklearn.false_neg y_true y_pred) 0);
            LinePrecision (Sklearn.prf_divide (Sklearn.true_pos y_true y_pred)
                             (Sklearn.true_pos y_true y_pred
                              + Sklearn.false_pos y_true y_pred) 0);
            LineAccuracy (if length y_true =? 0 then None
                          else Some (INR (Sklearn.count_pairs Bool.eqb y_true y_pred)
                                     / INR (length y_true))%R);
            LineHeader]).
Proof.
  intros Hfile Hm y_pred y_true.
  unfold test_model, torch_load. rewrite Hfile. cbn [mbind result_bind getitem].
  rewrite Hm. cbn [mbind result_bind as_model]. rewrite test_loop_spec. cbn [app].
  fold y_pred. fold y_true.
  assert (Hlen : length y_true = length y_pred)
    by (subst y_true y_pred; rewrite !length_map; reflexivity).
  unfold Sklearn.accuracy_score, Sklearn.precision_score, Sklearn.recall_score,
    Sklearn.f1_score, Sklearn.check_consistent_length.
  rewrite Hlen, Nat.eqb_refl. reflexivity.
Qed.

(** X15.  Which files [test_model] accepts.  It gets as far as its metric
    lines only for a checkpoint dictionary whose 'model_state_dict' is a
    model state, which it leaves loaded, and for such a file and a test
    loader with at least one sample it does print them.  A missing file
    raises FileNotFoundError; a file that holds a bare state dict, as the
    best-model file does, or a dictionary without the key, raises KeyError
    for 'model_state_dict'. *)
Theorem test_model_returns_iff (fs : gmap string (Saved ModelState OptimState))
    (test_loader : list (Batch Img)) (checkpoint_path : string) :
  (forall m lines,
     test_model forward_eval fs test_loader checkpoint_path = Ok (m, lines) ->
     exists d,
       fs !! checkpoint_path = Some (SavedDict d)
       /\ d !! "model_state_dict" = Some (PModel m))
  /\ (forall d m,
        fs !! checkpoint_path = Some (SavedDict d) ->
        d !! "model_state_dict" = Some (PModel m) ->
        samples test_loader <> [] ->
        exists acc prec rec f1,
          test_model forward_eval fs test_loader checkpoint_path
          = Ok (m, [LineF1 f1; LineRecall rec; LinePrecision prec;
                    LineAccuracy (Some acc); LineHeader]))
  /\ (fs !! checkpoint_path = None ->
      test_model forward_eval fs test_loader checkpoint_path
      = Raise (FileNotFoundError checkpoint_path))
  /\ (forall m,
        fs !! checkpoint_path = Some (SavedStateDict m) ->
        test_model forward_eval fs test_loader checkpoint_path
        = Raise (KeyError "model_state_dict"))
  /\ (forall d,
        fs !! checkpoint_path = Some (SavedDict d) ->
        d !! "model_state_dict" = None ->
        test_model forward_eval fs test_loader checkpoint_path
        = Raise (KeyError "model_state_dict")).
Proof.
  split; [|split; [|split; [|split]]].
  - intros m lines Hok.
    unfold test_model, torch_load in Hok.
    destruct (fs !! checkpoint_path) as [[d|m']|] eqn:Hfile;
      cbn [mbind result_bind getitem] in Hok; try discriminate.
    destruct (d !! "model_state_dict") as [[n|r|m'|o]|] eqn:Hd;
      cbn [mbind result_bind as_model] in Hok; try discriminate.
    destruct (test_loop _ _ _ _ _) as [y_pred y_true].
    destruct (Sklearn.accuracy_score _ _); cbn [mbind result_bind] in Hok;
      [|discriminate].
    destruct (Sklearn.precision_score _ _ _); cbn [mbind result_bind] in Hok;
      [|discriminate].
    destruct (Sklearn.recall_score _ _ _); cbn [mbind result_bind] in Hok;
      [|discriminate].
    destruct (Sklearn.f1_score _ _ _); cbn [mbind result_bind] in Hok;
      [|discriminate].
    injection Hok as <- _. exists d. split; [reflexivity | exact Hd].
  - intros d m Hfile Hd Hne.
    rewrite (test_model_run fs test_loader checkpoint_path d m Hfile Hd).
    rewrite length_map.
    destruct (Nat.eqb_spec (length (samples test_loader)) 0) as [Hz|_].
    + apply length_zero_iff_nil in Hz. contradiction.
    + eexists _, _, _, _. reflexivity.
  - intros Hfile. unfold test_model, torch_load. rewrite Hfile. reflexivity.
  - intros m Hfile. unfold test_model, torch_load. rewrite Hfile. reflexivity.
  - intros d Hfile Hd. unfold test_model, torch_load. rewrite Hfile.
    cbn [mbind result_bind getitem]. rewrite Hd. reflexivity.
Qed.

Lemma tested_path_epoch5 : tested_path = epoch_path 5.
Proof. reflexivity. Qed.

Lemma checkpoint_model (epoch : nat) (m : ModelState) (o : OptimState)
    (val_loss val_acc : R) :
  make_checkpoint epoch m o val_loss val_acc !! "model_state_dict"
  = Some (PModel m).
Proof.
  unfold make_checkpoint. rewrite lookup_insert_ne by discriminate.
  apply lookup_insert_eq.
Qed.

Lemma checkpoint_optim (epoch : nat) (m : ModelState) (o : OptimState)
    (val_loss val_acc : R) :
  make_checkpoint epoch m o val_loss val_acc !! "optimizer_state_dict"
  = Some (POptim o).
Proof.
  unfold make_checkpoint. do 2 (rewrite lookup_insert_ne by discriminate).
  apply lookup_insert_eq.
Qed.

Lemma checkpoint_epoch (epoch : nat) (m : ModelState) (o : OptimState)
    (val_loss val_acc : R) :
  make_checkpoint epoch m o val_loss val_acc !! "epoch" = Some (PInt (epoch + 1)).
Proof. unfold make_checkpoint. apply lookup_insert_eq. Qed.

Lemma checkpoint_val_accuracy (epoch : nat) (m : ModelState) (o : OptimState)
    (val_loss val_acc : R) :
  make_checkpoint epoch m o val_loss val_acc !! "val_accuracy"
  = Some (PFloat val_acc).
Proof.
  unfold make_checkpoint. do 4 (rewrite lookup_insert_ne by discriminate).
  apply lookup_insert_eq.
Qed.

Lemma trained_one (m : ModelState) (o : OptimState) :
  trained forward_train criterion backward_step train_loader 1 m o
  = (let '(m', o', _) := train_loop forward_train criterion backward_step
                                    m o train_loader 0%R in
     (m', o')).
Proof. reflexivity. Qed.

(** What a call of [train] that returns leaves behind. *)
Lemma train_inv (m m' : ModelState) (o o' : OptimState) (loss : R) :
  train forward_train criterion backward_step m o train_loader = Ok (m', o', loss) ->
  trained forward_train criterion backward_step train_loader 1 m o = (m', o').
Proof.
  rewrite trained_one. unfold train.
  destruct (train_loop _ _ _ m o train_loader 0) as [[m1 o1] running_loss].
  destruct (py_truediv running_loss (length train_loader)); [|discriminate].
  cbn [mbind result_bind]. intros [= <- <- _]. reflexivity.
Qed.

Lemma plain_epoch_inv_train (path_of : nat -> string) (total epoch : nat)
    (g g' : Globals ModelState OptimState) :
  plain_epoch forward_eval forward_train criterion backward_step
              train_loader val_loader path_of total epoch g = Ok g' ->
  exists train_loss val_loss val_acc,
    let mo := trained forward_train criterion backward_step train_loader 1
                      (model g) (optimizer g) in
    evaluate forward_eval criterion (fst mo) val_loader = Ok (val_loss, val_acc)
    /\ g' = mkGlobals (fst mo) (snd mo) (start_epoch g) (best_val_acc g)
              (<[path_of (epoch + 1) :=
                   SavedDict (make_checkpoint epoch (fst mo) (snd mo) val_loss val_acc)]>
                 (files g))
              (LineEpochDone (epoch + 1) train_loss val_loss val_acc
               :: LineEpoch (epoch + 1) total :: stdout g).
Proof.
  unfold plain_epoch.
  destruct (train _ _ _ _ _ _) as [[[m o] train_loss]|] eqn:Ht; [|discriminate].
  cbn [mbind result_bind].
  destruct (evaluate _ _ m _) as [[val_loss val_acc]|] eqn:He; [|discriminate].
  cbn [mbind result_bind]. intros [= <-].
  exists train_loss, val_loss, val_acc. cbn zeta.
  rewrite (train_inv _ _ _ _ _ Ht). cbn [fst snd]. split; [exact He | reflexivity].
Qed.

Lemma trained_succ_r (n : nat) (m : ModelState) (o : OptimState) :
  trained forward_train criterion backward_step train_loader (S n) m o
  = trained forward_train criterion backward_step train_loader n
      (fst (trained forward_train criterion backward_step train_loader 1 m o))
      (snd (trained forward_train criterion backward_step train_loader 1 m o)).
Proof.
  rewrite trained_one. unfold trained. rewrite Nat.iter_succ_r.
  cbn [fst snd].
  destruct (train_loop _ _ _ m o train_loader 0) as [[m1 o1] running_loss].
  reflexivity.
Qed.

(** The state and the checkpoints after the epochs a, ..., a + len - 1 of a
    plain cell: the i-th checkpoint holds the model and the optimizer after
    i passes of training, with what [evaluate] returns for that model. *)
Lemma run_plain_trained (path_of : nat -> string) (total len a : nat)
    (g g' : Globals ModelState OptimState) :
  (forall n n', path_of n = path_of n' -> n = n') ->
  run_plain forward_eval forward_train criterion backward_step
            train_loader val_loader path_of total (seq a len) g = Ok g' ->
  (model g', optimizer g')
  = trained forward_train criterion backward_step train_loader len
            (model g) (optimizer g)
  /\ forall i, 1 <= i <= len ->
       let mo := trained forward_train criterion backward_step train_loader i
                         (model g) (optimizer g) in
       exists val_loss val_acc,
         evaluate forward_eval criterion (fst mo) val_loader = Ok (val_loss, val_acc)
         /\ files g' !! path_of (a + i)
            = Some (SavedDict (make_checkpoint (a + i - 1) (fst mo) (snd mo)
                                 val_loss val_acc)).
Proof.
  intros Hinj. revert a g. induction len as [|len IH]; intros a g Hrun.
  - injection Hrun as <-. split; [reflexivity | intros i Hi; lia].
  - cbn [seq run_plain] in Hrun.
    destruct (plain_epoch _ _ _ _ _ _ path_of total a g) as [g1|] eqn:Hep;
      [|discriminate].
    cbn [mbind result_bind] in Hrun.
    destruct (IH (S a) g1 Hrun) as (Hstate & Hfiles).
    destruct (run_plain_files path_of total len (S a) g1 g' Hinj Hrun) as (_ & Hold).
    destruct (plain_epoch_inv_train _ _ _ _ _ Hep)
      as (train_loss & val_loss & val_acc & He & Hg1).
    cbn zeta in He, Hg1.
    assert (Hm1 : model g1
                  = fst (trained forward_train criterion backward_step train_loader 1
                                 (model g) (optimizer g)))
      by (rewrite Hg1; reflexivity).
    assert (Ho1 : optimizer g1
                  = snd (trained forward_train criterion backward_step train_loader 1
                                 (model g) (optimizer g)))
      by (rewrite Hg1; reflexivity).
    split.
    + rewrite Hstate, Hm1, Ho1. symmetry. apply trained_succ_r.
    + intros i Hi. cbn zeta. destruct (Nat.eq_dec i 1) as [->|Hne].
      * exists val_loss, val_acc. split; [exact He|].
        rewrite Hold by (intros n Hn Heq; apply Hinj in Heq; lia).
        rewrite Hg1. cbn [files]. replace (a + 1 - 1) with a by lia.
        apply lookup_insert_eq.
      * destruct (Hfiles (i - 1) ltac:(lia)) as (vl & va & Hev & Hf).
        cbn zeta in Hev, Hf. rewrite Hm1, Ho1, <- trained_succ_r in Hev, Hf.
        replace (S (i - 1)) with i in Hev, Hf by lia.
        replace (S a + (i - 1)) with (a + i) in Hf by lia.
        exists vl, va. split; [exact Hev | exact Hf].
Qed.

(** X16.  With a non-empty training loader and a validation sample, the
    first training cell runs its ten epochs to the end.  Under the path of
    each epoch number n = 1..10 it leaves the checkpoint of that epoch: the
    model and the optimizer as they are after n passes of training, with
    the validation loss and accuracy that [evaluate] returns for that
    model; it touches no other file, and it ends with the model and the
    optimizer of the tenth pass.  On these files the call
    [test_model(model, test_loader, 'saved_models/breastnetpp_epoch_5.pth')]
    of the notebook, with a test sample, loads the model of the fifth pass
    and prints its metric lines. *)
Theorem training_cell_then_test (g : Globals ModelState OptimState)
    (test_loader : list (Batch Img)) :
  train_loader <> [] -> samples val_loader <> [] -> samples test_loader <> [] ->
  exists g',
    training_cell forward_eval forward_train criterion backward_step
                  train_loader val_loader g = Ok g'
    /\ (forall n, 1 <= n <= 10 ->
          let mo := trained forward_train criterion backward_step train_loader n
                            (model g) (optimizer g) in
          exists val_loss val_acc,
            evaluate forward_eval criterion (fst mo) val_loader = Ok (val_loss, val_acc)
            /\ files g' !! epoch_path n
               = Some (SavedDict (make_checkpoint (n - 1) (fst mo) (snd mo)
                                    val_loss val_acc)))
    /\ (forall p, (forall n, 1 <= n <= 10 -> p <> epoch_path n) ->
          files g' !! p = files g !! p)
    /\ (model g', optimizer g')
       = trained forward_train criterion backward_step train_loader 10
                 (model g) (optimizer g)
    /\ exists acc prec rec f1,
         test_model forward_eval (files g') test_loader tested_path
         = Ok (fst (trained forward_train criterion backward_step train_loader 5
                            (model g) (optimizer g)),
               [LineF1 f1; LineRecall rec; LinePrecision prec;
                LineAccuracy (Some acc); LineHeader]).
Proof.
  intros Ht Hv Hs. unfold training_cell.
  destruct (run_plain_returns epoch_path 10 (range 0 10) g Ht Hv) as (g' & Hrun).
  exists g'. split; [exact Hrun|].
  destruct (run_plain_files epoch_path 10 10 0 g g' epoch_path_inj Hrun)
    as (_ & Hold).
  destruct (run_plain_trained epoch_path 10 10 0 g g' epoch_path_inj Hrun)
    as (Hstate & Hnew).
  split; [intros n Hn; exact (Hnew n Hn)|].
  split; [intros p Hp; apply Hold; intros n Hn; apply Hp; lia|].
  split; [exact Hstate|].
  destruct (Hnew 5 ltac:(lia)) as (val_loss & val_acc & _ & Hfile).
  cbn zeta in Hfile. change (0 + 5) with 5 in Hfile.
  rewrite <- tested_path_epoch5 in Hfile.
  rewrite (test_model_run _ test_loader tested_path _ _ Hfile
             (checkpoint_model _ _ _ val_loss val_acc)).
  rewrite length_map.
  destruct (Nat.eqb_spec (length (samples test_loader)) 0) as [Hz|_].
  - apply length_zero_iff_nil in Hz. contradiction.
  - eexists _, _, _, _. reflexivity.
Qed.

(** X17.  In the commented copy of the notebook the training cell runs five
    epochs and saves them under 'saved_models/brestnetpp_epoch_N.pth'; it
    never writes 'saved_models/breastnetpp_epoch_5.pth', so on a disk that
    did not hold that file the [test_model] call of the same notebook
    raises FileNotFoundError. *)
Theorem commented_cell_then_test (g : Globals ModelState OptimState)
    (test_loader : list (Batch Img)) :
  train_loader <> [] -> samples val_loader <> [] ->
  files g !! tested_path = None ->
  exists g',
    training_cell_commented forward_eval forward_train criterion backward_step
                            train_loader val_loader g = Ok g'
    /\ (forall n, 1 <= n <= 5 ->
          exists m o val_loss val_acc,
            files g' !! commented_epoch_path n
            = Some (SavedDict (make_checkpoint (n - 1) m o val_loss val_acc)))
    /\ test_model forward_eval (files g') test_loader tested_path
       = Raise (FileNotFoundError tested_path).
Proof.
  intros Ht Hv Hnone. unfold training_cell_commented.
  destruct (run_plain_returns commented_epoch_path 5 (range 0 5) g Ht Hv)
    as (g' & Hrun).
  exists g'. split; [exact Hrun|].
  destruct (run_plain_files commented_epoch_path 5 5 0 g g'
              commented_epoch_path_inj Hrun) as (Hnew & Hold).
  split; [intros n Hn; apply Hnew; lia|].
  unfold test_model, torch_load.
  rewrite Hold, Hnone; [reflexivity|].
  intros n _ Heq. symmetry in Heq. revert Heq. apply commented_epoch_path_not_tested.
Qed.

(** What [resume] returns on a checkpoint written by [make_checkpoint]. *)
Lemma resume_run (path : string) (g : Globals ModelState OptimState)
    (epoch : nat) (m : ModelState) (o : OptimState) (val_loss val_acc : R) :
  String.eqb path "" = false ->
  files g !! path = Some (SavedDict (make_checkpoint epoch m o val_loss val_acc)) ->
  resume (Some path) g
  = Ok (mkGlobals m o (epoch + 1) (PFloat val_acc) (files g)
          (LineResumed (epoch + 1) :: stdout g)).
Proof.
  intros Hp Hfile. unfold resume, resume_requested, torch_load.
  rewrite Hp. cbn [negb andb].
  rewrite bool_decide_eq_true_2 by (rewrite Hfile; eexists; reflexivity).
  change (default "" (Some path)) with path.
  rewrite Hfile. cbn [mbind result_bind getitem].
  rewrite checkpoint_model, checkpoint_optim, checkpoint_epoch.
  cbn [mbind result_bind as_model as_optim as_int mret result_ret dict_get].
  rewrite checkpoint_val_accuracy. reflexivity.
Qed.

(** X18.  Saving and resuming round-trip.  After an epoch of the resumable
    loop has run, resuming from the checkpoint that epoch wrote restores
    the model and the optimizer exactly as the epoch left them, sets
    [start_epoch] to the number of that epoch, and seeds [best_val_acc]
    with the validation accuracy of that epoch, which is the accuracy
    [evaluate] gives for the restored model; the files are left as they
    are. *)
Theorem resume_after_epoch (epoch : nat) (g g' : Globals ModelState OptimState) :
  epoch_body forward_eval forward_train criterion backward_step
             train_loader val_loader epoch g = Ok g' ->
  exists val_loss val_acc,
    evaluate forward_eval criterion (model g') val_loader = Ok (val_loss, val_acc)
    /\ resume (Some (epoch_path (epoch + 1))) g'
       = Ok (mkGlobals (model g') (optimizer g') (epoch + 1) (PFloat val_acc)
               (files g') (LineResumed (epoch + 1) :: stdout g')).
Proof.
  intros H. destruct (epoch_body_inv _ _ _ _ _ _ _ _ _ H)
    as (m & o & train_loss & val_loss & val_acc & best & _ & He & _ & ->).
  exists val_loss, val_acc.
  assert (Hm : model (after_epoch epoch g m o train_loss val_loss val_acc best) = m)
    by (unfold after_epoch; destruct (Rlt_dec best val_acc); reflexivity).
  assert (Ho : optimizer (after_epoch epoch g m o train_loss val_loss val_acc best) = o)
    by (unfold after_epoch; destruct (Rlt_dec best val_acc); reflexivity).
  rewrite Hm, Ho. split; [exact He|].
  apply (resume_run _ _ epoch m o val_loss val_acc); [apply epoch_path_nonempty|].
  unfold after_epoch. destruct (Rlt_dec best val_acc); cbn [files].
  - rewrite lookup_insert_ne
      by (intros E; symmetry in E; revert E; apply epoch_path_not_best).
    apply lookup_insert_eq.
  - apply lookup_insert_eq.
Qed.

(** X19.  The best-model file is not a checkpoint.  Whenever an epoch of
    the resumable loop raises [best_val_acc], the file it leaves at the
    best-model path holds the bare state dict of the current model, so
    passing that path to [test_model] or resuming from it raises KeyError
    for 'model_state_dict'. *)
Theorem best_model_file_is_no_checkpoint (epoch : nat)
    (g g' : Globals ModelState OptimState) (test_loader : list (Batch Img)) :
  epoch_body forward_eval forward_train criterion backward_step
             train_loader val_loader epoch g = Ok g' ->
  best_val_acc g' <> best_val_acc g ->
  files g' !! best_path = Some (SavedStateDict (model g'))
  /\ test_model forward_eval (files g') test_loader best_path
     = Raise (KeyError "model_state_dict")
  /\ resume (Some best_path) g' = Raise (KeyError "model_state_dict").
Proof.
  intros H Hbest. destruct (epoch_body_inv _ _ _ _ _ _ _ _ _ H)
    as (m & o & train_loss & val_loss & val_acc & best & _ & _ & _ & ->).
  unfold after_epoch in *. destruct (Rlt_dec best val_acc);
    [|cbn [best_val_acc] in Hbest; contradiction].
  cbn [files model].
  assert (Hfile : (<[best_path := SavedStateDict m]>
                     (<[epoch_path (epoch + 1) :=
                          SavedDict (make_checkpoint epoch m o val_loss val_acc)]>
                        (files g)) : gmap string (Saved ModelState OptimState))
                  !! best_path = Some (SavedStateDict m))
    by apply lookup_insert_eq.
  split; [exact Hfile|]. split.
  - unfold test_model, torch_load. rewrite Hfile. reflexivity.
  - unfold resume, resume_requested, torch_load. cbn [files].
    rewrite bool_decide_eq_true_2 by (rewrite Hfile; eexists; reflexivity).
    change (default "" (Some best_path)) with best_path.
    cbn [negb andb String.eqb best_path]. rewrite Hfile. reflexivity.
Qed.

Lemma count_pairs_correct (m : ModelState) (l : list (Img * bool)) :
  Sklearn.count_pairs Bool.eqb (map snd l) (map (prediction forward_eval m) l)
  = length (List.filter (is_correct forward_eval m) l).
Proof.
  unfold Sklearn.count_pairs.
  induction l as [|[img label] l IH]; [reflexivity|].
  cbn [map combine List.filter fst snd].
  unfold is_correct at 1. cbn [snd].
  destruct (prediction forward_eval m (img, label)), label; cbn [Bool.eqb length];
    rewrite IH; reflexivity.
Qed.

(** X20.  On a loader with at least one sample, the accuracy that
    [test_model] prints for a checkpoint is the accuracy that [evaluate]
    returns for the model of that checkpoint on the same loader. *)
Theorem test_model_accuracy_is_evaluate
    (fs : gmap string (Saved ModelState OptimState))
    (loader : list (Batch Img)) (checkpoint_path : string)
    (d : gmap string (PyObj ModelState OptimState)) (m : ModelState) :
  fs !! checkpoint_path = Some (SavedDict d) ->
  d !! "model_state_dict" = Some (PModel m) ->
  samples loader <> [] ->
  exists loss acc prec rec f1,
    evaluate forward_eval criterion m loader = Ok (loss, acc)
    /\ test_model forward_eval fs loader checkpoint_path
       = Ok (m, [LineF1 f1; LineRecall rec; LinePrecision prec;
                 LineAccuracy (Some acc); LineHeader]).
Proof.
  intros Hfile Hm Hne.
  assert (Hpos : 0 < length (samples loader))
    by (destruct (samples loader); [contradiction | cbn; lia]).
  rewrite (evaluate_value forward_eval criterion m loader Hpos).
  rewrite (test_model_run fs loader checkpoint_path d m Hfile Hm).
  rewrite count_pairs_correct, !length_map.
  destruct (Nat.eqb_spec (length (samples loader)) 0) as [Hz|_]; [lia|].
  eexists _, _, _, _, _. split; reflexivity.
Qed.

(** X21.  Resuming from a checkpoint whose recorded epoch is the last one
    (or beyond) trains nothing: the driver loads the model and the
    optimizer, prints the resume line and stops, whatever the loaders hold,
    and writes no file. *)
Theorem resume_past_last_epoch (path : string) (g : Globals ModelState OptimState)
    (d : gmap string (PyObj ModelState OptimState))
    (m : ModelState) (o : OptimState) (e : nat) :
  String.eqb path "" = false ->
  files g !! path = Some (SavedDict d) ->
  d !! "model_state_dict" = Some (PModel m) ->
  d !! "optimizer_state_dict" = Some (POptim o) ->
  d !! "epoch" = Some (PInt e) ->
  num_epochs <= e ->
  resume_and_train forward_eval forward_train criterion backward_step
                   train_loader val_loader (Some path) g
  = Ok (mkGlobals m o e (default (PFloat 0) (d !! "val_accuracy")) (files g)
          (LineResumed e :: stdout g)).
Proof.
  intros Hp Hfile Hm Ho He Hlast.
  unfold resume_and_train, resume, resume_requested, torch_load.
  rewrite Hp. cbn [negb andb].
  rewrite bool_decide_eq_true_2 by (rewrite Hfile; eexists; reflexivity).
  change (default "" (Some path)) with path.
  rewrite Hfile. cbn [mbind result_bind getitem].
  rewrite Hm, Ho, He.
  cbn [mbind result_bind as_model as_optim as_int mret result_ret dict_get start_epoch].
  unfold range. replace (num_epochs - e) with 0 by lia. reflexivity.
Qed.

(** One epoch keeps the best-model file in step with a checkpoint. *)
Lemma epoch_body_best_file (b : R) (lo a : nat) (g : Globals ModelState OptimState) :
  train_loader <> [] -> samples val_loader <> [] -> lo <= a ->
  ((files g !! best_path = None /\ best_val_acc g = PFloat b)
   \/ exists n m o val_loss val_acc,
        lo < n <= a
        /\ files g !! best_path = Some (SavedStateDict m)
        /\ files g !! epoch_path n
           = Some (SavedDict (make_checkpoint (n - 1) m o val_loss val_acc))
        /\ evaluate forward_eval criterion m val_loader = Ok (val_loss, val_acc)
        /\ best_val_acc g = PFloat val_acc
        /\ (b < val_acc)%R) ->
  exists g1,
    epoch_body forward_eval forward_train criterion backward_step
               train_loader val_loader a g = Ok g1
    /\ ((files g1 !! best_path = None /\ best_val_acc g1 = PFloat b)
        \/ exists n m o val_loss val_acc,
             lo < n <= a + 1
             /\ files g1 !! best_path = Some (SavedStateDict m)
             /\ files g1 !! epoch_path n
                = Some (SavedDict (make_checkpoint (n - 1) m o val_loss val_acc))
             /\ evaluate forward_eval criterion m val_loader = Ok (val_loss, val_acc)
             /\ best_val_acc g1 = PFloat val_acc
             /\ (b < val_acc)%R).
Proof.
  intros Ht Hv Hlo Hinv.
  destruct (train_returns forward_train criterion backward_step
              (model g) (optimizer g) train_loader Ht) as (m & o & train_loss & Htrain).
  assert (Hpos : 0 < length (samples val_loader))
    by (destruct (samples val_loader); [contradiction | cbn; lia]).
  pose proof (evaluate_value forward_eval criterion m val_loader Hpos) as Heval.
  set (val_loss := (total_loss forward_eval criterion m val_loader
                    / INR (length val_loader))%R) in *.
  set (val_acc := (INR (n_correct forward_eval m val_loader)
                   / INR (length (samples val_loader)))%R) in *.
  assert (Hfloat : exists x, best_val_acc g = PFloat x
                             /\ (x = b \/ (b < x)%R)).
  { destruct Hinv as [[_ Hb] | (n & m0 & o0 & vl0 & va0 & _ & _ & _ & _ & Hb & Hlt)].
    - exists b. split; [exact Hb | left; reflexivity].
    - exists va0. split; [exact Hb | right; exact Hlt]. }
  destruct Hfloat as (x & Hx & Hbx).
  assert (Hbest : as_float (best_val_acc g) = Ok x)
    by (rewrite Hx; reflexivity).
  exists (after_epoch a g m o train_loss val_loss val_acc x).
  split; [apply (epoch_body_run _ _ _ _ _ _ _ _ _ _ _ _ _ _ Htrain Heval Hbest)|].
  unfold after_epoch. destruct (Rlt_dec x val_acc) as [Hlt|Hge]; cbn [files best_val_acc].
  - right. exists (a + 1), m, o, val_loss, val_acc.
    split; [lia|]. split; [apply lookup_insert_eq|]. split.
    + rewrite lookup_insert_ne
        by (intros E; symmetry in E; revert E; apply epoch_path_not_best).
      replace (a + 1 - 1) with a by lia. apply lookup_insert_eq.
    + split; [exact Heval|]. split; [reflexivity|].
      destruct Hbx as [->|Hbx]; lra.
  - destruct Hinv as [[Hnone Hb] | (n & m0 & o0 & vl0 & va0 & Hn & Hf & Hc & He & Hb & Hlt0)].
    + left. split; [|exact Hb].
      rewrite lookup_insert_ne by apply epoch_path_not_best. exact Hnone.
    + right. exists n, m0, o0, vl0, va0.
      split; [lia|]. split.
      * rewrite lookup_insert_ne by apply epoch_path_not_best. exact Hf.
      * split; [|split; [exact He | split; [exact Hb | exact Hlt0]]].
        rewrite lookup_insert_ne; [exact Hc|].
        intros E. apply epoch_path_inj in E. lia.
Qed.

Lemma run_epochs_best_file (b : R) (lo len a : nat) (g : Globals ModelState OptimState) :
  train_loader <> [] -> samples val_loader <> [] -> lo <= a ->
  ((files g !! best_path = None /\ best_val_acc g = PFloat b)
   \/ exists n m o val_loss val_acc,
        lo < n <= a
        /\ files g !! best_path = Some (SavedStateDict m)
        /\ files g !! epoch_path n
           = Some (SavedDict (make_checkpoint (n - 1) m o val_loss val_acc))
        /\ evaluate forward_eval criterion m val_loader = Ok (val_loss, val_acc)
        /\ best_val_acc g = PFloat val_acc
        /\ (b < val_acc)%R) ->
  exists g',
    run_epochs forward_eval forward_train criterion backward_step
               train_loader val_loader (seq a len) g = Ok g'
    /\ ((files g' !! best_path = None /\ best_val_acc g' = PFloat b)
        \/ exists n m o val_loss val_acc,
             lo < n <= a + len
             /\ files g' !! best_path = Some (SavedStateDict m)
             /\ files g' !! epoch_path n
                = Some (SavedDict (make_checkpoint (n - 1) m o val_loss val_acc))
             /\ evaluate forward_eval criterion m val_loader = Ok (val_loss, val_acc)
             /\ best_val_acc g' = PFloat val_acc
             /\ (b < val_acc)%R).
Proof.
  intros Ht Hv. revert a g. induction len as [|len IH]; intros a g Hlo Hinv.
  - exists g. split; [reflexivity|]. rewrite Nat.add_0_r. exact Hinv.
  - cbn [seq run_epochs].
    destruct (epoch_body_best_file b lo a g Ht Hv Hlo Hinv) as (g1 & -> & Hinv1).
    cbn [mbind result_bind].
    replace (a + S len) with (S a + len) by lia.
    apply IH; [lia|]. replace (S a) with (a + 1) by lia. exact Hinv1.
Qed.

(** X22.  The best-model file stays in step with the checkpoints.  Started
    on a disk without a best-model file, with [best_val_acc] a number b,
    the loop over the epochs s, ..., [num_epochs] - 1 runs to its end (given
    a non-empty training loader and a validation sample) and then either no
    epoch improved on b and there is still no best-model file, or the
    best-model file holds exactly the model stored in the checkpoint of one
    epoch n of this run, [best_val_acc] is the validation accuracy recorded
    in that checkpoint, which is what [evaluate] gives for that model, and
    it exceeds b. *)
Theorem best_model_matches_a_checkpoint (s : nat) (b : R)
    (g : Globals ModelState OptimState) :
  train_loader <> [] -> samples val_loader <> [] ->
  best_val_acc g = PFloat b ->
  files g !! best_path = None ->
  exists g',
    run_epochs forward_eval forward_train criterion backward_step
               train_loader val_loader (range s num_epochs) g = Ok g'
    /\ ((files g' !! best_path = None /\ best_val_acc g' = PFloat b)
        \/ exists n m o val_loss val_acc,
             s < n <= num_epochs
             /\ files g' !! best_path = Some (SavedStateDict m)
             /\ files g' !! epoch_path n
                = Some (SavedDict (make_checkpoint (n - 1) m o val_loss val_acc))
             /\ evaluate forward_eval criterion m val_loader = Ok (val_loss, val_acc)
             /\ best_val_acc g' = PFloat val_acc
             /\ (b < val_acc)%R).
Proof.
  intros Ht Hv Hb Hnone. unfold range.
  destruct (run_epochs_best_file b s (num_epochs - s) s g Ht Hv (Nat.le_refl s))
    as (g' & Hrun & Hinv).
  - left. split; [exact Hnone | exact Hb].
  - exists g'. split; [exact Hrun|].
    destruct Hinv as [Hl | (n & m & o & vl & va & Hn & Hrest)]; [left; exact Hl|].
    right. exists n, m, o, vl, va. split; [|exact Hrest].
    destruct (Nat.le_gt_cases s num_epochs); lia.
Qed.

Lemma run_epochs_app (l1 l2 : list nat) (g : Globals ModelState OptimState) :
  run_epochs forward_eval forward_train criterion backward_step
             train_loader val_loader (l1 ++ l2) g
  = (g' ← run_epochs forward_eval forward_train criterion backward_step
                     train_loader val_loader l1 g;
     run_epochs forward_eval forward_train criterion backward_step
                train_loader val_loader l2 g').
Proof.
  revert g. induction l1 as [|epoch l1 IH]; intros g; [reflexivity|].
  cbn [app run_epochs].
  destruct (epoch_body _ _ _ _ _ _ epoch g) as [g1|]; cbn [mbind result_bind];
    [apply IH | reflexivity].
Qed.

(** The state after an epoch: its checkpoint holds the current model and
    optimizer, and [best_val_acc] is still a number. *)
Lemma epoch_body_last (epoch : nat) (g g' : Globals ModelState OptimState) :
  epoch_body forward_eval forward_train criterion backward_step
             train_loader val_loader epoch g = Ok g' ->
  (exists val_loss val_acc,
     files g' !! epoch_path (epoch + 1)
     = Some (SavedDict (make_checkpoint epoch (model g') (optimizer g')
                          val_loss val_acc)))
  /\ exists x, as_float (best_val_acc g') = Ok x.
Proof.
  intros H. destruct (epoch_body_inv _ _ _ _ _ _ _ _ _ H)
    as (m & o & train_loss & val_loss & val_acc & best & _ & _ & Hb & ->).
  unfold after_epoch. destruct (Rlt_dec best val_acc);
    cbn [files model optimizer best_val_acc]; split.
  - exists val_loss, val_acc.
    rewrite lookup_insert_ne
      by (intros E; symmetry in E; revert E; apply epoch_path_not_best).
    apply lookup_insert_eq.
  - exists val_acc. reflexivity.
  - exists val_loss, val_acc. apply lookup_insert_eq.
  - exists best. exact Hb.
Qed.

(** An epoch of the resumable loop returns when the loaders hold data and
    [best_val_acc] is a number. *)
Lemma epoch_body_returns (epoch : nat) (g : Globals ModelState OptimState) :
  train_loader <> [] -> samples val_loader <> [] ->
  (exists x, as_float (best_val_acc g) = Ok x) ->
  exists g',
    epoch_body forward_eval forward_train criterion backward_step
               train_loader val_loader epoch g = Ok g'.
Proof.
  intros Ht Hv [x Hx].
  destruct (train_returns forward_train criterion backward_step
              (model g) (optimizer g) train_loader Ht) as (m & o & train_loss & Htrain).
  assert (Hpos : 0 < length (samples val_loader))
    by (destruct (samples val_loader); [contradiction | cbn; lia]).
  pose proof (evaluate_value forward_eval criterion m val_loader Hpos) as Heval.
  eexists. apply (epoch_body_run _ _ _ _ _ _ _ _ _ _ _ _ _ _ Htrain Heval Hx).
Qed.

Lemma run_epochs_returns (epochs : list nat) (g : Globals ModelState OptimState) :
  train_loader <> [] -> samples val_loader <> [] ->
  (exists x, as_float (best_val_acc g) = Ok x) ->
  exists g',
    run_epochs forward_eval forward_train criterion backward_step
               train_loader val_loader epochs g = Ok g'.
Proof.
  intros Ht Hv. revert g. induction epochs as [|epoch rest IH]; intros g Hx.
  - exists g. reflexivity.
  - cbn [run_epochs].
    destruct (epoch_body_returns epoch g Ht Hv Hx) as (g1 & Hep). rewrite Hep.
    cbn [mbind result_bind]. apply IH.
    destruct (epoch_body_last _ _ _ Hep) as (_ & Hx1). exact Hx1.
Qed.

(** The files after the epochs a, ..., a + len - 1 of the resumable loop. *)
Lemma run_epochs_files (len a : nat) (g g' : Globals ModelState OptimState) :
  run_epochs forward_eval forward_train criterion backward_step
             train_loader val_loader (seq a len) g = Ok g' ->
  (forall n, a < n <= a + len ->
     exists d,
       files g' !! epoch_path n = Some (SavedDict d)
       /\ d !! "epoch" = Some (PInt n))
  /\ (forall p, p <> best_path -> (forall n, a < n <= a + len -> p <> epoch_path n) ->
        files g' !! p = files g !! p)
  /\ start_epoch g' = start_epoch g.
Proof.
  revert a g. induction len as [|len IH]; intros a g Hrun.
  - injection Hrun as <-. split; [intros n Hn; lia|]. split; reflexivity.
  - cbn [seq run_epochs] in Hrun.
    destruct (epoch_body _ _ _ _ _ _ a g) as [g1|] eqn:Hep; [|discriminate].
    cbn [mbind result_bind] in Hrun.
    destruct (IH (S a) g1 Hrun) as (Hnew & Hold & Hstart).
    destruct (epoch_body_inv _ _ _ _ _ _ _ _ _ Hep)
      as (m & o & train_loss & val_loss & val_acc & best & _ & _ & _ & Hg1).
    assert (Hfiles1 : forall p, p <> best_path ->
              files g1 !! p
              = (<[epoch_path (a + 1) :=
                     SavedDict (make_checkpoint a m o val_loss val_acc)]> (files g)
                 : gmap string (Saved ModelState OptimState)) !! p).
    { intros p Hp. rewrite Hg1. unfold after_epoch.
      destruct (Rlt_dec best val_acc); cbn [files]; [|reflexivity].
      apply lookup_insert_ne. intros E. apply Hp. symmetry. exact E. }
    split; [|split].
    + intros n Hn. destruct (Nat.eq_dec n (a + 1)) as [->|Hne].
      * rewrite Hold.
        -- rewrite Hfiles1 by apply epoch_path_not_best.
           rewrite lookup_insert_eq. eexists. split; [reflexivity|].
           apply checkpoint_epoch.
        -- apply epoch_path_not_best.
        -- intros n' Hn' Heq. apply epoch_path_inj in Heq. lia.
      * apply Hnew. lia.
    + intros p Hp Hother. rewrite Hold; [|exact Hp | intros n Hn; apply Hother; lia].
      rewrite Hfiles1 by exact Hp. apply lookup_insert_ne.
      intros Heq. apply (Hother (a + 1)); [lia | symmetry; exact Heq].
    + rewrite Hstart, Hg1. unfold after_epoch.
      destruct (Rlt_dec best val_acc); reflexivity.
Qed.

(** X23.  Resuming picks the interrupted run up where it stopped.  Let the
    loop have run the epochs s, ..., k - 1 and stopped, and let a new
    session, whatever its model and optimizer, find the same files.  Then
    resuming from the checkpoint of epoch k returns (given a non-empty
    training loader and a validation sample) with [start_epoch] k; it
    leaves the checkpoints of the epochs up to k and every file other than
    the best-model file and the later checkpoints as they were, and it
    writes, for every later epoch n up to [num_epochs], a checkpoint that
    records epoch n.  When an epoch is left, the first one trains the very
    model and optimizer the interrupted run had reached, and its result is
    the checkpoint of epoch k + 1; when none is left, the model, the
    optimizer and the files are those of the interrupted run. *)
Theorem resume_continues_training (s k : nat)
    (g gk g0 : Globals ModelState OptimState) :
  train_loader <> [] -> samples val_loader <> [] ->
  s < k ->
  run_epochs forward_eval forward_train criterion backward_step
             train_loader val_loader (range s k) g = Ok gk ->
  files g0 = files gk ->
  exists g_end,
    resume_and_train forward_eval forward_train criterion backward_step
                     train_loader val_loader (Some (epoch_path k)) g0 = Ok g_end
    /\ start_epoch g_end = k
    /\ (forall n, n <= k -> files g_end !! epoch_path n = files gk !! epoch_path n)
    /\ (forall p, p <> best_path ->
          (forall n, k < n <= num_epochs -> p <> epoch_path n) ->
          files g_end !! p = files gk !! p)
    /\ (forall n, k < n <= num_epochs ->
          exists d,
            files g_end !! epoch_path n = Some (SavedDict d)
            /\ d !! "epoch" = Some (PInt n))
    /\ (k < num_epochs ->
        exists m o train_loss val_loss val_acc,
          train forward_train criterion backward_step
                (model gk) (optimizer gk) train_loader = Ok (m, o, train_loss)
          /\ evaluate forward_eval criterion m val_loader = Ok (val_loss, val_acc)
          /\ files g_end !! epoch_path (k + 1)
             = Some (SavedDict (make_checkpoint k m o val_loss val_acc)))
    /\ (num_epochs <= k ->
        model g_end = model gk /\ optimizer g_end = optimizer gk
        /\ files g_end = files gk).
Proof.
  intros Ht Hv Hsk Hrun Hfiles0.
  assert (Hlast : exists val_loss val_acc,
             files gk !! epoch_path k
             = Some (SavedDict (make_checkpoint (k - 1) (model gk) (optimizer gk)
                                  val_loss val_acc))).
  { unfold range in Hrun. replace (k - s) with (S (k - s - 1)) in Hrun by lia.
    rewrite seq_S, run_epochs_app in Hrun.
    destruct (run_epochs _ _ _ _ _ _ (seq s (k - s - 1)) g) as [g1|];
      [|discriminate].
    cbn [mbind result_bind run_epochs] in Hrun.
    destruct (epoch_body _ _ _ _ _ _ (s + (k - s - 1)) g1) as [g2|] eqn:Hep;
      [|discriminate].
    cbn [mbind result_bind] in Hrun. injection Hrun as ->.
    destruct (epoch_body_last _ _ _ Hep) as ((vl & va & Hf) & _).
    replace (s + (k - s - 1) + 1) with k in Hf by lia.
    replace (s + (k - s - 1)) with (k - 1) in Hf by lia.
    exists vl, va. exact Hf. }
  destruct Hlast as (val_loss & val_acc & Hfile).
  rewrite <- Hfiles0 in Hfile.
  pose proof (resume_run (epoch_path k) g0 (k - 1) (model gk) (optimizer gk)
                val_loss val_acc (epoch_path_nonempty k) Hfile) as Hres.
  replace (k - 1 + 1) with k in Hres by lia.
  set (g3 := mkGlobals (model gk) (optimizer gk) k (PFloat val_acc) (files g0)
               (LineResumed k :: stdout g0)) in *.
  destruct (run_epochs_returns (range k num_epochs) g3 Ht Hv) as (g_end & Hend).
  { exists val_acc. reflexivity. }
  exists g_end.
  assert (Hdrv : resume_and_train forward_eval forward_train criterion backward_step
                   train_loader val_loader (Some (epoch_path k)) g0 = Ok g_end).
  { unfold resume_and_train. rewrite Hres. cbn [mbind result_bind].
    exact Hend. }
  split; [exact Hdrv|].
  pose proof Hend as Hend'. unfold range in Hend'.
  destruct (run_epochs_files (num_epochs - k) k g3 g_end Hend')
    as (Hnew & Hold & Hstart).
  cbn [files start_epoch g3] in Hold, Hstart. rewrite Hfiles0 in Hold.
  split; [exact Hstart|].
  split.
  { intros n Hn. apply Hold; [apply epoch_path_not_best|].
    intros n' Hn' Heq. apply epoch_path_inj in Heq. lia. }
  split.
  { intros p Hp Hother. apply Hold; [exact Hp|].
    intros n Hn. apply Hother. lia. }
  split.
  { intros n Hn. apply Hnew. lia. }
  split.
  - intros Hk. rewrite (range_cons k num_epochs Hk) in Hend.
    cbn [run_epochs] in Hend.
    destruct (epoch_body _ _ _ _ _ _ k g3) as [g4|] eqn:Hep; [|discriminate].
    cbn [mbind result_bind] in Hend.
    destruct (epoch_body_inv _ _ _ _ _ _ _ _ _ Hep)
      as (m & o & train_loss & vl & va & best & Htr & Hev & _ & Hg4).
    cbn [model optimizer g3] in Htr.
    exists m, o, train_loss, vl, va. split; [exact Htr|]. split; [exact Hev|].
    unfold range in Hend.
    destruct (run_epochs_files (num_epochs - (k + 1)) (k + 1) g4 g_end Hend)
      as (_ & Hold4 & _).
    rewrite Hold4.
    + rewrite Hg4. unfold after_epoch. destruct (Rlt_dec best va); cbn [files].
      * rewrite lookup_insert_ne
          by (intros E; symmetry in E; revert E; apply epoch_path_not_best).
        apply lookup_insert_eq.
      * apply lookup_insert_eq.
    + apply epoch_path_not_best.
    + intros n Hn Heq. apply epoch_path_inj in Heq. lia.
  - intros Hk. unfold range in Hend. replace (num_epochs - k) with 0 in Hend by lia.
    injection Hend as <-. cbn [model optimizer files g3].
    split; [reflexivity|]. split; [reflexivity | exact Hfiles0].
Qed.

End DriverMore.

(** ** The further properties on the sample inputs *)

Section SampleRunsMore.
Import Torch Model.

Lemma CBAM_forward_scales_down_witness :
  exists y,
    CBAM_forward Sample.gate Sample.patch = Ok y
    /\ (Rabs (at4 y 0 1 2 2) <= Rabs (at4 Sample.patch 0 1 2 2))%R.
Proof.
  destruct (CBAM_forward_scales_down 2 1 7 Sample.unit_weights Sample.gate Sample.patch)
    as (y & Hfwd & Hy).
  - reflexivity.
  - reflexivity.
  - reflexivity.
  - reflexivity.
  - cbn. lia.
  - cbn. lia.
  - exists y. split; [exact Hfwd|].
    destruct (Hy 0 1 2 2) as (factor & _ & _ & _ & Hle); cbn; try lia. exact Hle.
Defined.

Lemma CBAM_forward_channel_mismatch_witness :
  CBAM_forward Sample.gate Sample.pixel
  = Raise (RuntimeError "conv2d: channel mismatch").
Proof.
  apply (CBAM_forward_channel_mismatch 2 1 7 Sample.unit_weights Sample.gate Sample.pixel).
  - reflexivity.
  - reflexivity.
  - cbn. lia.
  - cbn. lia.
  - cbn. lia.
  - cbn. lia.
Defined.

Lemma CBAM_oversized_reduction_witness :
  exists m,
    CBAM_init 1 16 7 Sample.unit_weights = Ok m
    /\ CBAM_forward m Sample.pixel = Raise (RuntimeError "conv2d: empty weight").
Proof.
  destruct (CBAM_oversized_reduction 1 16 7 Sample.unit_weights Sample.pixel)
    as (m & Hm & _ & Hfwd).
  - lia.
  - lia.
  - reflexivity.
  - cbn. lia.
  - cbn. lia.
  - exists m. split; [exact Hm | exact Hfwd].
Defined.

Lemma BreastNetPP_forward_probabilities_witness :
  exists y,
    BreastNetPP_forward (set_mode false Sample.net) Sample.keep_all Sample.keep_all
                        Sample.features = Ok y
    /\ shape2 y = (2, 1).
Proof.
  destruct (BreastNetPP_forward_probabilities Sample.identity_backbone
              Sample.unit_weights Sample.head_weights Sample.net false
              Sample.keep_all Sample.keep_all Sample.features Sample.features)
    as (y & Hy & Hs & _).
  - reflexivity.
  - reflexivity.
  - reflexivity.
  - cbn. lia.
  - cbn. lia.
  - cbn. lia.
  - exists y. split; [exact Hy | exact Hs].
Defined.

Lemma BreastNetPP_forward_wrong_backbone_witness :
  BreastNetPP_forward (set_mode false Sample.net) Sample.keep_all Sample.keep_all
                      Sample.patch
  = Raise (RuntimeError "conv2d: channel mismatch").
Proof.
  destruct (BreastNetPP_forward_wrong_backbone Sample.identity_backbone
              Sample.unit_weights Sample.head_weights Sample.net false
              Sample.keep_all Sample.keep_all Sample.patch) as (Hwrong & _).
  - reflexivity.
  - apply (Hwrong Sample.patch).
    + reflexivity.
    + cbn. lia.
    + cbn. lia.
    + cbn. lia.
    + cbn. lia.
Defined.

Lemma evaluate_accuracy_any_batching_witness :
  exists loss1 loss2 accuracy,
    evaluate Sample.probability Sample.no_loss 0 Sample.val_batches
    = Ok (loss1, accuracy)
    /\ evaluate Sample.probability Sample.no_loss 0 SampleMore.single_batches
       = Ok (loss2, accuracy).
Proof.
  apply (evaluate_accuracy_any_batching Sample.probability Sample.no_loss 0
           Sample.val_batches SampleMore.single_batches).
  - reflexivity.
  - discriminate.
Defined.

Lemma evaluate_over_DataLoader_witness :
  exists batches loss,
    DataLoader SampleMore.val_items 8 = Ok batches
    /\ evaluate Sample.probability Sample.no_loss 0 batches
       = Ok (loss,
             (INR (length (List.filter (is_correct Sample.probability 0%nat)
                                       SampleMore.val_items)) / INR 2)%R).
Proof.
  destruct (evaluate_over_DataLoader Sample.probability Sample.no_loss 0
              SampleMore.val_items 8) as (batches & Hb & Hev & _).
  - lia.
  - destruct Hev as (loss & Hloss); [discriminate|].
    exists batches, loss. split; [exact Hb | exact Hloss].
Defined.

Lemma folders_benign :
  SampleMore.folders !! SampleMore.join "data" "benign" = Some ["a.png"].
Proof. unfold SampleMore.folders. apply lookup_insert_eq. Defined.

Lemma folders_malignant :
  SampleMore.folders !! SampleMore.join "data" "malignant" = Some ["b.png"; "c.png"].
Proof.
  unfold SampleMore.folders. rewrite lookup_insert_ne by discriminate.
  apply lookup_insert_eq.
Defined.

Lemma CustomDataset_init_layout_witness :
  exists ds : CustomDataset string,
    CustomDataset_init SampleMore.join SampleMore.folders "data" None = Ok ds
    /\ image_paths ds = ["data/benign/a.png"; "data/malignant/b.png";
                         "data/malignant/c.png"]
    /\ labels ds = [0; 1; 1].
Proof.
  destruct (CustomDataset_init_layout SampleMore.join SampleMore.folders "data"
              (@None (string -> string)) ["a.png"] ["b.png"; "c.png"]
              folders_benign folders_malignant)
    as (ds & Hds & Hpaths & Hlabels & _).
  exists ds. split; [exact Hds|]. split; [exact Hpaths | exact Hlabels].
Defined.

Lemma CustomDataset_getitem_label_witness :
  exists ds : CustomDataset string,
    CustomDataset_init SampleMore.join SampleMore.folders "data" None = Ok ds
    /\ CustomDataset_getitem SampleMore.decode SampleMore.to_rgb ds 3 = IndexError
    /\ CustomDataset_getitem SampleMore.decode SampleMore.to_rgb ds 1
       = Item ("data/malignant/b.png", true).
Proof.
  destruct (CustomDataset_getitem_label SampleMore.join SampleMore.decode
              SampleMore.to_rgb SampleMore.folders "data"
              (@None (string -> string)) ["a.png"] ["b.png"; "c.png"]
              folders_benign folders_malignant)
    as (ds & Hds & Hout & Hin).
  exists ds. split; [exact Hds|].
  pose proof Hds as Hds'.
  rewrite (CustomDataset_init_run SampleMore.join SampleMore.folders "data" None
             ["a.png"] ["b.png"; "c.png"] folders_benign folders_malignant) in Hds'.
  injection Hds' as <-.
  split.
  - apply Hout. cbn. lia.
  - destruct (Hin 1) as (path & Hpath & _ & Hitem); [cbn; lia|].
    cbn in Hpath. injection Hpath as <-.
    apply (Hitem "data/malignant/b.png"). reflexivity.
Defined.

Lemma sample_n_correct (m : nat) :
  n_correct Sample.probability m Sample.val_batches = 2.
Proof.
  unfold n_correct, samples, Sample.val_batches. cbn [concat app List.filter].
  unfold is_correct, prediction, Sample.probability. cbn [fst snd].
  rewrite threshold_one, threshold_zero. reflexivity.
Defined.

Lemma sample_evaluate (m : nat) :
  exists val_loss,
    evaluate Sample.probability Sample.no_loss m Sample.val_batches
    = Ok (val_loss, 1%R).
Proof.
  eexists.
  rewrite (evaluate_value Sample.probability Sample.no_loss m Sample.val_batches)
    by (cbn; lia).
  rewrite sample_n_correct. apply f_equal. apply f_equal2; [reflexivity|].
  cbn [samples Sample.val_batches concat app length INR]. field.
Defined.

Lemma sample_epoch :
  exists train_loss val_loss,
    epoch_body Sample.probability Sample.probabilities Sample.no_loss Sample.count_step
               Sample.train_batches Sample.val_batches 0 Sample.fresh_globals
    = Ok (after_epoch 0 Sample.fresh_globals 1 1 train_loss val_loss 1 0).
Proof.
  destruct (sample_evaluate 1) as (val_loss & Hev).
  eexists _, val_loss.
  apply (epoch_body_run Sample.probability Sample.probabilities Sample.no_loss
           Sample.count_step Sample.train_batches Sample.val_batches 0
           Sample.fresh_globals 1 1 _ val_loss 1 0).
  - reflexivity.
  - exact Hev.
  - reflexivity.
Defined.

Lemma training_cell_then_test_witness :
  exists g' m lines,
    training_cell Sample.probability Sample.probabilities Sample.no_loss
                  Sample.count_step Sample.train_batches Sample.val_batches
                  Sample.fresh_globals = Ok g'
    /\ test_model Sample.probability (files g') Sample.val_batches tested_path
       = Ok (m, lines).
Proof.
  destruct (training_cell_then_test Sample.probability Sample.probabilities
              Sample.no_loss Sample.count_step Sample.train_batches
              Sample.val_batches Sample.fresh_globals Sample.val_batches)
    as (g' & Hrun & _ & _ & _ & acc & prec & rec & f1 & Htest).
  - discriminate.
  - discriminate.
  - discriminate.
  - eexists g', _, _. split; [exact Hrun | exact Htest].
Defined.

Lemma commented_cell_then_test_witness :
  exists g',
    training_cell_commented Sample.probability Sample.probabilities Sample.no_loss
                            Sample.count_step Sample.train_batches Sample.val_batches
                            Sample.fresh_globals = Ok g'
    /\ test_model Sample.probability (files g') Sample.val_batches tested_path
       = Raise (FileNotFoundError tested_path).
Proof.
  destruct (commented_cell_then_test Sample.probability Sample.probabilities
              Sample.no_loss Sample.count_step Sample.train_batches
              Sample.val_batches Sample.fresh_globals Sample.val_batches)
    as (g' & Hrun & _ & Htest).
  - discriminate.
  - discriminate.
  - reflexivity.
  - exists g'. split; [exact Hrun | exact Htest].
Defined.

Lemma resume_after_epoch_witness :
  exists g' val_acc,
    epoch_body Sample.probability Sample.probabilities Sample.no_loss Sample.count_step
               Sample.train_batches Sample.val_batches 0 Sample.fresh_globals = Ok g'
    /\ resume (Some (epoch_path 1)) g'
       = Ok (mkGlobals (model g') (optimizer g') 1 (PFloat val_acc) (files g')
               (LineResumed 1 :: stdout g')).
Proof.
  destruct sample_epoch as (train_loss & val_loss & Hep).
  destruct (resume_after_epoch Sample.probability Sample.probabilities Sample.no_loss
              Sample.count_step Sample.train_batches Sample.val_batches 0
              Sample.fresh_globals _ Hep) as (vl & va & _ & Hres).
  eexists _, va. split; [exact Hep | exact Hres].
Defined.

Lemma best_model_file_is_no_checkpoint_witness :
  exists g',
    epoch_body Sample.probability Sample.probabilities Sample.no_loss Sample.count_step
               Sample.train_batches Sample.val_batches 0 Sample.fresh_globals = Ok g'
    /\ test_model Sample.probability (files g') Sample.val_batches best_path
       = Raise (KeyError "model_state_dict")
    /\ resume (Some best_path) g' = Raise (KeyError "model_state_dict").
Proof.
  destruct sample_epoch as (train_loss & val_loss & Hep).
  destruct (best_model_file_is_no_checkpoint Sample.probability Sample.probabilities
              Sample.no_loss Sample.count_step Sample.train_batches
              Sample.val_batches 0 Sample.fresh_globals _ Sample.val_batches Hep)
    as (_ & Htest & Hres).
  - unfold after_epoch. destruct (Rlt_dec 0 1) as [_|Hn]; [|exfalso; apply Hn; lra].
    cbn [best_val_acc Sample.fresh_globals]. intros [= H]. lra.
  - eexists. split; [exact Hep|]. split; [exact Htest | exact Hres].
Defined.

Lemma test_model_accuracy_is_evaluate_witness :
  exists loss acc prec rec f1,
    evaluate Sample.probability Sample.no_loss 4 Sample.val_batches = Ok (loss, acc)
    /\ test_model Sample.probability Sample.disk4 Sample.val_batches (epoch_path 4)
       = Ok (4, [LineF1 f1; LineRecall rec; LinePrecision prec;
                 LineAccuracy (Some acc); LineHeader]).
Proof.
  apply (test_model_accuracy_is_evaluate Sample.probability Sample.no_loss
           Sample.disk4 Sample.val_batches (epoch_path 4) Sample.checkpoint4 4).
  - unfold Sample.disk4. apply lookup_insert_eq.
  - unfold Sample.checkpoint4, make_checkpoint.
    rewrite lookup_insert_ne by discriminate. apply lookup_insert_eq.
  - discriminate.
Defined.

Lemma resume_past_last_epoch_witness :
  resume_and_train Sample.probability Sample.probabilities Sample.no_loss
                   Sample.count_step [] [] (Some (epoch_path 10)) SampleMore.globals10
  = Ok (mkGlobals 7 7 10
          (default (PFloat 0) (SampleMore.checkpoint10 !! "val_accuracy"))
          SampleMore.disk10 [LineResumed 10]).
Proof.
  apply (resume_past_last_epoch Sample.probability Sample.probabilities
           Sample.no_loss Sample.count_step [] [] (epoch_path 10)
           SampleMore.globals10 SampleMore.checkpoint10 7 7 10).
  - reflexivity.
  - unfold SampleMore.globals10, SampleMore.disk10. cbn [files].
    apply lookup_insert_eq.
  - unfold SampleMore.checkpoint10, make_checkpoint.
    rewrite lookup_insert_ne by discriminate. apply lookup_insert_eq.
  - unfold SampleMore.checkpoint10, make_checkpoint.
    rewrite !lookup_insert_ne by discriminate. apply lookup_insert_eq.
  - unfold SampleMore.checkpoint10, make_checkpoint. apply lookup_insert_eq.
  - unfold num_epochs. lia.
Defined.

Lemma best_model_matches_a_checkpoint_witness :
  exists g',
    run_epochs Sample.probability Sample.probabilities Sample.no_loss Sample.count_step
               Sample.train_batches Sample.val_batches (range 8 num_epochs)
               Sample.fresh_globals = Ok g'
    /\ (files g' !! best_path = None
        \/ exists n m, 8 < n <= num_epochs
                       /\ files g' !! best_path = Some (SavedStateDict m)).
Proof.
  destruct (best_model_matches_a_checkpoint Sample.probability Sample.probabilities
              Sample.no_loss Sample.count_step Sample.train_batches
              Sample.val_batches 8 0%R Sample.fresh_globals)
    as (g' & Hrun & Hinv).
  - discriminate.
  - discriminate.
  - reflexivity.
  - reflexivity.
  - exists g'. split; [exact Hrun|].
    destruct Hinv as [[Hnone _] | (n & m & o & vl & va & Hn & Hf & _)].
    + left. exact Hnone.
    + right. exists n, m. split; [exact Hn | exact Hf].
Defined.

Lemma resume_continues_training_witness :
  exists gk g_end,
    run_epochs Sample.probability Sample.probabilities Sample.no_loss Sample.count_step
               Sample.train_batches Sample.val_batches (range 0 1)
               Sample.fresh_globals = Ok gk
    /\ resume_and_train Sample.probability Sample.probabilities Sample.no_loss
                        Sample.count_step Sample.train_batches Sample.val_batches
                        (Some (epoch_path 1))
                        (mkGlobals 0 0 0 (PFloat 0) (files gk) []) = Ok g_end
    /\ start_epoch g_end = 1
    /\ files g_end !! epoch_path 1 = files gk !! epoch_path 1.
Proof.
  destruct sample_epoch as (train_loss & val_loss & Hep).
  assert (Hrun : run_epochs Sample.probability Sample.probabilities Sample.no_loss
                   Sample.count_step Sample.train_batches Sample.val_batches
                   (range 0 1) Sample.fresh_globals
                 = Ok (after_epoch 0 Sample.fresh_globals 1 1 train_loss val_loss 1 0)).
  { unfold range. cbn [Nat.sub seq run_epochs]. rewrite Hep. reflexivity. }
  destruct (resume_continues_training Sample.probability Sample.probabilities
              Sample.no_loss Sample.count_step Sample.train_batches
              Sample.val_batches 0 1 Sample.fresh_globals
              (after_epoch 0 Sample.fresh_globals 1 1 train_loss val_loss 1 0)
              (mkGlobals 0 0 0 (PFloat 0)
                 (files (after_epoch 0 Sample.fresh_globals 1 1 train_loss val_loss 1 0))
                 []))
    as (g_end & Hres & Hstart & Hkept & _).
  - discriminate.
  - discriminate.
  - lia.
  - exact Hrun.
  - reflexivity.
  - eexists _, g_end. split; [exact Hrun|]. split; [exact Hres|].
    split; [exact Hstart|]. apply Hkept. lia.
Defined.

End SampleRunsMore.

(** ** An epoch below an earlier best overwrites the best model *)

Section InterruptedRun.

Lemma flaky_train (m o : nat) :
  exists train_loss,
    train Interrupted.flaky_batch Sample.no_loss Interrupted.step m o
          Interrupted.train_images = Ok (S m, S o, train_loss).
Proof. eexists. reflexivity. Qed.

Lemma flaky_evaluate :
  (exists val_loss,
     evaluate Interrupted.flaky Sample.no_loss 1 Interrupted.val_images
     = Ok (val_loss, 1%R))
  /\ (exists val_loss,
        evaluate Interrupted.flaky Sample.no_loss 2 Interrupted.val_images
        = Ok (val_loss, 0%R))
  /\ (exists val_loss,
        evaluate Interrupted.flaky Sample.no_loss 3 Interrupted.val_images
        = Ok (val_loss, (1 / 2)%R)).
Proof.
  split; [|split]; eexists;
    rewrite (evaluate_value Interrupted.flaky Sample.no_loss _ Interrupted.val_images)
      by (cbn; lia);
    apply f_equal; (apply f_equal2; [reflexivity|]);
    unfold n_correct, samples, Interrupted.val_images;
    cbn [concat app List.filter];
    unfold is_correct, prediction; cbn [fst snd Interrupted.flaky];
    rewrite ?threshold_one, ?threshold_zero; cbn [Bool.eqb length INR]; field.
Qed.

(** C6, as stated, fails.  The loop runs two epochs from a fresh start: the
    first has validation accuracy 1 and its model becomes the best model,
    the second has accuracy 0.  The run is then resumed from the checkpoint
    of the second epoch, which re-seeds [best_val_acc] with 0, and the
    third epoch, with accuracy 1/2, overwrites the best model although 1/2
    is below the accuracy 1 seen, and printed, before. *)
Lemma resumed_epoch_overwrites_best :
  exists g2 g3 g4 train_loss1 val_loss1 train_loss3 val_loss3,
    run_epochs Interrupted.flaky Interrupted.flaky_batch Sample.no_loss
               Interrupted.step Interrupted.train_images Interrupted.val_images
               [0; 1] Sample.fresh_globals = Ok g2
    /\ In (LineEpochDone 1 train_loss1 val_loss1 1) (stdout g2)
    /\ files g2 !! best_path = Some (SavedStateDict 1)
    /\ resume (Some (epoch_path 2)) g2 = Ok g3
    /\ epoch_body Interrupted.flaky Interrupted.flaky_batch Sample.no_loss
                  Interrupted.step Interrupted.train_images Interrupted.val_images
                  2 g3 = Ok g4
    /\ In (LineEpochDone 3 train_loss3 val_loss3 (1 / 2)) (stdout g4)
    /\ (1 / 2 < 1)%R
    /\ files g4 !! best_path = Some (SavedStateDict 3).
Proof.
  destruct (flaky_train 0 0) as (tl1 & Ht1).
  destruct (flaky_train 1 1) as (tl2 & Ht2).
  destruct (flaky_train 2 2) as (tl3 & Ht3).
  destruct flaky_evaluate as ((vl1 & He1) & (vl2 & He2) & (vl3 & He3)).
  pose proof (epoch_body_run Interrupted.flaky Interrupted.flaky_batch Sample.no_loss
                Interrupted.step Interrupted.train_images Interrupted.val_images
                0 Sample.fresh_globals 1 1 tl1 vl1 1 0 Ht1 He1 eq_refl) as H0.
  rewrite after_epoch_better in H0 by lra.
  match type of H0 with _ = Ok ?x => set (g1 := x) in * end.
  pose proof (epoch_body_run Interrupted.flaky Interrupted.flaky_batch Sample.no_loss
                Interrupted.step Interrupted.train_images Interrupted.val_images
                1 g1 2 2 tl2 vl2 0 1 Ht2 He2 eq_refl) as H1.
  rewrite after_epoch_not_better in H1 by lra.
  match type of H1 with _ = Ok ?x => set (g2 := x) in * end.
  assert (Hfile2 : files g2 !! epoch_path 2
                   = Some (SavedDict (make_checkpoint 1 2 2 vl2 0)))
    by apply lookup_insert_eq.
  pose proof (resume_run (epoch_path 2) g2 1 2 2 vl2 0 (epoch_path_nonempty 2) Hfile2)
    as Hres.
  match type of Hres with _ = Ok ?x => set (g3 := x) in * end.
  pose proof (epoch_body_run Interrupted.flaky Interrupted.flaky_batch Sample.no_loss
                Interrupted.step Interrupted.train_images Interrupted.val_images
                2 g3 3 3 tl3 vl3 (1 / 2) 0 Ht3 He3 eq_refl) as H2.
  rewrite after_epoch_better in H2 by lra.
  match type of H2 with _ = Ok ?x => set (g4 := x) in * end.
  exists g2, g3, g4, tl1, vl1, tl3, vl3.
  split; [cbn [run_epochs]; rewrite H0; cbn [mbind result_bind]; rewrite H1;
          reflexivity|].
  split; [right; right; right; left; reflexivity|].
  split.
  { subst g2. cbn [files].
    rewrite lookup_insert_ne by apply epoch_path_not_best.
    subst g1. cbn [files]. apply lookup_insert_eq. }
  split; [exact Hres|]. split; [exact H2|].
  split; [right; left; reflexivity|].
  split; [lra|].
  subst g4. cbn [files]. apply lookup_insert_eq.
Qed.

End InterruptedRun.
